(** * CCCTemplate: the level staging pipeline, embedded and verified

    The repository is a contest workflow helper written three times over:
    [archive/ccc_core.py] with its driver [archive/ccc_runner.py], the
    single-file [ccc_simple.py], and the loose script [run_level.py].  All of
    them are glue around the local filesystem, a zip reader, a PDF text
    extractor and a child process.  This development embeds that glue over an
    explicit world (filesystem, console, operator) and proves the properties
    the specification states about it.

    Conventions of the embedding:
    - a path is the list of its components; relative paths are read from the
      working directory, which is the empty path; [Path.home()] is a
      component list supplied by the environment;
    - the filesystem is a finite map from paths to entries (POSIX semantics:
      names are case sensitive, [os.rename] replaces an existing file);
    - [self.log(message, level)] appends the pair [(level, message)] to the
      console; the symbol the source prefixes per level is decoration and is
      not recorded; [print] appends the text;
    - Python exceptions are values of [exn]; a computation returns [Ok v] or
      [Raise e] together with the world it leaves behind;
    - what the program cannot decide by itself (archive contents, PDF text,
      the child process, the operator at the keyboard) is read from [env]
      and from the [keyboard] component of the world. *)

From stdpp Require Import gmap strings list fin_maps.
From Stdlib Require Import ZArith DecimalString DecimalPos DecimalZ Ascii.

Open Scope string_scope.
Open Scope list_scope.

(** ** Strings and formatting *)

(** The double quote character, for templates that contain one. *)
Definition dq : string := String (ascii_of_nat 34) EmptyString.

(** The line feed character. *)
Definition nl : string := String (ascii_of_nat 10) EmptyString.

(** [str(n)] for a Python [int]. *)
Definition str_int (n : Z) : string := NilZero.string_of_int (Z.to_int n).

(** [str(n)] for a length. *)
Definition str_nat (n : nat) : string := NilZero.string_of_uint (Nat.to_uint n).

(** Concatenation of the lines of a text, each ended by a line feed. *)
Definition unlines (ls : list string) : string :=
  foldr (fun l acc => l +:+ nl +:+ acc) "" ls.

(** [haystack.endswith(suffix)] stated as a proposition. *)
Definition ends_with (suffix name : string) : Prop :=
  exists stem : string, name = stem +:+ suffix.

(** [needle in haystack] stated as a proposition. *)
Definition contains (needle name : string) : Prop :=
  exists a b : string, name = a +:+ needle +:+ b.

(** [s.lower()].  Strings are held as UTF-8 bytes: the letters A to Z are
    mapped to a to z, every other byte is kept. *)
Definition lower_ascii (c : ascii) : ascii :=
  let n := nat_of_ascii c in
  if (65 <=? n)%nat && (n <=? 90)%nat then ascii_of_nat (n + 32) else c.

Fixpoint lower (s : string) : string :=
  match s with
  | EmptyString => EmptyString
  | String c s' => String (lower_ascii c) (lower s')
  end.

(** [needle in haystack] as the test the code runs. *)
Fixpoint has_substring (needle haystack : string) : bool :=
  String.prefix needle haystack ||
  match haystack with
  | EmptyString => false
  | String _ haystack' => has_substring needle haystack'
  end.

(** ** Shell-style patterns

    [Path.glob] matches one path component against an [fnmatch] pattern.
    The patterns of this repository use literal characters and [*] only;
    [?] is included for completeness, character classes are not modelled. *)

Fixpoint fnmatch (pat : list ascii) : list ascii -> bool :=
  match pat with
  | [] => fun s => match s with [] => true | _ => false end
  | c :: pat' =>
      if Ascii.eqb c "*"%char then
        fix star (s : list ascii) : bool :=
          fnmatch pat' s || match s with [] => false | _ :: s' => star s' end
      else if Ascii.eqb c "?"%char then
        fun s => match s with [] => false | _ :: s' => fnmatch pat' s' end
      else
        fun s => match s with
                 | [] => false
                 | d :: s' => Ascii.eqb c d && fnmatch pat' s'
                 end
  end.

Definition glob_match (pattern name : string) : bool :=
  fnmatch (String.list_ascii_of_string pattern) (String.list_ascii_of_string name).

(** ** Paths and the filesystem *)

Abbreviation path := (list string).

(** [str(path)], with the POSIX separator. *)
Definition str_path (p : path) : string := String.concat "/" p.

(** [path.name]: the last component. *)
Definition name_of (p : path) : string := List.last p "".

(** [path.parent]. *)
Definition parent (p : path) : path := removelast p.

(** [q.relative_to(d)]: the components of [q] below [d], when [q] is [d] or
    lies under it. *)
Fixpoint relative_to (d q : path) : option path :=
  match d, q with
  | [], _ => Some q
  | a :: d', b :: q' => if decide (a = b) then relative_to d' q' else None
  | _ :: _, [] => None
  end.

(** The name of [q] when [q] is an entry directly inside [d]. *)
Definition child_name (d q : path) : option string :=
  match relative_to d q with
  | Some [n] => Some n
  | _ => None
  end.

Inductive entry : Type :=
  | File (content : string)
  | Dir.

#[global] Instance entry_eq_dec : EqDecision entry.
Proof. solve_decision. Defined.

Abbreviation fs := (gmap path entry).

Definition exists_ (t : fs) (p : path) : bool :=
  match p with
  | [] => true
  | _ => match t !! p with Some _ => true | None => false end
  end.

Definition is_file (t : fs) (p : path) : bool :=
  match t !! p with Some (File _) => true | _ => false end.

(** The working directory (the empty path) always exists. *)
Definition is_dir (t : fs) (p : path) : bool :=
  match p with
  | [] => true
  | _ => match t !! p with Some Dir => true | _ => false end
  end.

(** Names of the entries directly inside [d], in the map's key order.  The
    order in which the operating system lists a directory is unspecified;
    the general theorems below use membership and absence of repetition
    only. *)
Definition listdir (t : fs) (d : path) : list string :=
  omap (child_name d) (map_to_list t).*1.

(** [list(d.glob(pattern))] as names; a path that is no directory yields
    nothing. *)
Definition glob (t : fs) (d : path) (pattern : string) : list string :=
  if is_dir t d then filter (fun n => glob_match pattern n = true) (listdir t d)
  else [].

(** ** Exceptions and results *)

Inductive exn_class : Type :=
  | FileNotFoundError
  | FileExistsError
  | IsADirectoryError
  | NotADirectoryError
  | ShutilError
  | BadZipFile
  | EOFError
  | RuntimeError.

(** An exception: its class and [str(e)].  Every class above derives from
    [Exception], so [except Exception] catches each of them. *)
Record exn : Type := Exn { exn_class_of : exn_class; exn_msg : string }.

Inductive result (A : Type) : Type :=
  | Ok (v : A)
  | Raise (e : exn).
Arguments Ok {A} v.
Arguments Raise {A} e.

(** The operating system's errors, with CPython's rendering. *)
Definition os_error (c : exn_class) (errno strerror : string) (p : path) : exn :=
  Exn c ("[Errno " +:+ errno +:+ "] " +:+ strerror +:+ ": '" +:+ str_path p +:+ "'").

Definition enoent : path -> exn := os_error FileNotFoundError "2" "No such file or directory".
Definition eexist : path -> exn := os_error FileExistsError "17" "File exists".
Definition enotdir : path -> exn := os_error NotADirectoryError "20" "Not a directory".
Definition eisdir : path -> exn := os_error IsADirectoryError "21" "Is a directory".

(** ** Filesystem operations of the Python library *)

(** [open(p, 'w').write(content)]. *)
Definition write_text (p : path) (content : string) (t : fs) : result fs :=
  if is_dir t p then Raise (eisdir p)
  else if is_dir t (parent p) then Ok (<[p := File content]> t)
  else if exists_ t (parent p) then Raise (enotdir p)
  else Raise (enoent p).

(** [p.unlink()]. *)
Definition unlink (p : path) (t : fs) : result fs :=
  match t !! p with
  | Some (File _) => Ok (delete p t)
  | Some Dir => Raise (eisdir p)
  | None => Raise (enoent p)
  end.

(** [p.mkdir(exist_ok=True)]. *)
Definition mkdir_exist_ok (p : path) (t : fs) : result fs :=
  if is_dir t p then Ok t
  else if exists_ t p then Raise (eexist p)
  else if is_dir t (parent p) then Ok (<[p := Dir]> t)
  else if exists_ t (parent p) then Raise (enotdir p)
  else Raise (enoent p).

(** [os.makedirs] over the components [rest] below [base]: missing
    directories are created, a file in the way raises. *)
Fixpoint makedirs_from (base : path) (rest : list string) (t : fs) : result fs :=
  match rest with
  | [] => Ok t
  | c :: rest' =>
      let p := base ++ [c] in
      match t !! p with
      | Some Dir => makedirs_from p rest' t
      | Some (File _) => Raise (enotdir p)
      | None => makedirs_from p rest' (<[p := Dir]> t)
      end
  end.

Definition makedirs (p : path) (t : fs) : result fs := makedirs_from [] p t.

(** The entries at and below [src] re-keyed to [dst]; every other entry kept,
    unless a moved entry takes its key. *)
Definition rename_tree (src dst : path) (t : fs) : fs :=
  map_fold
    (fun p e acc =>
       match relative_to src p with
       | Some r => <[dst ++ r := e]> acc
       | None => acc
       end)
    (filter (fun pe => relative_to src pe.1 = None) t)
    t.

(** [os.rename(src, real_dst)] with [shutil.move]'s fallback to copy and
    delete, for a [real_dst] that is absent or a regular file. *)
Definition rename_or_copy (src real_dst : path) (t : fs) : result fs :=
  match t !! src with
  | None => Raise (enoent src)
  | Some (File c) =>
      if is_dir t (parent real_dst) then Ok (<[real_dst := File c]> (delete src t))
      else if exists_ t (parent real_dst) then Raise (enotdir real_dst)
      else Raise (enoent real_dst)
  | Some Dir =>
      if bool_decide (is_Some (relative_to src real_dst)) then
        Raise (Exn ShutilError
                 ("Cannot move a directory '" +:+ str_path src +:+
                  "' into itself '" +:+ str_path real_dst +:+ "'."))
      else if exists_ t real_dst then Raise (eexist real_dst)
      else if is_dir t (parent real_dst) then Ok (rename_tree src real_dst t)
      else
        match makedirs (parent real_dst) t with
        | Ok t1 => Ok (rename_tree src real_dst t1)
        | Raise e => Raise e
        end
  end.

(** [shutil.move(src, dst)]. *)
Definition shutil_move (src dst : path) (t : fs) : result fs :=
  if is_dir t dst then
    if decide (src = dst) then Ok t
    else
      let real_dst := dst ++ [name_of src] in
      if exists_ t real_dst then
        Raise (Exn ShutilError
                 ("Destination path '" +:+ str_path real_dst +:+ "' already exists"))
      else rename_or_copy src real_dst t
  else rename_or_copy src dst t.

(** One member of an archive written below [base], as
    [ZipFile._extract_member] does. *)
Definition extract_member (base : path) (m : path * entry) (t : fs) : result fs :=
  let target := base ++ m.1 in
  match (if exists_ t (parent target) then Ok t else makedirs (parent target) t) with
  | Raise e => Raise e
  | Ok t1 =>
      match m.2 with
      | Dir => if is_dir t1 target then Ok t1 else mkdir_exist_ok target t1
      | File c => write_text target c t1
      end
  end.

(** [ZipFile.extractall(base)] over the members in archive order; stops at
    the first member that cannot be written. *)
Fixpoint extractall (base : path) (members : list (path * entry)) (t : fs) : result fs * fs :=
  match members with
  | [] => (Ok t, t)
  | m :: members' =>
      match extract_member base m t with
      | Ok t1 => extractall base members' t1
      | Raise e => (Raise e, t)
      end
  end.

(** ** The world and the environment *)

(** One line of console output. *)
Inductive output : Type :=
  | Log (level message : string)
  | Printed (text : string).

(** One turn of the operator at an [input()] prompt: the files saved before
    pressing ENTER, and the line typed. *)
Record turn : Type := Turn { saved : list (path * string); typed : string }.

Record world : Type := World {
  files : fs;
  console : list output;
  keyboard : list turn
}.

Definition set_files (t : fs) (w : world) : world :=
  World t (console w) (keyboard w).

(** What the program reads from its surroundings. *)
Record env : Type := Env {
  (** [Path.home()] *)
  home : path;
  (** whether [import pdfplumber] succeeded ([PDF_AVAILABLE], [PDF_OK]) *)
  PDF_AVAILABLE : bool;
  (** the members of an archive given its bytes; [None] when it is no archive *)
  zip_members : string -> option (list (path * entry));
  (** [page.extract_text()] for the pages of a document given its bytes *)
  pdf_pages : string -> result (list string);
  (** [subprocess.run([sys.executable] + argv)] on the current files: the
      child's exit status and the files it leaves, or the exception raised
      while launching it *)
  subprocess_run : list string -> fs -> result (Z * fs)
}.

(** ** Computations *)

Definition M (A : Type) : Type := world -> result A * world.

Definition ret {A : Type} (v : A) : M A := fun w => (Ok v, w).

Definition bind {A B : Type} (m : M A) (k : A -> M B) : M B :=
  fun w =>
    match m w with
    | (Ok v, w1) => k v w1
    | (Raise e, w1) => (Raise e, w1)
    end.

Notation "'let*' x ':=' c1 'in' c2" := (bind c1 (fun x => c2))
  (at level 10, x name, c1 at level 100, c2 at level 200).
Notation "c1 >> c2" := (bind c1 (fun _ => c2))
  (at level 100, c2 at level 200, right associativity).

(** [raise e]. *)
Definition raise {A : Type} (e : exn) : M A := fun w => (Raise e, w).

(** [try: body except Exception as e: handler(e)]. *)
Definition try_except {A : Type} (body : M A) (handler : exn -> M A) : M A :=
  fun w =>
    match body w with
    | (Ok v, w1) => (Ok v, w1)
    | (Raise e, w1) => handler e w1
    end.

Definition get_files : M fs := fun w => (Ok (files w), w).

(** A filesystem operation run on the world's files. *)
Definition fs_op (f : fs -> result fs) : M unit :=
  fun w =>
    match f (files w) with
    | Ok t => (Ok tt, set_files t w)
    | Raise e => (Raise e, w)
    end.

(** [print(text)]. *)
Definition print (text : string) : M unit :=
  fun w => (Ok tt, World (files w) (console w ++ [Printed text]) (keyboard w)).

(** [input()]: the operator's next turn; end of input raises [EOFError]. *)
Definition input : M string :=
  fun w =>
    match keyboard w with
    | [] => (Raise (Exn EOFError "EOF when reading a line"), w)
    | k :: ks =>
        (Ok (typed k),
         World (foldl (fun t pc => <[pc.1 := File pc.2]> t) (files w) (saved k))
               (console w) ks)
    end.

(** [for x in xs: body(x)]. *)
Fixpoint for_each {A : Type} (xs : list A) (body : A -> M unit) : M unit :=
  match xs with
  | [] => ret tt
  | x :: xs' => body x >> for_each xs' body
  end.

(** A [for] loop that threads a local variable. *)
Fixpoint for_fold {A S : Type} (xs : list A) (s : S) (body : A -> S -> M S) : M S :=
  match xs with
  | [] => ret s
  | x :: xs' => let* s1 := body x s in for_fold xs' s1 body
  end.

(** [subprocess.run([sys.executable] + argv).returncode]. *)
Definition subprocess (E : env) (argv : list string) : M Z :=
  fun w =>
    match subprocess_run E argv (files w) with
    | Ok (code, t) => (Ok code, set_files t w)
    | Raise e => (Raise e, w)
    end.

(** [with zipfile.ZipFile(zip_path, 'r') as z: z.extractall(base)]. *)
Definition zip_extractall (E : env) (zip_path base : path) : M unit :=
  fun w =>
    match files w !! zip_path with
    | None => (Raise (enoent zip_path), w)
    | Some Dir => (Raise (eisdir zip_path), w)
    | Some (File bytes) =>
        match zip_members E bytes with
        | None => (Raise (Exn BadZipFile "File is not a zip file"), w)
        | Some members =>
            match extractall base members (files w) with
            | (Ok _, t) => (Ok tt, set_files t w)
            | (Raise e, t) => (Raise e, set_files t w)
            end
        end
    end.

(** [with pdfplumber.open(pdf_file) as pdf: [p.extract_text() for p in pdf.pages]]. *)
Definition pdfplumber_pages (E : env) (pdf_file : path) : M (list string) :=
  fun w =>
    match files w !! pdf_file with
    | None => (Raise (enoent pdf_file), w)
    | Some Dir => (Raise (eisdir pdf_file), w)
    | Some (File bytes) =>
        match pdf_pages E bytes with
        | Ok pages => (Ok pages, w)
        | Raise e => (Raise e, w)
        end
    end.

(** The first candidate that exists, as the early [return] of a [for] loop
    over the candidates finds it. *)
Definition first_existing (t : fs) (candidates : list path) : option path :=
  List.find (exists_ t) candidates.

(** [c * n] for a one-character string [c]. *)
Fixpoint str_repeat (c : string) (n : nat) : string :=
  match n with
  | O => ""
  | S n' => c +:+ str_repeat c n'
  end.

(** ** [archive/ccc_core.py]: class [CCCCore] *)

Module CCCCore.

(** [self.directories], set by [setup_directories]. *)
Definition inputs : path := ["Inputs"].
Definition outputs : path := ["Outputs"].
Definition infos : path := ["infos"].
Definition prompts : path := ["prompts"].
Definition levels : path := ["levels"].
Definition directories : list path := [inputs; outputs; infos; prompts; levels].

Definition log (message : string) (level : string) : M unit :=
  fun w => (Ok tt, World (files w) (console w ++ [Log level message]) (keyboard w)).

Definition print_header (title : string) : M unit :=
  print (nl +:+ str_repeat "=" 60) >>
  print title >>
  print (str_repeat "=" 60).

Definition print_separator : M unit := print (str_repeat "-" 60).

Definition setup_directories : M unit :=
  for_each directories (fun directory => fs_op (mkdir_exist_ok directory)).

Definition clear_folder (folder_path : path) (description : string) : M unit :=
  let* t := get_files in
  if exists_ t folder_path then
    let* files_removed :=
      for_fold (glob t folder_path "*") 0%nat
        (fun name files_removed =>
           let file := folder_path ++ [name] in
           let* t1 := get_files in
           if is_file t1 file then
             fs_op (unlink file) >> ret (S files_removed)
           else ret files_removed) in
    if (0 <? files_removed)%nat then
      log ("Cleared " +:+ str_nat files_removed +:+ " files from " +:+ description) "INFO"
    else ret tt
  else ret tt.

Section Methods.

Variable E : env.
Variable level_number : Z.

Definition find_zip_file : M (option path) :=
  let zip_filename := "level" +:+ str_int level_number +:+ ".zip" in
  let downloads_path := home E ++ ["Downloads"; zip_filename] in
  let* t := get_files in
  if exists_ t downloads_path then
    log ("Found " +:+ zip_filename +:+ " in Downloads folder") "INFO" >>
    ret (Some downloads_path)
  else
    let current_path := [zip_filename] in
    if exists_ t current_path then
      log ("Found " +:+ zip_filename +:+ " in current directory") "INFO" >>
      ret (Some current_path)
    else
      log ("ZIP file " +:+ zip_filename +:+ " not found") "ERROR" >>
      ret None.

Definition extract_zip : M bool :=
  let* zip_path := find_zip_file in
  match zip_path with
  | None => ret false
  | Some zip_path =>
      log ("Extracting " +:+ name_of zip_path +:+ "...") "INFO" >>
      try_except
        (zip_extractall E zip_path infos >>
         log "ZIP file extracted successfully" "SUCCESS" >>
         ret true)
        (fun e =>
           log ("Error extracting ZIP: " +:+ exn_msg e) "ERROR" >>
           ret false)
  end.

Definition pdf_patterns : list string :=
  [ "Level " +:+ str_int level_number +:+ ".pdf";
    "level" +:+ str_int level_number +:+ ".pdf";
    "Level" +:+ str_int level_number +:+ ".pdf";
    "level " +:+ str_int level_number +:+ ".pdf" ].

Definition find_pdf_file : M (option path) :=
  let downloads_path := home E ++ ["Downloads"] in
  let* t := get_files in
  match first_existing t (map (fun pattern => downloads_path ++ [pattern]) pdf_patterns) with
  | Some potential_file =>
      log ("Found PDF in Downloads: " +:+ name_of potential_file) "INFO" >>
      ret (Some potential_file)
  | None =>
      match first_existing t (map (fun pattern => infos ++ [pattern]) pdf_patterns) with
      | Some potential_file =>
          log ("Found PDF in infos: " +:+ name_of potential_file) "INFO" >>
          ret (Some potential_file)
      | None =>
          match glob t infos "*.pdf" with
          | name :: _ =>
              log ("Found PDF: " +:+ name) "INFO" >>
              ret (Some (infos ++ [name]))
          | [] => ret None
          end
      end
  end.

(** The loop of [extract_pdf_text] over [enumerate(pdf.pages)], from page
    index [i]; a page without text adds nothing. *)
Fixpoint page_texts (i : nat) (pages : list string) : string :=
  match pages with
  | [] => ""
  | text :: pages' =>
      (if String.eqb text "" then ""
       else nl +:+ "--- Page " +:+ str_nat (i + 1) +:+ " ---" +:+ nl +:+ text +:+ nl)
      +:+ page_texts (S i) pages'
  end.

Definition extract_pdf_text : M (option string) :=
  if negb (PDF_AVAILABLE E) then
    log "pdfplumber not installed - skipping PDF extraction" "WARNING" >>
    ret None
  else
    let* pdf_file := find_pdf_file in
    match pdf_file with
    | None => log "No PDF file found" "WARNING" >> ret None
    | Some pdf_file =>
        try_except
          (let* pages := pdfplumber_pages E pdf_file in
           let full_text := page_texts 0 pages in
           log ("Extracted text from " +:+ name_of pdf_file +:+ " (" +:+
                str_nat (String.length full_text) +:+ " characters)") "SUCCESS" >>
           ret (Some full_text))
          (fun e =>
             log ("Error extracting PDF text: " +:+ exn_msg e) "ERROR" >>
             ret None)
    end.

Definition get_prompt_file_path : path :=
  prompts ++ ["level" +:+ str_int level_number +:+ "_prompt.txt"].

(** The text rendered by [create_ai_prompt]. *)
Definition prompt_text (pdf_text : string) : string := unlines [
    "# Coding Challenge - Level " +:+ str_int level_number;
    "";
    "## Problem Description (from PDF):";
    "";
    pdf_text;
    "";
    "## Task:";
    "Create a Python solution that:";
    "1. Reads input files from the Inputs/ folder";
    "2. Processes each input according to the problem description";
    "3. Writes output files to the Outputs/ folder with the same name but .out extension";
    "";
    "## Input Files:";
    "- Located in: Inputs/";
    "- Format: level" +:+ str_int level_number +:+ "_*.in";
    "";
    "## Output Files:";
    "- Should be written to: Outputs/";
    "- Format: level" +:+ str_int level_number +:+ "_*.out";
    "";
    "## Example Structure:";
    "```python";
    "from pathlib import Path";
    "";
    "def solve(input_data):";
    "    # Your solution logic here";
    "    pass";
    "";
    "def main():";
    "    input_folder = Path(" +:+ dq +:+ "Inputs" +:+ dq +:+ ")";
    "    output_folder = Path(" +:+ dq +:+ "Outputs" +:+ dq +:+ ")";
    "    output_folder.mkdir(exist_ok=True)";
    "    ";
    "    for input_file in sorted(input_folder.glob(" +:+ dq +:+ "level" +:+ str_int level_number +:+ "_*.in" +:+ dq +:+ ")):";
    "        with open(input_file, 'r') as f:";
    "            data = f.read().strip()";
    "        ";
    "        result = solve(data)";
    "        ";
    "        output_file = output_folder / input_file.name.replace('.in', '.out')";
    "        with open(output_file, 'w') as f:";
    "            f.write(str(result))";
    "";
    "if __name__ == " +:+ dq +:+ "__main__" +:+ dq +:+ ":";
    "    main()";
    "```";
    "";
    "Please provide a complete Python solution for this problem.";
    "";
    "The file should be named: level" +:+ str_int level_number +:+ ".py"
  ].

Definition create_ai_prompt (pdf_text : string) : M string :=
  let prompt := prompt_text pdf_text in
  let prompt_file := get_prompt_file_path in
  fs_op (write_text prompt_file prompt) >>
  log ("AI prompt saved to: " +:+ str_path prompt_file) "SUCCESS" >>
  ret prompt.

Definition organize_files : M (nat * nat) :=
  log "Organizing files..." "INFO" >>
  let* t := get_files in
  let in_files := glob t infos "*.in" in
  for_each in_files
    (fun name =>
       let dest := inputs ++ [name] in
       fs_op (shutil_move (infos ++ [name]) dest) >>
       log ("Moved " +:+ name +:+ " -> Inputs/") "INFO") >>
  let* t1 := get_files in
  let example_out_files := glob t1 infos "*example*.out" in
  for_each example_out_files
    (fun name =>
       let dest := outputs ++ [name] in
       fs_op (shutil_move (infos ++ [name]) dest) >>
       log ("Moved " +:+ name +:+ " -> Outputs/") "INFO") >>
  log ("Organized " +:+ str_nat (length in_files) +:+ " input files and " +:+
       str_nat (length example_out_files) +:+ " example output files") "SUCCESS" >>
  ret (length in_files, length example_out_files).

Definition run_python_script (script_path : path) : M Z :=
  try_except
    (subprocess E [str_path script_path])
    (fun e =>
       log ("Error running " +:+ str_path script_path +:+ ": " +:+ exn_msg e) "ERROR" >>
       ret 1%Z).

Definition find_level_script : M (option path) :=
  let script_name := "level" +:+ str_int level_number +:+ ".py" in
  let* t := get_files in
  let current_path := [script_name] in
  if exists_ t current_path then ret (Some current_path)
  else
    let levels_path := levels ++ [script_name] in
    if exists_ t levels_path then ret (Some levels_path)
    else ret None.

Definition count_output_files : M nat :=
  let* t := get_files in
  ret (length (glob t outputs "*.out")).

Definition cleanup_infos : M unit :=
  log "Cleaning up infos/ folder..." "INFO" >>
  let* t := get_files in
  let* files_removed :=
    for_fold (glob t infos "*") 0%nat
      (fun name files_removed =>
         let file := infos ++ [name] in
         let* t1 := get_files in
         if is_file t1 file then
           fs_op (unlink file) >> ret (S files_removed)
         else ret files_removed) in
  if (0 <? files_removed)%nat then
    log ("Cleaned up " +:+ str_nat files_removed +:+ " files from infos/") "SUCCESS"
  else ret tt.

(** [CCCCore(level_number)]: the constructor. *)
Definition init : M unit := setup_directories.

(** The module-level [check_python_dependencies()]. *)
Definition check_python_dependencies : M unit :=
  let missing_packages := if negb (PDF_AVAILABLE E) then ["pdfplumber"] else [] in
  match missing_packages with
  | [] => ret tt
  | _ =>
      print "‚ö†Ô∏è  Missing optional dependencies:" >>
      for_each missing_packages (fun package => print ("   pip install " +:+ package)) >>
      print ""
  end.

End Methods.

End CCCCore.

(** ** [archive/ccc_ai_automation.py]: the workflow guide *)

Module AIAutomation.

Section Functions.

Variable level_number : Z.

Definition workflow_content (prompt_file : path) : string := unlines [
    "# Level " +:+ str_int level_number +:+ " - AI Workflow";
    "";
    "## Step 1: Copy the Prompt";
    "Copy the content from: `" +:+ str_path prompt_file +:+ "`";
    "";
    "## Step 2: Send to AI";
    "Paste the prompt into:";
    "- GitHub Copilot Chat in VS Code";
    "- ChatGPT, Claude, or your preferred AI";
    "- Any coding assistant";
    "";
    "## Step 3: Generate Solution  ";
    "Ask the AI to:";
    "1. Generate a complete Python solution";
    "2. Save it as `level" +:+ str_int level_number +:+ ".py`";
    "3. Make sure it reads from `Inputs/` and writes to `Outputs/`";
    "";
    "## Step 4: Test";
    "Run: `python level" +:+ str_int level_number +:+ ".py`";
    "";
    "## Step 5: Continue Automation";
    "Run: `python run_level.py " +:+ str_int level_number +:+ "` to complete the process";
    "";
    "---";
    "*This workflow was auto-generated by CCC AI Automation*"
  ].

Definition create_ai_workflow_file : M path :=
  let workflow_file := ["level" +:+ str_int level_number +:+ "_ai_workflow.md"] in
  let prompt_file := CCCCore.get_prompt_file_path level_number in
  fs_op (write_text workflow_file (workflow_content prompt_file)) >>
  CCCCore.log ("Created AI workflow guide: " +:+ str_path workflow_file) "SUCCESS" >>
  ret workflow_file.

Definition _try_direct_ai_request (prompt : string) : M bool :=
  CCCCore.log "Direct AI request method not implemented yet" "WARNING" >>
  ret false.

(** The dictionary built by [_analyze_prompt]; the key ['line_based'] is set
    only when the prompt mentions lines. *)
Record template_info : Type := TemplateInfo {
  has_multiple_inputs : bool;
  input_format : string;
  output_format : string;
  info_level_number : Z;
  line_based : option bool
}.

Definition _analyze_prompt (prompt : string) : template_info :=
  TemplateInfo
    (has_substring "multiple" (lower prompt) || has_substring "each" (lower prompt))
    (if has_substring "integer" (lower prompt) || has_substring "number" (lower prompt)
     then "numbers" else "text")
    "text"
    level_number
    (if has_substring "line" (lower prompt) then Some true else None).

Definition _generate_template_code (info : template_info) : string := unlines [
    dq +:+ dq +:+ dq;
    "Solution for Level " +:+ str_int (info_level_number info) +:+ " - Auto-generated template";
    "";
    "TODO: Implement the solve() function based on the problem requirements.";
    dq +:+ dq +:+ dq;
    "";
    "from pathlib import Path";
    "";
    "";
    "def solve(input_data):";
    "    " +:+ dq +:+ dq +:+ dq;
    "    Solve the problem for given input data.";
    "    ";
    "    Args:";
    "        input_data (str): The input data as a string";
    "        ";
    "    Returns:";
    "        str: The solution output";
    "    " +:+ dq +:+ dq +:+ dq;
    "    # TODO: Implement your solution logic here";
    "    lines = input_data.strip().split('\n')";
    "    ";
    "    # Example processing - replace with actual logic";
    "    result = " +:+ dq +:+ "0" +:+ dq +:+ "  # Placeholder result";
    "    ";
    "    return result";
    "";
    "";
    "def main():";
    "    " +:+ dq +:+ dq +:+ dq +:+ "Main function to process all input files." +:+ dq +:+ dq +:+ dq;
    "    input_folder = Path(" +:+ dq +:+ "Inputs" +:+ dq +:+ ")";
    "    output_folder = Path(" +:+ dq +:+ "Outputs" +:+ dq +:+ ")";
    "    output_folder.mkdir(exist_ok=True)";
    "    ";
    "    # Find all input files for this level";
    "    pattern = f" +:+ dq +:+ "level" +:+ str_int (info_level_number info) +:+ "_*.in" +:+ dq;
    "    input_files = sorted(input_folder.glob(pattern))";
    "    ";
    "    if not input_files:";
    "        print(f" +:+ dq +:+ "No input files found matching pattern: {pattern}" +:+ dq +:+ ")";
    "        return";
    "    ";
    "    print(f" +:+ dq +:+ "Processing {len(input_files)} input files..." +:+ dq +:+ ")";
    "    ";
    "    for input_file in input_files:";
    "        print(f" +:+ dq +:+ "Processing {input_file.name}..." +:+ dq +:+ ")";
    "        ";
    "        # Read input";
    "        with open(input_file, 'r', encoding='utf-8') as f:";
    "            input_data = f.read().strip()";
    "        ";
    "        # Solve the problem";
    "        result = solve(input_data)";
    "        ";
    "        # Write output";
    "        output_file = output_folder / input_file.name.replace('.in', '.out')";
    "        with open(output_file, 'w', encoding='utf-8') as f:";
    "            f.write(str(result))";
    "        ";
    "        print(f" +:+ dq +:+ "Generated {output_file.name}" +:+ dq +:+ ")";
    "    ";
    "    print(" +:+ dq +:+ "All input files processed successfully!" +:+ dq +:+ ")";
    "";
    "";
    "if __name__ == " +:+ dq +:+ "__main__" +:+ dq +:+ ":";
    "    main()"
  ].

Definition _try_template_generation (prompt : string) : M bool :=
  try_except
    (CCCCore.log "Generating solution template..." "INFO" >>
     let template_info := _analyze_prompt prompt in
     let solution_code := _generate_template_code template_info in
     let solution_path := ["level" +:+ str_int level_number +:+ ".py"] in
     fs_op (write_text solution_path solution_code) >>
     CCCCore.log ("Generated solution template: " +:+ str_path solution_path) "SUCCESS" >>
     CCCCore.log "⚠️  Template generated - you may need to implement the solve() function" "WARNING" >>
     ret true)
    (fun e =>
       CCCCore.log ("Template generation failed: " +:+ exn_msg e) "ERROR" >>
       ret false).

End Functions.

End AIAutomation.

(** ** [archive/ccc_runner.py]: class [CCCRunner]

    The automation mode hands the work to [AIAutomation]'s strategies and
    then ends in [_run_solution] like the modes below; it is not
    embedded. *)

Module CCCRunner.

Section Methods.

Variable E : env.
Variable level_number : Z.

Definition _run_processing_pipeline : M bool :=
  CCCCore.log "Starting processing pipeline..." "STEP" >>
  CCCCore.clear_folder CCCCore.inputs "Inputs" >>
  CCCCore.clear_folder CCCCore.outputs "Outputs" >>
  let* extracted := CCCCore.extract_zip E level_number in
  if negb extracted then ret false
  else
    let* pdf_text := CCCCore.extract_pdf_text E level_number in
    (match pdf_text with
     | Some text =>
         if String.eqb text "" then
           CCCCore.log "PDF processing failed - manual prompt needed" "WARNING"
         else
           CCCCore.create_ai_prompt level_number text >> ret tt
     | None =>
         CCCCore.log "PDF processing failed - manual prompt needed" "WARNING"
     end) >>
    CCCCore.organize_files >>
    CCCCore.log "Processing pipeline completed" "SUCCESS" >>
    ret true.

Definition _run_solution : M Z :=
  CCCCore.print_separator >>
  CCCCore.log ("Running level" +:+ str_int level_number +:+ ".py...") "STEP" >>
  let* solution_path := CCCCore.find_level_script level_number in
  match solution_path with
  | None =>
      CCCCore.log ("level" +:+ str_int level_number +:+ ".py not found!") "ERROR" >>
      ret 1%Z
  | Some solution_path =>
      let* exit_code := CCCCore.run_python_script E solution_path in
      if negb (exit_code =? 0)%Z then
        CCCCore.log ("Solution failed (exit code: " +:+ str_int exit_code +:+ ")") "ERROR" >>
        ret exit_code
      else
        let* output_count := CCCCore.count_output_files in
        CCCCore.log ("Generated " +:+ str_nat output_count +:+ " output files") "SUCCESS" >>
        CCCCore.cleanup_infos >>
        CCCCore.print_header ("🎉 Level " +:+ str_int level_number +:+ " Completed Successfully!") >>
        CCCCore.log "📁 Output files ready in: Outputs/" "INFO" >>
        CCCCore.log "🚀 Ready for submission!" "INFO" >>
        ret 0%Z
  end.

Definition run_interactive : M Z :=
  CCCCore.print_header ("👤 CCC Level " +:+ str_int level_number +:+ " - Interactive Mode") >>
  let* processed := _run_processing_pipeline in
  if negb processed then ret 1%Z
  else
    let* workflow_file := AIAutomation.create_ai_workflow_file level_number in
    CCCCore.print_header ("⏸️  PAUSED - Create level" +:+ str_int level_number +:+ ".py now") >>
    let prompt_file := CCCCore.get_prompt_file_path level_number in
    CCCCore.log ("📋 AI prompt: " +:+ str_path prompt_file) "INFO" >>
    CCCCore.log ("📖 Workflow guide: " +:+ str_path workflow_file) "INFO" >>
    CCCCore.log "📁 Input files ready in: Inputs/" "INFO" >>
    CCCCore.log ("🎯 Create solution: level" +:+ str_int level_number +:+ ".py") "INFO" >>
    print ("\nPress ENTER when level" +:+ str_int level_number +:+ ".py is ready...") >>
    input >>
    _run_solution.

Definition run_process_only : M Z :=
  CCCCore.print_header ("📦 CCC Level " +:+ str_int level_number +:+ " - Process Only Mode") >>
  let* processed := _run_processing_pipeline in
  if processed then
    let* workflow_file := AIAutomation.create_ai_workflow_file level_number in
    CCCCore.print_header "Processing Complete!" >>
    CCCCore.log ("📋 AI prompt: " +:+ str_path (CCCCore.get_prompt_file_path level_number)) "INFO" >>
    CCCCore.log ("📖 Workflow guide: " +:+ str_path workflow_file) "INFO" >>
    CCCCore.log "📁 Input files in: Inputs/" "INFO" >>
    CCCCore.log ("🎯 Next: Create level" +:+ str_int level_number +:+ ".py") "INFO" >>
    ret 0%Z
  else ret 1%Z.

Definition run_template_generation : M Z :=
  CCCCore.print_header ("📝 CCC Level " +:+ str_int level_number +:+ " - Template Generation") >>
  let* processed := _run_processing_pipeline in
  if negb processed then ret 1%Z
  else
    CCCCore.log "Generating solution template..." "STEP" >>
    let* generated := AIAutomation._try_template_generation level_number "" in
    if generated then
      CCCCore.log ("Template generated: level" +:+ str_int level_number +:+ ".py") "SUCCESS" >>
      CCCCore.log "⚠️  Please implement the solve() function" "WARNING" >>
      print "\nRun the template now? [y/N]: " >>
      let* answer := input in
      if bool_decide (lower answer ∈ ["y"; "yes"]) then _run_solution
      else ret 0%Z
    else
      CCCCore.log "Template generation failed" "ERROR" >>
      ret 1%Z.

(** [main()] in the default mode: the dependency check, the constructor,
    [run_interactive]; its value is the argument of [sys.exit]. *)
Definition main_interactive : M Z :=
  CCCCore.check_python_dependencies E >>
  CCCCore.init >>
  run_interactive.

End Methods.

End CCCRunner.

(** ** [ccc_simple.py]: class [CCCSimple] *)

Module CCCSimple.

Definition log (msg : string) (typ : string) : M unit :=
  fun w => (Ok tt, World (files w) (console w ++ [Log typ msg]) (keyboard w)).

Definition header (title : string) : M unit :=
  print (nl +:+ str_repeat "=" 60 +:+ nl +:+ title +:+ nl +:+ str_repeat "=" 60).

Definition setup_dirs : M unit :=
  for_each [["Inputs"]; ["Outputs"]; ["infos"]]
    (fun folder => fs_op (mkdir_exist_ok folder)).

Section Methods.

Variable E : env.
Variable level : Z.

Definition find_zip : M path :=
  let zip_name := "level" +:+ str_int level +:+ ".zip" in
  let downloads := home E ++ ["Downloads"; zip_name] in
  let* t := get_files in
  if exists_ t downloads then
    log ("ZIP gefunden: " +:+ str_path downloads) "INFO" >>
    ret downloads
  else
    let local := [zip_name] in
    if exists_ t local then
      log ("ZIP gefunden: " +:+ str_path local) "INFO" >>
      ret local
    else
      raise (Exn FileNotFoundError ("❌ " +:+ zip_name +:+ " nicht gefunden!")).

Definition extract_zip : M unit :=
  let* zip_path := find_zip in
  log "Extrahiere ZIP..." "INFO" >>
  zip_extractall E zip_path ["infos"] >>
  log "ZIP extrahiert" "OK".

Definition patterns : list string :=
  [ "Level " +:+ str_int level +:+ ".pdf";
    "level" +:+ str_int level +:+ ".pdf";
    "Level" +:+ str_int level +:+ ".pdf" ].

Definition find_pdf : M path :=
  let* t := get_files in
  match first_existing t (map (fun pattern => home E ++ ["Downloads"; pattern]) patterns) with
  | Some pdf_path => ret pdf_path
  | None =>
      match first_existing t (map (fun pattern => ["infos"; pattern]) patterns) with
      | Some pdf_path => ret pdf_path
      | None =>
          match glob t ["infos"] "*.pdf" with
          | name :: _ => ret ["infos"; name]
          | [] => raise (Exn FileNotFoundError "❌ Keine PDF gefunden!")
          end
      end
  end.

(** The loop of [extract_pdf_text] over [pdf.pages]. *)
Fixpoint page_texts (pages : list string) : string :=
  match pages with
  | [] => ""
  | page_text :: pages' =>
      (if String.eqb page_text "" then "" else page_text +:+ nl) +:+ page_texts pages'
  end.

Definition extract_pdf_text : M string :=
  if negb (PDF_AVAILABLE E) then
    log "pdfplumber nicht installiert - PDF wird übersprungen" "WARN" >>
    ret ""
  else
    try_except
      (let* pdf_path := find_pdf in
       log ("Extrahiere Text aus: " +:+ name_of pdf_path) "INFO" >>
       let* pages := pdfplumber_pages E pdf_path in
       let text := page_texts pages in
       log ("PDF-Text extrahiert (" +:+ str_nat (String.length text) +:+ " Zeichen)") "OK" >>
       ret text)
      (fun e =>
         log ("PDF-Extraktion fehlgeschlagen: " +:+ exn_msg e) "WARN" >>
         ret "").

(** The text put in the description section when no document text is at hand. *)
Definition placeholder : string := "[PDF nicht verfügbar - Problem manuell eingeben]".

(** The text rendered by [create_ai_prompt]. *)
Definition prompt_text (pdf_text : string) : string := unlines [
    "# Coding Challenge - Level " +:+ str_int level;
    "";
    "## Problembeschreibung:";
    (if String.eqb pdf_text "" then placeholder else pdf_text);
    "";
    "## Aufgabe:";
    "Erstelle eine vollständige Python-Lösung die:";
    "1. Input-Dateien aus Inputs/ liest";
    "2. Jede Eingabe gemäß Problembeschreibung verarbeitet  ";
    "3. Output-Dateien nach Outputs/ schreibt";
    "";
    "## Input-Dateien:";
    "- Pfad: Inputs/";
    "- Format: level" +:+ str_int level +:+ "_*.in";
    "";
    "## Output-Dateien:";
    "- Pfad: Outputs/  ";
    "- Format: level" +:+ str_int level +:+ "_*.out";
    "";
    "## Template:";
    "```python";
    "from pathlib import Path";
    "";
    "def solve(input_data):";
    "    # Deine Lösung hier";
    "    lines = input_data.strip().split('\n')";
    "    # ... Verarbeitung ...";
    "    return " +:+ dq +:+ "result" +:+ dq;
    "";
    "def main():";
    "    input_folder = Path(" +:+ dq +:+ "Inputs" +:+ dq +:+ ")";
    "    output_folder = Path(" +:+ dq +:+ "Outputs" +:+ dq +:+ ")";
    "    output_folder.mkdir(exist_ok=True)";
    "    ";
    "    for input_file in sorted(input_folder.glob(" +:+ dq +:+ "level" +:+ str_int level +:+ "_*.in" +:+ dq +:+ ")):";
    "        with open(input_file, 'r') as f:";
    "            data = f.read()";
    "        ";
    "        result = solve(data)";
    "        ";
    "        output_file = output_folder / input_file.name.replace('.in', '.out')";
    "        with open(output_file, 'w') as f:";
    "            f.write(str(result))";
    "        print(f" +:+ dq +:+ "Generiert: {output_file.name}" +:+ dq +:+ ")";
    "";
    "if __name__ == " +:+ dq +:+ "__main__" +:+ dq +:+ ":";
    "    main()";
    "```";
    "";
    "Bitte erstelle eine vollständige Lösung und speichere sie als level" +:+ str_int level +:+ ".py"
  ].

Definition prompt_file : path := ["level" +:+ str_int level +:+ "_prompt.txt"].

Definition create_ai_prompt (pdf_text : string) : M string :=
  let prompt := prompt_text pdf_text in
  fs_op (write_text prompt_file prompt) >>
  log ("AI-Prompt gespeichert: " +:+ str_path prompt_file) "OK" >>
  ret prompt.

Definition organize_files : M unit :=
  log "Organisiere Dateien..." "INFO" >>
  let* t := get_files in
  let in_files := glob t ["infos"] "*.in" in
  for_each in_files
    (fun name => fs_op (shutil_move ["infos"; name] ["Inputs"; name])) >>
  let* t1 := get_files in
  let out_files := glob t1 ["infos"] "*.out" in
  for_each out_files
    (fun name => fs_op (shutil_move ["infos"; name] ["Outputs"; name])) >>
  log ("Dateien organisiert: " +:+ str_nat (length in_files) +:+ " .in, " +:+
       str_nat (length out_files) +:+ " .out") "OK".

Definition run_solution : M bool :=
  let solution_file := "level" +:+ str_int level +:+ ".py" in
  let* t := get_files in
  if negb (exists_ t [solution_file]) then
    log (solution_file +:+ " nicht gefunden!") "ERROR" >>
    ret false
  else
    log ("Führe " +:+ solution_file +:+ " aus...") "INFO" >>
    try_except
      (let* returncode := subprocess E [solution_file] in
       if (returncode =? 0)%Z then
         log "Lösung erfolgreich ausgeführt" "OK" >>
         let* t1 := get_files in
         let out_files := glob t1 ["Outputs"] "*.out" in
         log ("Generiert: " +:+ str_nat (length out_files) +:+ " Output-Dateien") "OK" >>
         ret true
       else
         log ("Lösung fehlgeschlagen (Code: " +:+ str_int returncode +:+ ")") "ERROR" >>
         ret false)
      (fun e =>
         log ("Fehler beim Ausführen: " +:+ exn_msg e) "ERROR" >>
         ret false).

Definition cleanup : M unit :=
  log "Räume auf..." "INFO" >>
  let* t := get_files in
  for_each (glob t ["infos"] "*")
    (fun name =>
       let file := ["infos"; name] in
       let* t1 := get_files in
       if is_file t1 file then fs_op (unlink file) else ret tt) >>
  log "Aufgeräumt" "OK".

Definition workflow_text : string := unlines [
    "# Level " +:+ str_int level +:+ " - AI Workflow";
    "";
    "## Schritt 1: Prompt kopieren";
    "Kopiere den Inhalt aus: `level" +:+ str_int level +:+ "_prompt.txt`";
    "";
    "## Schritt 2: AI verwenden";
    "Füge den Prompt ein in:";
    "- GitHub Copilot Chat (VS Code)";
    "- ChatGPT / Claude / beliebige AI";
    "- Beliebigen Code-Assistenten";
    "";
    "## Schritt 3: Lösung generieren";
    "Bitte die AI:";
    "1. Vollständige Python-Lösung zu erstellen";
    "2. Als `level" +:+ str_int level +:+ ".py` zu speichern";
    "3. Sicherstellen dass sie aus `Inputs/` liest und nach `Outputs/` schreibt";
    "";
    "## Schritt 4: Testen";
    "Führe aus: `python level" +:+ str_int level +:+ ".py`";
    "";
    "## Schritt 5: Fertigstellen";
    "Führe aus: `python ccc_simple.py " +:+ str_int level +:+ "` um weiterzumachen"
  ].

Definition create_ai_workflow : M string :=
  let workflow_file := "level" +:+ str_int level +:+ "_workflow.md" in
  fs_op (write_text [workflow_file] workflow_text) >>
  log ("AI-Workflow erstellt: " +:+ workflow_file) "AI" >>
  ret workflow_file.

Definition run_interactive : M Z :=
  header ("🎯 CCC Level " +:+ str_int level +:+ " - Interaktiver Modus") >>
  let* processed :=
    try_except
      (extract_zip >>
       let* pdf_text := extract_pdf_text in
       create_ai_prompt pdf_text >>
       organize_files >>
       ret true)
      (fun e =>
         log ("Verarbeitung fehlgeschlagen: " +:+ exn_msg e) "ERROR" >>
         ret false) in
  if negb processed then ret 1%Z
  else
    let* workflow_file := create_ai_workflow in
    header ("⏸️  PAUSE - Erstelle level" +:+ str_int level +:+ ".py") >>
    print ("📋 AI-Prompt: level" +:+ str_int level +:+ "_prompt.txt") >>
    print ("📖 Workflow: " +:+ workflow_file) >>
    print "📁 Input-Dateien: Inputs/" >>
    print ("🎯 Erstelle: level" +:+ str_int level +:+ ".py") >>
    print (nl +:+ "Drücke ENTER wenn level" +:+ str_int level +:+ ".py fertig ist...") >>
    input >>
    let* solved := run_solution in
    if solved then
      cleanup >>
      header ("🎉 Level " +:+ str_int level +:+ " erfolgreich abgeschlossen!") >>
      ret 0%Z
    else ret 1%Z.

(** The text rendered by [generate_template]. *)
Definition template_text : string := unlines [
    dq +:+ dq +:+ dq;
    "Level " +:+ str_int level +:+ " - Auto-generiertes Template";
    "";
    "TODO: Implementiere die solve() Funktion!";
    dq +:+ dq +:+ dq;
    "";
    "from pathlib import Path";
    "";
    "";
    "def solve(input_data):";
    "    " +:+ dq +:+ dq +:+ dq;
    "    Löse das Problem für die gegebenen Input-Daten.";
    "    ";
    "    Args:";
    "        input_data (str): Die Input-Daten als String";
    "        ";
    "    Returns:";
    "        str: Die Lösung";
    "    " +:+ dq +:+ dq +:+ dq;
    "    lines = input_data.strip().split('\n')";
    "    ";
    "    # TODO: Hier deine Lösung implementieren";
    "    # Beispiel:";
    "    # first_line = lines[0]";
    "    # numbers = [int(x) for x in first_line.split()]";
    "    # result = sum(numbers)";
    "    ";
    "    result = " +:+ dq +:+ "0" +:+ dq +:+ "  # Platzhalter-Ergebnis";
    "    return result";
    "";
    "";
    "def main():";
    "    " +:+ dq +:+ dq +:+ dq +:+ "Haupt-Funktion zum Verarbeiten aller Input-Dateien." +:+ dq +:+ dq +:+ dq;
    "    input_folder = Path(" +:+ dq +:+ "Inputs" +:+ dq +:+ ")";
    "    output_folder = Path(" +:+ dq +:+ "Outputs" +:+ dq +:+ ")";
    "    output_folder.mkdir(exist_ok=True)";
    "    ";
    "    # Alle Input-Dateien für dieses Level finden";
    "    pattern = f" +:+ dq +:+ "level" +:+ str_int level +:+ "_*.in" +:+ dq;
    "    input_files = sorted(input_folder.glob(pattern))";
    "    ";
    "    if not input_files:";
    "        print(f" +:+ dq +:+ "❌ Keine Input-Dateien gefunden: {pattern}" +:+ dq +:+ ")";
    "        return";
    "    ";
    "    print(f" +:+ dq +:+ "📁 Verarbeite {len(input_files)} Input-Dateien..." +:+ dq +:+ ")";
    "    ";
    "    for input_file in input_files:";
    "        print(f" +:+ dq +:+ "📄 Verarbeite {input_file.name}..." +:+ dq +:+ ")";
    "        ";
    "        # Input lesen";
    "        with open(input_file, 'r', encoding='utf-8') as f:";
    "            input_data = f.read()";
    "        ";
    "        # Problem lösen";
    "        result = solve(input_data)";
    "        ";
    "        # Output schreiben";
    "        output_file = output_folder / input_file.name.replace('.in', '.out')";
    "        with open(output_file, 'w', encoding='utf-8') as f:";
    "            f.write(str(result))";
    "        ";
    "        print(f" +:+ dq +:+ "✅ Generiert: {output_file.name}" +:+ dq +:+ ")";
    "    ";
    "    print(" +:+ dq +:+ "🎉 Alle Input-Dateien verarbeitet!" +:+ dq +:+ ")";
    "";
    "";
    "if __name__ == " +:+ dq +:+ "__main__" +:+ dq +:+ ":";
    "    main()"
  ].

Definition generate_template : M unit :=
  let solution_file := "level" +:+ str_int level +:+ ".py" in
  fs_op (write_text [solution_file] template_text) >>
  log ("Template erstellt: " +:+ solution_file) "OK" >>
  log "⚠️  Bitte implementiere die solve() Funktion!" "WARN".

(** The request written by [run_auto]. *)
Definition ai_request_text (prompt : string) : string := unlines [
    "# AI Request für Level " +:+ str_int level;
    "";
    "Bitte generiere eine vollständige Python-Lösung für diese Coding Challenge.";
    "";
    prompt;
    "";
    "## Anforderungen:";
    "- Speichere als `level" +:+ str_int level +:+ ".py`";
    "- Stelle sicher dass es aus Inputs/ liest und nach Outputs/ schreibt";
    "- Füge Fehlerbehandlung hinzu"
  ].

Definition run_auto : M Z :=
  header ("🤖 CCC Level " +:+ str_int level +:+ " - Automatischer Modus") >>
  let* processed :=
    try_except
      (extract_zip >>
       let* pdf_text := extract_pdf_text in
       let* prompt := create_ai_prompt pdf_text in
       organize_files >>
       ret (Some prompt))
      (fun e =>
         log ("Verarbeitung fehlgeschlagen: " +:+ exn_msg e) "ERROR" >>
         ret None) in
  match processed with
  | None => ret 1%Z
  | Some prompt =>
      log "Versuche AI-Automatisierung..." "AI" >>
      let ai_file := "level" +:+ str_int level +:+ "_ai_request.md" in
      fs_op (write_text [ai_file] (ai_request_text prompt)) >>
      header "🤖 AI-AUTOMATISIERUNG - MANUELLER SCHRITT" >>
      print ("1. Öffne: " +:+ ai_file) >>
      print "2. Kopiere den kompletten Inhalt" >>
      print "3. Füge ihn in GitHub Copilot Chat ein" >>
      print ("4. Speichere die generierte Lösung als: level" +:+ str_int level +:+ ".py") >>
      print "5. Drücke ENTER wenn die Lösung bereit ist..." >>
      input >>
      let* solved := run_solution in
      if solved then
        cleanup >>
        header ("🎉 Level " +:+ str_int level +:+ " automatisch abgeschlossen!") >>
        ret 0%Z
      else ret 1%Z
  end.

Definition run_template_only : M Z :=
  header ("📝 CCC Level " +:+ str_int level +:+ " - Template-Modus") >>
  try_except
    (extract_zip >>
     extract_pdf_text >>
     organize_files >>
     generate_template >>
     header "Template erstellt!" >>
     print ("📝 Template: level" +:+ str_int level +:+ ".py") >>
     print "⚠️  Implementiere die solve() Funktion" >>
     print (nl +:+ "Lösung testen? [j/N]: ") >>
     let* answer := input in
     if bool_decide (lower answer ∈ ["j"; "ja"; "y"; "yes"]) then
       let* solved := run_solution in
       if solved then cleanup >> ret 0%Z
       else ret 0%Z
     else ret 0%Z)
    (fun e =>
       log ("Template-Erstellung fehlgeschlagen: " +:+ exn_msg e) "ERROR" >>
       ret 1%Z).

(** [CCCSimple(level)] followed by the default mode; [main] turns any
    exception that escapes into the value 1. *)
Definition main_interactive : M Z :=
  (if negb (PDF_AVAILABLE E) then
     print "⚠️  pdfplumber nicht installiert. Installiere mit: pip install pdfplumber"
   else ret tt) >>
  setup_dirs >>
  try_except run_interactive
    (fun e => print ("❌ Unerwarteter Fehler: " +:+ exn_msg e) >> ret 1%Z).

(** [main()] for the command line flags [--template] and [--auto]: the
    dependency notice, the constructor, the chosen mode; an exception that
    escapes the mode becomes the value 1. *)
Definition main (template auto : bool) : M Z :=
  (if negb (PDF_AVAILABLE E) then
     print "⚠️  pdfplumber nicht installiert. Installiere mit: pip install pdfplumber"
   else ret tt) >>
  setup_dirs >>
  try_except
    (if template then run_template_only
     else if auto then run_auto
     else run_interactive)
    (fun e => print ("❌ Unerwarteter Fehler: " +:+ exn_msg e) >> ret 1%Z).

End Methods.

End CCCSimple.

(** ** [run_level.py]: the loose runner *)

Module RunLevel.

Section Functions.

Variable E : env.

Definition run_level (level_number : Z) : M Z :=
  print (str_repeat "=" 60) >>
  print ("Running Level " +:+ str_int level_number) >>
  print (str_repeat "=" 60) >>
  print (nl +:+ "Step 1: Running general/process_level.py " +:+ str_int level_number +:+ "...") >>
  print (str_repeat "-" 60) >>
  let process_script := "general/process_level.py" in
  let* returncode1 := subprocess E [process_script; str_int level_number] in
  if negb (returncode1 =? 0)%Z then
    print (nl +:+ "❌ Error running general/process_level.py (exit code: " +:+
           str_int returncode1 +:+ ")") >>
    ret returncode1
  else
    print (nl +:+ "✓ general/process_level.py completed successfully") >>
    print (nl +:+ str_repeat "=" 60) >>
    print ("⏸️  PAUSED - Create level" +:+ str_int level_number +:+ ".py now") >>
    print (str_repeat "=" 60) >>
    print (nl +:+ "The AI prompt has been saved to: level" +:+ str_int level_number +:+ "_prompt.txt") >>
    print "Input files are ready in: Inputs/" >>
    print (nl +:+ "Next step: Create level" +:+ str_int level_number +:+ ".py to solve the problem") >>
    print (nl +:+ "Press ENTER when you're ready to run level" +:+ str_int level_number +:+ ".py...") >>
    input >>
    print (nl +:+ "Step 2: Running level" +:+ str_int level_number +:+ ".py...") >>
    print (str_repeat "-" 60) >>
    let level_script := "level" +:+ str_int level_number +:+ ".py" in
    let* t := get_files in
    if negb (exists_ t [level_script]) then
      print (nl +:+ "❌ Error: " +:+ level_script +:+ " not found!") >>
      print "Please create the file and try again." >>
      ret 1%Z
    else
      let* returncode2 := subprocess E [level_script] in
      if negb (returncode2 =? 0)%Z then
        print (nl +:+ "❌ Error running " +:+ level_script +:+ " (exit code: " +:+
               str_int returncode2 +:+ ")") >>
        ret returncode2
      else
        print (nl +:+ "✓ " +:+ level_script +:+ " completed successfully") >>
        print (nl +:+ str_repeat "=" 60) >>
        print ("Level " +:+ str_int level_number +:+ " completed successfully!") >>
        print (str_repeat "=" 60) >>
        ret 0%Z.

End Functions.

End RunLevel.

(** ** [archive/run_level.py]: the runner of the core library

    The automated mode hands the work to [AIAutomation.generate_solution]
    and then ends in [run_solution] or in the interactive mode; it is not
    embedded. *)

Module ArchiveRunLevel.

Section Functions.

Variable E : env.
Variable level_number : Z.

Definition run_processing_pipeline : M bool :=
  CCCCore.clear_folder CCCCore.inputs "Inputs" >>
  CCCCore.clear_folder CCCCore.outputs "Outputs" >>
  let* extracted := CCCCore.extract_zip E level_number in
  if negb extracted then
    CCCCore.log "Failed to extract ZIP file" "ERROR" >>
    ret false
  else
    let* pdf_text := CCCCore.extract_pdf_text E level_number in
    (match pdf_text with
     | Some text =>
         if String.eqb text "" then
           CCCCore.log "Could not extract PDF text - you'll need to create the prompt manually" "WARNING"
         else
           CCCCore.create_ai_prompt level_number text >> ret tt
     | None =>
         CCCCore.log "Could not extract PDF text - you'll need to create the prompt manually" "WARNING"
     end) >>
    CCCCore.organize_files >>
    CCCCore.log "Processing pipeline completed successfully" "SUCCESS" >>
    ret true.

Definition run_solution : M Z :=
  CCCCore.print_separator >>
  CCCCore.log ("Running level" +:+ str_int level_number +:+ ".py...") "INFO" >>
  let* solution_path := CCCCore.find_level_script level_number in
  match solution_path with
  | None =>
      CCCCore.log ("level" +:+ str_int level_number +:+ ".py not found!") "ERROR" >>
      CCCCore.log "Please create the file and try again." "INFO" >>
      ret 1%Z
  | Some solution_path =>
      let* exit_code := CCCCore.run_python_script E solution_path in
      if negb (exit_code =? 0)%Z then
        CCCCore.log ("Error running " +:+ name_of solution_path +:+ " (exit code: " +:+
                     str_int exit_code +:+ ")") "ERROR" >>
        ret exit_code
      else
        CCCCore.log (name_of solution_path +:+ " completed successfully") "SUCCESS" >>
        let* output_count := CCCCore.count_output_files in
        CCCCore.log ("Generated " +:+ str_nat output_count +:+ " output files in Outputs/") "SUCCESS" >>
        CCCCore.cleanup_infos >>
        CCCCore.print_header ("Level " +:+ str_int level_number +:+ " completed successfully!") >>
        ret 0%Z
  end.

Definition run_level_interactive : M Z :=
  CCCCore.log "Running level processing..." "INFO" >>
  let* success := run_processing_pipeline in
  if negb success then ret 1%Z
  else
    CCCCore.print_header ("⏸️  PAUSED - Create level" +:+ str_int level_number +:+ ".py now") >>
    let prompt_file := CCCCore.get_prompt_file_path level_number in
    CCCCore.log ("AI prompt saved to: " +:+ str_path prompt_file) "INFO" >>
    CCCCore.log "Input files are ready in: Inputs/" "INFO" >>
    CCCCore.log ("Next step: Create level" +:+ str_int level_number +:+ ".py to solve the problem") "INFO" >>
    print (nl +:+ "Press ENTER when you're ready to run level" +:+ str_int level_number +:+ ".py...") >>
    input >>
    run_solution.

(** [main()] without [--auto]: the dependency check, the constructor, the
    interactive mode; its value is the argument of [sys.exit]. *)
Definition main_interactive : M Z :=
  CCCCore.check_python_dependencies E >>
  CCCCore.init >>
  CCCCore.print_header ("CCC Level " +:+ str_int level_number +:+ " Runner") >>
  run_level_interactive.

End Functions.

End ArchiveRunLevel.

(** ** [archive/general/process_level.py]: the processing step

    The traceback that the handler prints goes to the standard error
    stream, which the world does not record. *)

Module ProcessLevel.

Section Functions.

Variable E : env.
Variable level_number : Z.

Definition process_level (run_solution : bool) : M Z :=
  CCCCore.init >>
  CCCCore.print_header ("Processing Level " +:+ str_int level_number) >>
  try_except
    (CCCCore.log "Clearing previous data..." "INFO" >>
     CCCCore.clear_folder CCCCore.inputs "Inputs" >>
     CCCCore.clear_folder CCCCore.outputs "Outputs" >>
     CCCCore.log "Step 1: Extracting ZIP file..." "STEP" >>
     let* extracted := CCCCore.extract_zip E level_number in
     if negb extracted then
       CCCCore.log "Failed to extract ZIP file" "ERROR" >>
       ret 1%Z
     else
       CCCCore.log "Step 2: Processing PDF and creating AI prompt..." "STEP" >>
       let* pdf_text := CCCCore.extract_pdf_text E level_number in
       let has_text :=
         match pdf_text with
         | Some text => negb (String.eqb text "")
         | None => false
         end in
       (match pdf_text with
        | Some text =>
            if String.eqb text "" then
              CCCCore.log "Could not extract PDF text - manual prompt creation needed" "WARNING"
            else
              let* prompt := CCCCore.create_ai_prompt level_number text in
              CCCCore.print_header ("AI PROMPT FOR LEVEL " +:+ str_int level_number) >>
              print prompt >>
              CCCCore.print_separator
        | None =>
            CCCCore.log "Could not extract PDF text - manual prompt creation needed" "WARNING"
        end) >>
       CCCCore.log "Step 3: Organizing input and output files..." "STEP" >>
       let* counts := CCCCore.organize_files in
       let in_count := counts.1 in
       let out_count := counts.2 in
       (if run_solution then
          CCCCore.log "Step 4: Running solution script..." "STEP" >>
          let* solution_path := CCCCore.find_level_script level_number in
          match solution_path with
          | Some solution_path =>
              let* exit_code := CCCCore.run_python_script E solution_path in
              if (exit_code =? 0)%Z then
                CCCCore.log "Solution executed successfully" "SUCCESS" >>
                let* output_count := CCCCore.count_output_files in
                CCCCore.log ("Generated " +:+ str_nat output_count +:+ " output files") "SUCCESS"
              else
                CCCCore.log ("Solution failed with exit code " +:+ str_int exit_code) "ERROR"
          | None =>
              CCCCore.log ("Solution script level" +:+ str_int level_number +:+ ".py not found") "WARNING"
          end
        else ret tt) >>
       CCCCore.log "Step 5: Cleaning up temporary files..." "STEP" >>
       CCCCore.cleanup_infos >>
       CCCCore.print_header ("Level " +:+ str_int level_number +:+ " processing complete!") >>
       CCCCore.log ("Input files: " +:+ str_nat in_count +:+ " moved to Inputs/") "INFO" >>
       CCCCore.log ("Example outputs: " +:+ str_nat out_count +:+ " moved to Outputs/") "INFO" >>
       (if has_text then
          let prompt_file := CCCCore.get_prompt_file_path level_number in
          CCCCore.log ("AI prompt saved to: " +:+ str_path prompt_file) "INFO"
        else ret tt) >>
       CCCCore.log "Ready for solution development!" "INFO" >>
       ret 0%Z)
    (fun e =>
       CCCCore.log ("Unexpected error during processing: " +:+ exn_msg e) "ERROR" >>
       ret 1%Z).

(** [main()]: the dependency check and [process_level]; its value is the
    argument of [sys.exit]. *)
Definition main (run_solution : bool) : M Z :=
  CCCCore.check_python_dependencies E >>
  process_level run_solution.

End Functions.

End ProcessLevel.

(** ** Vocabulary of the statements

    Predicates and auxiliary functions in which the properties below are
    stated and proved. *)

(** Paths whose first components differ: neither lies under the other. *)
Definition roots_differ (p q : path) : Prop :=
  match p, q with
  | a :: _, b :: _ => a <> b
  | _, _ => False
  end.

(** A pattern without wildcards matches itself only. *)
Definition literal (pat : list ascii) : Prop :=
  Forall (fun c => Ascii.eqb c "*"%char = false /\ Ascii.eqb c "?"%char = false) pat.

(** The world a computation leaves, and the value it returns. *)
Definition exec {A : Type} (m : M A) (w : world) : world := (m w).2.
Definition eval {A : Type} (m : M A) (w : world) : result A := (m w).1.

(** A computation keeps a property of the files, however it ends. *)
Definition keeps {A : Type} (P : fs -> Prop) (m : M A) : Prop :=
  forall w, P (files w) -> P (files (exec m w)).

(** One step of the clearing loops: [if file.is_file(): file.unlink()]. *)
Definition unlink_if_file (file : path) (t : fs) : fs :=
  if is_file t file then delete file t else t.

(** The files after a clearing loop over [names] in folder [d]. *)
Definition sweep (d : path) (names : list string) (t : fs) : fs :=
  foldl (fun t n => unlink_if_file (d ++ [n]) t) t names.

(** From files satisfying [P], a computation leads to files satisfying [Q],
    however it ends. *)
Definition leads {A : Type} (P Q : fs -> Prop) (m : M A) : Prop :=
  forall w, P (files w) -> Q (files (exec m w)).

(** The shape of the loop bodies that move one staged name from [s] to [d];
    whatever else such a body does leaves files and keyboard alone. *)
Definition moves_one (s d : path) (body : string -> M unit) : Prop :=
  forall n w,
    match shutil_move (s ++ [n]) (d ++ [n]) (files w) with
    | Ok t => exists c, body n w = (Ok tt, World t c (keyboard w))
    | Raise e => exists c, body n w = (Raise e, World (files w) c (keyboard w))
    end.

(** The conditions under which the first loop of the classifier cannot
    fail: the folders exist, the inputs folder holds no subdirectory, and
    the staged entries with the input suffix are regular files. *)
Definition inputs_ready (t : fs) : Prop :=
  is_dir t CCCCore.infos = true /\
  is_dir t CCCCore.inputs = true /\
  (forall n, t !! (CCCCore.inputs ++ [n]) <> Some Dir) /\
  (forall n, ends_with ".in" n -> t !! (CCCCore.infos ++ [n]) <> Some Dir).

(** The files [clear_folder] leaves, as a function of the files it finds. *)
Definition cleared (folder : path) (t : fs) : fs :=
  if exists_ t folder then sweep folder (glob t folder "*") t else t.

(** Every value a computation can return satisfies [Q]. *)
Definition returns {A : Type} (Q : A -> Prop) (m : M A) : Prop :=
  forall w v, eval m w = Ok v -> Q v.

(** ** Scenarios

    Concrete worlds and environments on which the theorems are exercised. *)

(** A world holding the given entries, with a silent console and nobody at
    the keyboard. *)
Definition world_of (entries : list (path * entry)) : world :=
  World (list_to_map entries) [] [].

(** An environment without the PDF library, in which every archive is
    empty and every child process exits with [code], touching nothing. *)
Definition plain_env (code : Z) : env :=
  Env ["home"; "user"] false (fun _ => Some []) (fun _ => Ok [])
      (fun _ t => Ok (code, t)).

(** A staging directory that holds an unrelated note, and a subdirectory
    left by archive extraction with a file of its own. *)
Definition nested_world : world :=
  world_of [ (["Inputs"], Dir); (["Outputs"], Dir); (["infos"], Dir);
             (["infos"; "notes.txt"], File "remember");
             (["infos"; "extra"], Dir);
             (["infos"; "extra"; "level3_9.in"], File "9") ].

(** The scenario of the specification: two inputs and one example output
    staged, the destination folders empty. *)
Definition staged_world (c1 c2 c3 : string) : world :=
  world_of [ (["Inputs"], Dir); (["Outputs"], Dir); (["infos"], Dir);
             (["infos"; "level3_1.in"], File c1);
             (["infos"; "level3_1_example.out"], File c2);
             (["infos"; "level3_2.in"], File c3) ].

(** The inputs folder holds a subdirectory named like a staged input, left
    by an earlier run, with a file of that name inside. *)
Definition blocked_world : world :=
  world_of [ (["Inputs"], Dir); (["Outputs"], Dir); (["infos"], Dir);
             (["Inputs"; "level3_2.in"], Dir);
             (["Inputs"; "level3_2.in"; "level3_2.in"], File "old");
             (["infos"; "level3_1.in"], File "1");
             (["infos"; "level3_2.in"], File "2") ].

(** An archive waiting in the download directory, and one in the working
    directory. *)
Definition downloaded_world : world :=
  world_of [ (["home"; "user"; "Downloads"; "level3.zip"], File "PK1");
             (["level3.zip"], File "PK2") ].

(** A contest as the operator meets it: the archive of level 3 holds two
    inputs, one example output and the statement; the PDF library is not
    installed; the solution script exits with [code] and writes nothing. *)
Definition contest_env (code : Z) : env :=
  Env ["home"; "user"] false
      (fun _ => Some [ (["level3_1.in"], File "1 2");
                       (["level3_1_example.out"], File "3");
                       (["level3_2.in"], File "4 5");
                       (["Level 3.pdf"], File "%PDF") ])
      (fun _ => Ok ["Add the numbers."])
      (fun _ t => Ok (code, t)).

(** The working directory before the run: the folders, the archive, and a
    solution script already written; the operator just presses ENTER. *)
Definition contest_world : world :=
  World (list_to_map [ (["Inputs"], Dir); (["Outputs"], Dir); (["infos"], Dir);
                       (["prompts"], Dir); (["levels"], Dir);
                       (["level3.zip"], File "PK");
                       (["level3.py"], File "solve") ])
        [] [Turn [] ""].

(** ** Further vocabulary and scenarios *)

(** A computation never reads the keyboard: the operator is not asked. *)
Definition quiet {A : Type} (m : M A) : Prop :=
  forall w, keyboard (exec m w) = keyboard w.

(** The files after [mkdir(exist_ok=True)] on each of [ds], when none of
    them is in the way. *)
Definition with_dirs (ds : list path) (t : fs) : fs :=
  foldl (fun t d => if is_dir t d then t else <[d := Dir]> t) t ds.

(** Run in [w], the computation creates the folders [ds] that are missing
    and touches nothing else; run once more, it changes nothing at all. *)
Definition establishes (ds : list path) (m : M unit) (w : world) : Prop :=
  exists t',
    m w = (Ok tt, World t' (console w) (keyboard w)) /\
    (forall d, d ∈ ds -> t' !! d = Some Dir) /\
    (forall q, q ∉ ds -> t' !! q = files w !! q) /\
    m (World t' (console w) (keyboard w)) = (Ok tt, World t' (console w) (keyboard w)).

(** The number of regular files directly inside [folder]. *)
Definition count_files (t : fs) (folder : path) : nat :=
  length (filter (fun n => is_file t (folder ++ [n]) = true) (glob t folder "*")).

(** A working directory in which a regular file took the name of the
    outputs folder. *)
Definition squatted_world : world :=
  world_of [ (["Inputs"], Dir); (["Outputs"], File "not a folder");
             (["infos"; "level3_1.in"], File "1") ].

(** Earlier results lying in the outputs folder, next to a subdirectory. *)
Definition stale_world : world :=
  world_of [ (["Inputs"], Dir); (["Outputs"], Dir); (["infos"], Dir);
             (["Outputs"; "level2_1.out"], File "7");
             (["Outputs"; "level2_2.out"], File "8");
             (["Outputs"; "old"], Dir);
             (["Outputs"; "old"; "level1_1.out"], File "1") ].

(** What [extract_zip] does once the archive is located at [p]. *)
Definition extraction (E : env) (p : path) (t : fs) : bool * fs :=
  match t !! p with
  | Some (File bytes) =>
      match zip_members E bytes with
      | Some members =>
          match extractall CCCCore.infos members t with
          | (Ok _, t') => (true, t')
          | (Raise _, t') => (false, t')
          end
      | None => (false, t)
      end
  | _ => (false, t)
  end.


(** The contest with the PDF library installed and a scanned statement:
    the document opens, but no page yields any text. *)
Definition scanned_env : env :=
  Env ["home"; "user"] true
      (fun _ => Some [ (["level3_1.in"], File "1 2");
                       (["Level 3.pdf"], File "%PDF") ])
      (fun _ => Ok [""; ""])
      (fun _ t => Ok (0%Z, t)).

(** The conditions under which neither loop of the classifier can fail:
    those of the first loop, and likewise the outputs folder is a directory
    that holds no subdirectory and the staged entries matching the output
    pattern are regular files. *)
Definition staging_ready (out_pattern : string) (t : fs) : Prop :=
  inputs_ready t /\
  is_dir t CCCCore.outputs = true /\
  (forall n, t !! (CCCCore.outputs ++ [n]) <> Some Dir) /\
  (forall n, glob_match out_pattern n = true -> t !! (CCCCore.infos ++ [n]) <> Some Dir).

(** What the classifier with output pattern [out_pattern] makes of the
    files [t]: each staged input is at its name in the inputs folder, each
    staged entry matching the output pattern at its name in the outputs
    folder, both are gone from the staging folder, and every path that is
    neither source nor destination of such a move holds what it held. *)
Definition classified (out_pattern : string) (t t' : fs) : Prop :=
  (forall n e, n ∈ glob t CCCCore.infos "*.in" ->
     t !! (CCCCore.infos ++ [n]) = Some e ->
     t' !! (CCCCore.inputs ++ [n]) = Some e /\ t' !! (CCCCore.infos ++ [n]) = None) /\
  (forall n e, n ∈ glob t CCCCore.infos out_pattern ->
     t !! (CCCCore.infos ++ [n]) = Some e ->
     t' !! (CCCCore.outputs ++ [n]) = Some e /\ t' !! (CCCCore.infos ++ [n]) = None) /\
  (forall q,
     (forall n, n ∈ glob t CCCCore.infos "*.in" ->
                q <> CCCCore.inputs ++ [n] /\ q <> CCCCore.infos ++ [n]) ->
     (forall n, n ∈ glob t CCCCore.infos out_pattern ->
                q <> CCCCore.outputs ++ [n] /\ q <> CCCCore.infos ++ [n]) ->
     t' !! q = t !! q).

(** An example output and a result of the operator's own staged side by
    side. *)
Definition mixed_world : world :=
  world_of [ (["Inputs"], Dir); (["Outputs"], Dir); (["infos"], Dir);
             (["infos"; "level3_1.in"], File "1 2");
             (["infos"; "level3_1_example.out"], File "3");
             (["infos"; "level3_1.out"], File "own") ].

(** Worlds that differ in what has been printed only. *)
Definition alike (w1 w2 : world) : Prop :=
  files w1 = files w2 /\ keyboard w1 = keyboard w2.

(** Two computations that cannot be told apart except by what they print:
    started in worlds that are alike they end the same way - with the same
    value or the same exception - in worlds that are alike. *)
Definition agree {A : Type} (m1 m2 : M A) : Prop :=
  forall w1 w2, alike w1 w2 ->
    eval m1 w1 = eval m2 w2 /\ alike (exec m1 w1) (exec m2 w2).

(** A computation always returns normally. *)
Definition total {A : Type} (m : M A) : Prop :=
  forall w, exists v, eval m w = Ok v.

(** A computation always returns the value [v]. *)
Definition yields {A : Type} (v : A) (m : M A) : Prop :=
  forall w, eval m w = Ok v.

(** Two computations end the same way from every world. *)
Definition same_outcome {A : Type} (m1 m2 : M A) : Prop :=
  forall w, eval m1 w = eval m2 w.

(** The verdict of [CCCSimple.run_solution] and the files it leaves, read
    off the files it finds. *)
Definition solution_outcome (E : env) (script : string) (t : fs) : bool * fs :=
  if exists_ t [script] then
    match subprocess_run E [script] t with
    | Ok (code, t') => ((code =? 0)%Z, t')
    | Raise _ => (false, t)
    end
  else (false, t).

(** An environment in which the processing step fails with status 2 and
    every other child succeeds. *)
Definition failing_step_env : env :=
  Env ["home"; "user"] false (fun _ => Some []) (fun _ => Ok [])
      (fun argv t =>
         match argv with
         | "general/process_level.py" :: _ => Ok (2%Z, t)
         | _ => Ok (0%Z, t)
         end).

(** An archive of regular files at its top level, no name twice. *)
Definition flat_archive (members : list (path * entry)) : Prop :=
  Forall (fun m => exists n c, m = ([n], File c)) members /\ NoDup members.*1.

(** The files after the members of an archive are written below the
    staging folder. *)
Definition unpacked (members : list (path * entry)) (t : fs) : fs :=
  foldl (fun t m => <[CCCCore.infos ++ m.1 := m.2]> t) t members.

(** The state in which a level is processed: the folders of the constructor
    are in place, the inputs and outputs folders hold no subdirectory, the
    staging folder is empty, and no directory has taken the name of the
    level's prompt file. *)
Definition fresh_level (level_number : Z) (t : fs) : Prop :=
  is_dir t CCCCore.inputs = true /\
  is_dir t CCCCore.outputs = true /\
  is_dir t CCCCore.infos = true /\
  is_dir t CCCCore.prompts = true /\
  (forall n, t !! (CCCCore.inputs ++ [n]) <> Some Dir) /\
  (forall n, t !! (CCCCore.outputs ++ [n]) <> Some Dir) /\
  (forall n, t !! (CCCCore.infos ++ [n]) = None) /\
  t !! CCCCore.get_prompt_file_path level_number <> Some Dir.

(** The working directory of a level that is about to be processed: the
    folders are there, an earlier result is lying in the inputs folder, the
    archive waits in the working directory. *)
Definition fresh_world : world :=
  World (list_to_map [ (["Inputs"], Dir); (["Outputs"], Dir); (["infos"], Dir);
                       (["prompts"], Dir); (["levels"], Dir);
                       (["Inputs"; "level2_1.in"], File "old");
                       (["level3.zip"], File "PK") ])
        [] [].

(** A computation reads at most [k] lines from the operator: the pending
    input it leaves is the pending input it found, without at most [k]
    turns at the front. *)
Definition reads_at_most (k : nat) {A : Type} (m : M A) : Prop :=
  forall w, exists used,
    keyboard w = used ++ keyboard (exec m w) /\ (length used <= k)%nat.

(** * Properties *)

(** ** Paths *)

Lemma relative_to_Some (d q r : path) : relative_to d q = Some r <-> q = d ++ r.
Proof.
  revert q; induction d as [|a d IH]; intros q; simpl.
  - split; [intros [= ->]; reflexivity | intros ->; reflexivity].
  - destruct q as [|b q]; [split; discriminate|].
    destruct (decide (a = b)) as [->|Hab].
    + rewrite IH. split; [intros ->; reflexivity | intros [= ->]; reflexivity].
    + split; [discriminate | intros [= -> _]; contradiction].
Qed.

Lemma relative_to_app (d r : path) : relative_to d (d ++ r) = Some r.
Proof. apply relative_to_Some; reflexivity. Qed.

Lemma relative_to_None (d q : path) :
  relative_to d q = None <-> forall r, q <> d ++ r.
Proof.
  split.
  - intros H r Hq. apply relative_to_Some in Hq. congruence.
  - intros H. destruct (relative_to d q) as [r|] eqn:Hr; [|reflexivity].
    apply relative_to_Some in Hr. destruct (H r Hr).
Qed.

Lemma child_name_Some (d q : path) (n : string) :
  child_name d q = Some n <-> q = d ++ [n].
Proof.
  unfold child_name. destruct (relative_to d q) as [r|] eqn:Hr.
  - apply relative_to_Some in Hr. subst q.
    destruct r as [|m [|m' r]]; split; try discriminate.
    + intros H. apply (f_equal length) in H. rewrite !length_app in H. simpl in H. lia.
    + intros [= ->]; reflexivity.
    + intros H. apply app_inv_head in H. congruence.
    + intros H. apply app_inv_head in H. discriminate.
  - split; [discriminate|]. intros ->. rewrite relative_to_app in Hr. discriminate.
Qed.

Lemma roots_differ_ne (p q r s : path) : roots_differ p q -> p ++ r <> q ++ s.
Proof.
  destruct p as [|a p], q as [|b q]; simpl; try contradiction.
  intros Hab [= ? _]. contradiction.
Qed.

Lemma roots_differ_app_l (p q r : path) : roots_differ p q -> roots_differ (p ++ r) q.
Proof. destruct p, q; simpl; intros H; try contradiction; exact H. Qed.

Lemma roots_differ_relative (p q r : path) :
  roots_differ p q -> relative_to (p ++ r) q = None.
Proof.
  intros H. apply relative_to_None. intros s Hs.
  apply (roots_differ_ne p q (r ++ s) []); [exact H|].
  rewrite app_nil_r, Hs, <- app_assoc. reflexivity.
Qed.

Lemma is_dir_lookup (t : fs) (a : string) (p : path) :
  is_dir t (a :: p) = true <-> t !! (a :: p) = Some Dir.
Proof.
  unfold is_dir. destruct (t !! (a :: p)) as [[?|]|]; split; congruence.
Qed.

(** ** Directory listings *)

Lemma elem_of_listdir (t : fs) (d : path) (n : string) :
  n ∈ listdir t d <-> is_Some (t !! (d ++ [n])).
Proof.
  unfold listdir. rewrite list_elem_of_omap. split.
  - intros (q & Hq & Hn). apply child_name_Some in Hn. subst q.
    apply list_elem_of_fmap in Hq as ([q e] & Hq & He). simpl in Hq. subst q.
    apply elem_of_map_to_list in He. eauto.
  - intros [e He]. exists (d ++ [n]). split.
    + apply list_elem_of_fmap. exists (d ++ [n], e). split; [reflexivity|].
      apply elem_of_map_to_list. exact He.
    + apply child_name_Some. reflexivity.
Qed.

Lemma NoDup_omap_inj {A B : Type} (f : A -> option B) (l : list A) :
  (forall x y b, f x = Some b -> f y = Some b -> x = y) ->
  NoDup l -> NoDup (omap f l).
Proof.
  intros Hinj. induction 1 as [|x l Hx Hl IH]; simpl; [constructor|].
  destruct (f x) as [b|] eqn:Hfx; [|exact IH].
  constructor; [|exact IH].
  intros Hb. apply list_elem_of_omap in Hb as (y & Hy & Hfy).
  assert (x = y) by eauto. subst y. contradiction.
Qed.

Lemma NoDup_listdir (t : fs) (d : path) : NoDup (listdir t d).
Proof.
  unfold listdir. apply NoDup_omap_inj.
  - intros x y n Hx Hy. apply child_name_Some in Hx, Hy. congruence.
  - apply NoDup_fst_map_to_list.
Qed.

Lemma elem_of_glob (t : fs) (d : path) (pattern n : string) :
  n ∈ glob t d pattern <->
  is_dir t d = true /\ glob_match pattern n = true /\ is_Some (t !! (d ++ [n])).
Proof.
  unfold glob. destruct (is_dir t d).
  - rewrite list_elem_of_filter, elem_of_listdir. tauto.
  - rewrite elem_of_nil. split; [contradiction | intros [? _]; discriminate].
Qed.

Lemma NoDup_glob (t : fs) (d : path) (pattern : string) : NoDup (glob t d pattern).
Proof.
  unfold glob. destruct (is_dir t d); [|constructor].
  apply NoDup_filter, NoDup_listdir.
Qed.

Lemma glob_nil (t : fs) (d : path) (pattern : string) :
  (forall n, glob_match pattern n = true -> t !! (d ++ [n]) = None) ->
  glob t d pattern = [].
Proof.
  intros H. destruct (glob t d pattern) as [|n l] eqn:Hg; [reflexivity|].
  assert (Hn : n ∈ glob t d pattern) by (rewrite Hg; left).
  apply elem_of_glob in Hn as (_ & Hm & [e He]).
  rewrite (H n Hm) in He. discriminate.
Qed.

(** ** Patterns *)

Lemma list_ascii_of_string_app (a b : string) :
  String.list_ascii_of_string (a +:+ b) =
  String.list_ascii_of_string a ++ String.list_ascii_of_string b.
Proof. induction a as [|c a IH]; simpl; [reflexivity | rewrite IH; reflexivity]. Qed.

Lemma string_of_list_ascii_app (a b : list ascii) :
  String.string_of_list_ascii (a ++ b) =
  String.string_of_list_ascii a +:+ String.string_of_list_ascii b.
Proof. induction a as [|c a IH]; simpl; [reflexivity | rewrite IH; reflexivity]. Qed.

Lemma list_ascii_of_string_inj (a b : string) :
  String.list_ascii_of_string a = String.list_ascii_of_string b -> a = b.
Proof.
  intros H. rewrite <- (String.string_of_list_ascii_of_string a),
    <- (String.string_of_list_ascii_of_string b), H. reflexivity.
Qed.

Lemma fnmatch_nil (s : list ascii) : fnmatch [] s = true <-> s = [].
Proof. destruct s; simpl; split; congruence. Qed.

Lemma fnmatch_star (pat s : list ascii) :
  fnmatch ("*"%char :: pat) s = true <->
  exists a b, s = a ++ b /\ fnmatch pat b = true.
Proof.
  induction s as [|c s IH]; simpl in *.
  - rewrite orb_false_r. split.
    + intros H. exists [], []. auto.
    + intros (a & b & Hab & Hb). symmetry in Hab.
      apply app_eq_nil in Hab as [-> ->]. exact Hb.
  - rewrite orb_true_iff, IH. split.
    + intros [H | (a & b & -> & Hb)].
      * exists [], (c :: s). auto.
      * exists (c :: a), b. auto.
    + intros (a & b & Hab & Hb). destruct a as [|c' a]; simpl in Hab.
      * left. subst b. exact Hb.
      * right. injection Hab as -> ->. eauto.
Qed.

Lemma fnmatch_literal (c : ascii) (pat s : list ascii) :
  Ascii.eqb c "*"%char = false -> Ascii.eqb c "?"%char = false ->
  fnmatch (c :: pat) s = true <-> exists s', s = c :: s' /\ fnmatch pat s' = true.
Proof.
  intros H1 H2. simpl. rewrite H1, H2. destruct s as [|d s].
  - split; [discriminate | intros (? & ? & _); discriminate].
  - rewrite andb_true_iff, Ascii.eqb_eq. split.
    + intros [-> H]. eauto.
    + intros (s' & [= -> ->] & H). auto.
Qed.

Lemma fnmatch_literal_all (pat s : list ascii) :
  literal pat -> fnmatch pat s = true <-> s = pat.
Proof.
  intros H. revert s. induction H as [|c pat [H1 H2] _ IH]; intros s.
  - apply fnmatch_nil.
  - rewrite fnmatch_literal by assumption. split.
    + intros (s' & -> & Hs'). apply IH in Hs'. congruence.
    + intros ->. exists pat. split; [reflexivity | apply IH; reflexivity].
Qed.

Lemma fnmatch_literal_prefix (lit pat s : list ascii) :
  literal lit ->
  fnmatch (lit ++ pat) s = true <-> exists b, s = lit ++ b /\ fnmatch pat b = true.
Proof.
  intros H. revert s. induction H as [|c lit [H1 H2] _ IH]; intros s; simpl app.
  - split; [eauto | intros (b & -> & Hb); exact Hb].
  - rewrite fnmatch_literal by assumption. split.
    + intros (s' & -> & Hs'). apply IH in Hs' as (b & -> & Hb). eauto.
    + intros (b & -> & Hb). exists (lit ++ b). split; [reflexivity|].
      apply IH. eauto.
Qed.

(** [glob("*")] takes every name. *)
Lemma glob_match_any (n : string) : glob_match "*" n = true.
Proof.
  unfold glob_match. apply fnmatch_star. exists (String.list_ascii_of_string n), [].
  rewrite app_nil_r. auto.
Qed.

(** [*suffix] for a suffix without wildcards is [endswith]. *)
Lemma glob_match_suffix (suffix n : string) :
  literal (String.list_ascii_of_string suffix) ->
  glob_match ("*" +:+ suffix) n = true <-> ends_with suffix n.
Proof.
  intros Hlit. unfold glob_match, ends_with.
  change (String.list_ascii_of_string ("*" +:+ suffix))
    with ("*"%char :: String.list_ascii_of_string suffix).
  rewrite fnmatch_star. split.
  - intros (a & b & Hab & Hb). apply fnmatch_literal_all in Hb; [|exact Hlit].
    exists (String.string_of_list_ascii a). apply list_ascii_of_string_inj.
    rewrite list_ascii_of_string_app, String.list_ascii_of_string_of_list_ascii.
    congruence.
  - intros [stem ->]. rewrite list_ascii_of_string_app.
    eexists _, _. split; [reflexivity|]. apply fnmatch_literal_all; auto.
Qed.

Lemma literal_in : literal (String.list_ascii_of_string ".in").
Proof. repeat constructor. Qed.

Lemma literal_out : literal (String.list_ascii_of_string ".out").
Proof. repeat constructor. Qed.

Lemma literal_example : literal (String.list_ascii_of_string "example").
Proof. repeat constructor. Qed.

(** The input pattern of the classifier. *)
Lemma glob_match_in (n : string) : glob_match "*.in" n = true <-> ends_with ".in" n.
Proof. apply (glob_match_suffix ".in"), literal_in. Qed.

Lemma glob_match_out (n : string) : glob_match "*.out" n = true <-> ends_with ".out" n.
Proof. apply (glob_match_suffix ".out"), literal_out. Qed.

(** The example-output pattern of the classifier: the marker occurs in the
    part of the name before the output suffix. *)
Lemma glob_match_example_out (n : string) :
  glob_match "*example*.out" n = true <->
  exists a b : string, n = a +:+ "example" +:+ b +:+ ".out".
Proof.
  unfold glob_match.
  change (String.list_ascii_of_string "*example*.out")
    with ("*"%char :: String.list_ascii_of_string "example" ++
          "*"%char :: String.list_ascii_of_string ".out").
  rewrite fnmatch_star. split.
  - intros (a & s1 & Hn & H1).
    apply fnmatch_literal_prefix in H1 as (s2 & -> & H2); [|apply literal_example].
    apply fnmatch_star in H2 as (b & s3 & -> & H3).
    apply fnmatch_literal_all in H3; [|apply literal_out]. subst s3.
    exists (String.string_of_list_ascii a), (String.string_of_list_ascii b).
    apply list_ascii_of_string_inj.
    rewrite !list_ascii_of_string_app, !String.list_ascii_of_string_of_list_ascii.
    exact Hn.
  - intros (a & b & ->). rewrite !list_ascii_of_string_app.
    eexists _, _. split; [reflexivity|].
    apply fnmatch_literal_prefix; [apply literal_example|].
    eexists. split; [reflexivity|].
    apply fnmatch_star. eexists _, _. split; [reflexivity|].
    apply fnmatch_literal_all; [apply literal_out | reflexivity].
Qed.

(** No name carries both suffixes. *)
Lemma in_not_out (n : string) : ends_with ".in" n -> ends_with ".out" n -> False.
Proof.
  intros [a Ha] [b Hb]. subst n.
  apply (f_equal String.list_ascii_of_string) in Hb.
  rewrite !list_ascii_of_string_app in Hb.
  apply (f_equal (@rev ascii)) in Hb. rewrite !rev_app_distr in Hb.
  simpl in Hb. discriminate.
Qed.

(** ** Filesystem operations *)

Lemma lookup_rest (src q : path) (t : fs) :
  filter (fun pe : path * entry => relative_to src pe.1 = None) t !! q =
  match relative_to src q with Some _ => None | None => t !! q end.
Proof.
  destruct (relative_to src q) as [r|] eqn:Hr.
  - apply map_lookup_filter_None. right. intros e _. simpl. congruence.
  - destruct (t !! q) as [e|] eqn:He.
    + apply map_lookup_filter_Some. auto.
    + apply map_lookup_filter_None. left. exact He.
Qed.

(** Where an entry is found after a tree was re-keyed. *)
Lemma lookup_rename_tree (src dst q : path) (t : fs) :
  rename_tree src dst t !! q =
  match relative_to dst q with
  | Some r =>
      match t !! (src ++ r) with
      | Some e => Some e
      | None => match relative_to src q with Some _ => None | None => t !! q end
      end
  | None => match relative_to src q with Some _ => None | None => t !! q end
  end.
Proof.
  rewrite <- lookup_rest. unfold rename_tree.
  generalize (filter (fun pe : path * entry => relative_to src pe.1 = None) t).
  intros rest. revert q.
  apply (map_fold_weak_ind
           (fun acc (m : fs) => forall q,
              acc !! q =
              match relative_to dst q with
              | Some r => match m !! (src ++ r) with
                          | Some e => Some e
                          | None => rest !! q
                          end
              | None => rest !! q
              end)).
  - intros q. destruct (relative_to dst q); [rewrite lookup_empty|]; reflexivity.
  - intros p e m acc Hp IH q.
    destruct (relative_to src p) as [r0|] eqn:Hr0.
    + apply relative_to_Some in Hr0. subst p.
      destruct (decide (q = dst ++ r0)) as [->|Hq].
      * rewrite lookup_insert_eq, relative_to_app, lookup_insert_eq. reflexivity.
      * rewrite lookup_insert_ne by congruence. rewrite IH.
        destruct (relative_to dst q) as [r|] eqn:Hr; [|reflexivity].
        apply relative_to_Some in Hr. subst q.
        rewrite lookup_insert_ne; [reflexivity|].
        intros H. apply app_inv_head in H. congruence.
    + rewrite IH. destruct (relative_to dst q) as [r|] eqn:Hr; [|reflexivity].
      rewrite lookup_insert_ne; [reflexivity|].
      intros ->. rewrite relative_to_app in Hr0. discriminate.
Qed.

(** [os.makedirs] writes at prefixes of its argument only. *)
Lemma makedirs_from_frame (rest base q : path) (t t' : fs) :
  makedirs_from base rest t = Ok t' ->
  (forall r, base ++ r <> q) ->
  t' !! q = t !! q.
Proof.
  revert base t. induction rest as [|c rest IH]; intros base t H Hq; simpl in H.
  - congruence.
  - destruct (t !! (base ++ [c])) as [[?|]|] eqn:Hc; [discriminate| |].
    + apply (IH _ _ H). intros r. rewrite <- app_assoc. apply Hq.
    + rewrite (IH _ _ H).
      * apply lookup_insert_ne. apply Hq.
      * intros r. rewrite <- app_assoc. apply Hq.
Qed.

Lemma makedirs_frame (p q : path) (t t' : fs) :
  makedirs p t = Ok t' -> roots_differ p q -> t' !! q = t !! q.
Proof.
  unfold makedirs. revert t. destruct p as [|a p]; intros t H Hd.
  - simpl in H. congruence.
  - simpl in H.
    assert (Hq : forall r, [a] ++ r <> q).
    { intros r <-. simpl in Hd. congruence. }
    destruct (t !! [a]) as [[?|]|] eqn:Ha; [discriminate| |].
    + apply (makedirs_from_frame _ _ _ _ _ H Hq).
    + rewrite (makedirs_from_frame _ _ _ _ _ H Hq).
      apply lookup_insert_ne. intros <-. apply (Hq []). reflexivity.
Qed.

(** A path that lies neither under the source nor in the destination's
    tree keeps its entry through [shutil.move], however the move ends. *)
Lemma rename_or_copy_frame (src real_dst q : path) (t t' : fs) :
  rename_or_copy src real_dst t = Ok t' ->
  relative_to src q = None ->
  roots_differ real_dst q ->
  t' !! q = t !! q.
Proof.
  unfold rename_or_copy. intros H Hsrc Hd.
  assert (Hdst : relative_to real_dst q = None).
  { rewrite <- (app_nil_r real_dst). apply roots_differ_relative, Hd. }
  assert (Hne : real_dst <> q).
  { intros <-. rewrite <- (app_nil_r real_dst) in Hdst at 2.
    rewrite relative_to_app in Hdst. discriminate. }
  destruct (t !! src) as [[c|]|] eqn:Hs; [| |discriminate].
  - destruct (is_dir t (parent real_dst));
      [|destruct (exists_ t (parent real_dst)); discriminate].
    injection H as <-. rewrite lookup_insert_ne by exact Hne.
    apply lookup_delete_ne. intros <-.
    rewrite <- (app_nil_r src) in Hsrc at 2. rewrite relative_to_app in Hsrc.
    discriminate.
  - destruct (bool_decide _); [discriminate|].
    destruct (exists_ t real_dst); [discriminate|].
    destruct (is_dir t (parent real_dst)) eqn:Hpd.
    + injection H as <-. rewrite lookup_rename_tree, Hdst, Hsrc. reflexivity.
    + destruct (makedirs (parent real_dst) t) as [t1|] eqn:Hm; [|discriminate].
      injection H as <-. rewrite lookup_rename_tree, Hdst, Hsrc.
      apply (makedirs_frame _ _ _ _ Hm).
      destruct real_dst as [|a [|b rd]]; simpl in *; try contradiction.
      * discriminate.
      * exact Hd.
Qed.

Lemma shutil_move_frame (src dst q : path) (t t' : fs) :
  shutil_move src dst t = Ok t' ->
  relative_to src q = None ->
  roots_differ dst q ->
  t' !! q = t !! q.
Proof.
  unfold shutil_move. intros H Hsrc Hd.
  destruct (is_dir t dst).
  - destruct (decide (src = dst)); [congruence|].
    destruct (exists_ t (dst ++ [name_of src])); [discriminate|].
    apply (rename_or_copy_frame _ _ _ _ _ H Hsrc).
    apply roots_differ_app_l, Hd.
  - apply (rename_or_copy_frame _ _ _ _ _ H Hsrc Hd).
Qed.

(** Moving a regular file onto a free name, or onto another regular file,
    inside an existing directory. *)
Lemma shutil_move_file (src dst : path) (c : string) (t : fs) :
  t !! src = Some (File c) ->
  is_dir t dst = false ->
  is_dir t (parent dst) = true ->
  shutil_move src dst t = Ok (<[dst := File c]> (delete src t)).
Proof.
  intros Hs Hd Hp. unfold shutil_move, rename_or_copy. rewrite Hd, Hs, Hp. reflexivity.
Qed.

(** ** Reasoning about computations *)

Lemma keeps_ret {A : Type} (P : fs -> Prop) (v : A) : keeps P (ret v).
Proof. intros w H. exact H. Qed.

Lemma keeps_raise {A : Type} (P : fs -> Prop) (e : exn) : keeps P (@raise A e).
Proof. intros w H. exact H. Qed.

Lemma keeps_bind {A B : Type} (P : fs -> Prop) (m : M A) (k : A -> M B) :
  keeps P m -> (forall v, keeps P (k v)) -> keeps P (bind m k).
Proof.
  intros Hm Hk w H. specialize (Hm w H). unfold exec, bind in *.
  destruct (m w) as [[v|e] w1]; simpl in *; [apply Hk, Hm | exact Hm].
Qed.

Lemma keeps_try_except {A : Type} (P : fs -> Prop) (m : M A) (h : exn -> M A) :
  keeps P m -> (forall e, keeps P (h e)) -> keeps P (try_except m h).
Proof.
  intros Hm Hh w H. specialize (Hm w H). unfold exec, try_except in *.
  destruct (m w) as [[v|e] w1]; simpl in *; [exact Hm | apply Hh, Hm].
Qed.

Lemma keeps_get_files (P : fs -> Prop) : keeps P get_files.
Proof. intros w H. exact H. Qed.

Lemma keeps_print (P : fs -> Prop) (text : string) : keeps P (print text).
Proof. intros w H. exact H. Qed.

Lemma keeps_core_log (P : fs -> Prop) (message level : string) :
  keeps P (CCCCore.log message level).
Proof. intros w H. exact H. Qed.

Lemma keeps_simple_log (P : fs -> Prop) (msg typ : string) :
  keeps P (CCCSimple.log msg typ).
Proof. intros w H. exact H. Qed.

Lemma keeps_fs_op (P : fs -> Prop) (f : fs -> result fs) :
  (forall t t', f t = Ok t' -> P t -> P t') -> keeps P (fs_op f).
Proof.
  intros Hf w H. unfold exec, fs_op.
  destruct (f (files w)) as [t'|e] eqn:Hft; simpl; [exact (Hf _ _ Hft H) | exact H].
Qed.

Lemma keeps_for_each {A : Type} (P : fs -> Prop) (xs : list A) (body : A -> M unit) :
  (forall x, x ∈ xs -> keeps P (body x)) -> keeps P (for_each xs body).
Proof.
  induction xs as [|x xs IH]; intros H; simpl.
  - apply keeps_ret.
  - apply keeps_bind; [apply H; left|].
    intros _. apply IH. intros y Hy. apply H. right. exact Hy.
Qed.

Lemma keeps_for_fold {A S : Type} (P : fs -> Prop) (xs : list A) (s : S)
    (body : A -> S -> M S) :
  (forall x s', x ∈ xs -> keeps P (body x s')) -> keeps P (for_fold xs s body).
Proof.
  revert s. induction xs as [|x xs IH]; intros s H; simpl.
  - apply keeps_ret.
  - apply keeps_bind; [apply H; left|].
    intros s1. apply IH. intros y s' Hy. apply H. right. exact Hy.
Qed.

Lemma keeps_if {A : Type} (P : fs -> Prop) (b : bool) (m1 m2 : M A) :
  keeps P m1 -> keeps P m2 -> keeps P (if b then m1 else m2).
Proof. destruct b; auto. Qed.

Create HintDb keeps.
#[local] Hint Resolve keeps_ret keeps_raise keeps_get_files keeps_print
  keeps_core_log keeps_simple_log : keeps.

(** ** Clearing a folder *)

Lemma set_files_id (w : world) : set_files (files w) w = w.
Proof. destruct w; reflexivity. Qed.

Lemma unlink_guarded (file : path) (w : world) :
  is_file (files w) file = true ->
  fs_op (unlink file) w = (Ok tt, set_files (delete file (files w)) w).
Proof.
  unfold is_file, fs_op, unlink. intros H.
  destruct (files w !! file) as [[c|]|]; try discriminate. reflexivity.
Qed.

Lemma counting_loop (d : path) (names : list string) (count : nat) (w : world) :
  exists count',
    for_fold names count
      (fun name files_removed =>
         let* t1 := get_files in
         if is_file t1 (d ++ [name]) then
           fs_op (unlink (d ++ [name])) >> ret (S files_removed)
         else ret files_removed) w
    = (Ok count', set_files (sweep d names (files w)) w).
Proof.
  revert count w. induction names as [|n names IH]; intros count w; simpl.
  - exists count. unfold ret. rewrite set_files_id. reflexivity.
  - unfold bind at 1. unfold bind at 1. unfold get_files at 1.
    unfold unlink_if_file.
    destruct (is_file (files w) (d ++ [n])) eqn:Hf.
    + unfold bind at 1. rewrite (unlink_guarded _ _ Hf). unfold ret at 1.
      destruct (IH (S count) (set_files (delete (d ++ [n]) (files w)) w)) as [c' Hc'].
      exists c'. rewrite Hc'. reflexivity.
    + unfold ret at 1. destruct (IH count w) as [c' Hc']. exists c'. exact Hc'.
Qed.

Lemma plain_loop (d : path) (names : list string) (w : world) :
  for_each names
    (fun name =>
       let* t1 := get_files in
       if is_file t1 (d ++ [name]) then fs_op (unlink (d ++ [name])) else ret tt) w
  = (Ok tt, set_files (sweep d names (files w)) w).
Proof.
  revert w. induction names as [|n names IH]; intros w; simpl.
  - unfold ret. rewrite set_files_id. reflexivity.
  - unfold bind at 1. unfold bind at 1. unfold get_files at 1.
    unfold unlink_if_file.
    destruct (is_file (files w) (d ++ [n])) eqn:Hf.
    + rewrite (unlink_guarded _ _ Hf). rewrite IH. reflexivity.
    + unfold ret at 1. apply IH.
Qed.

Lemma is_file_unlink_if_file (p q : path) (t : fs) :
  is_file t q = false -> is_file (unlink_if_file p t) q = false.
Proof.
  unfold unlink_if_file. intros H. destruct (is_file t p); [|exact H].
  unfold is_file in *. destruct (decide (p = q)) as [->|Hne].
  - rewrite lookup_delete_eq. reflexivity.
  - rewrite lookup_delete_ne by exact Hne. exact H.
Qed.

(** What is no regular file is left alone by a clearing loop. *)
Lemma lookup_sweep_not_file (d : path) (names : list string) (t : fs) (q : path) :
  is_file t q = false -> sweep d names t !! q = t !! q.
Proof.
  unfold sweep. revert t. induction names as [|n names IH]; intros t H; simpl.
  - reflexivity.
  - rewrite IH by (apply is_file_unlink_if_file, H).
    unfold unlink_if_file. destruct (is_file t (d ++ [n])) eqn:Hn; [|reflexivity].
    apply lookup_delete_ne. intros <-. congruence.
Qed.

(** What is not directly inside the folder is left alone by a clearing loop. *)
Lemma lookup_sweep_other (d : path) (names : list string) (t : fs) (q : path) :
  (forall n, q <> d ++ [n]) -> sweep d names t !! q = t !! q.
Proof.
  unfold sweep. intros Hq. revert t. induction names as [|n names IH]; intros t; simpl.
  - reflexivity.
  - rewrite IH. unfold unlink_if_file. destruct (is_file t (d ++ [n])); [|reflexivity].
    apply lookup_delete_ne. intros <-. apply (Hq n). reflexivity.
Qed.

(** A regular file whose name is listed is gone after a clearing loop. *)
Lemma lookup_sweep_file (d : path) (names : list string) (t : fs) (n : string) :
  n ∈ names -> is_file t (d ++ [n]) = true -> sweep d names t !! (d ++ [n]) = None.
Proof.
  unfold sweep. revert t. induction names as [|m names IH]; intros t Hn Hf; simpl.
  - apply elem_of_nil in Hn. contradiction.
  - destruct (decide (m = n)) as [->|Hne].
    + fold (sweep d names (unlink_if_file (d ++ [n]) t)).
      rewrite lookup_sweep_not_file.
      * unfold unlink_if_file. rewrite Hf. apply lookup_delete_eq.
      * unfold unlink_if_file. rewrite Hf. unfold is_file.
        rewrite lookup_delete_eq. reflexivity.
    + apply IH.
      * apply elem_of_cons in Hn as [->|Hn]; [contradiction | exact Hn].
      * unfold unlink_if_file. destruct (is_file t (d ++ [m])); [|exact Hf].
        unfold is_file in *. rewrite lookup_delete_ne; [exact Hf|].
        intros H. apply app_inj_tail in H as [_ ?]. contradiction.
Qed.

(** The files [clear_folder] leaves. *)
Lemma files_clear_folder (folder : path) (description : string) (w : world) :
  files (exec (CCCCore.clear_folder folder description) w) =
  if exists_ (files w) folder
  then sweep folder (glob (files w) folder "*") (files w)
  else files w.
Proof.
  unfold exec, CCCCore.clear_folder. cbv zeta. unfold bind at 1. unfold get_files at 1.
  destruct (exists_ (files w) folder); [|reflexivity].
  unfold bind at 1.
  destruct (counting_loop folder (glob (files w) folder "*") 0%nat w) as [c Hc].
  rewrite Hc. destruct (0 <? c)%nat; reflexivity.
Qed.

(** [clear_folder] always returns normally. *)
Lemma eval_clear_folder (folder : path) (description : string) (w : world) :
  eval (CCCCore.clear_folder folder description) w = Ok tt.
Proof.
  unfold eval, CCCCore.clear_folder. cbv zeta. unfold bind at 1. unfold get_files at 1.
  destruct (exists_ (files w) folder); [|reflexivity].
  unfold bind at 1.
  destruct (counting_loop folder (glob (files w) folder "*") 0%nat w) as [c Hc].
  rewrite Hc. destruct (0 <? c)%nat; reflexivity.
Qed.

(** The files [cleanup_infos] leaves. *)
Lemma files_cleanup_infos (w : world) :
  files (exec CCCCore.cleanup_infos w) =
  sweep CCCCore.infos (glob (files w) CCCCore.infos "*") (files w).
Proof.
  unfold exec, CCCCore.cleanup_infos. cbv zeta. unfold bind at 1. unfold CCCCore.log at 1.
  unfold bind at 1. unfold get_files at 1. unfold bind at 1.
  match goal with
  | |- context [for_fold ?l 0%nat _ ?w0] =>
      destruct (counting_loop CCCCore.infos l 0%nat w0) as [c Hc]; rewrite Hc
  end.
  destruct (0 <? c)%nat; reflexivity.
Qed.

(** The files [CCCSimple.cleanup] leaves. *)
Lemma files_simple_cleanup (w : world) :
  files (exec CCCSimple.cleanup w) =
  sweep ["infos"] (glob (files w) ["infos"] "*") (files w).
Proof.
  unfold exec, CCCSimple.cleanup. cbv zeta. unfold bind at 1. unfold CCCSimple.log at 1.
  unfold bind at 1. unfold get_files at 1. unfold bind at 1.
  match goal with
  | |- context [for_each ?l _ ?w0] =>
      pose proof (plain_loop ["infos"] l w0) as H; cbn [app] in H; rewrite H
  end.
  reflexivity.
Qed.

(** ** The classifier: what it leaves alone *)

Lemma keeps_move (q : path) (o : option entry) (src dst : path) :
  relative_to src q = None ->
  roots_differ dst q ->
  keeps (fun t => t !! q = o) (fs_op (shutil_move src dst)).
Proof.
  intros Hs Hd. apply keeps_fs_op. intros t t' H Ht.
  rewrite (shutil_move_frame _ _ _ _ _ H Hs Hd). exact Ht.
Qed.

Lemma relative_to_sibling (d : path) (m n : string) (r : path) :
  m <> n -> relative_to (d ++ [m]) (d ++ n :: r) = None.
Proof.
  intros Hmn. apply relative_to_None. intros s H.
  rewrite <- app_assoc in H. apply app_inv_head in H.
  injection H as ->. contradiction.
Qed.

(** Both loops of [CCCCore.organize_files] leave alone every path that lies
    under no staged name matching a pattern and outside the two destination
    folders. *)
Lemma core_organize_keeps_at (q : path) (o : option entry) :
  (forall m, glob_match "*.in" m = true \/ glob_match "*example*.out" m = true ->
             relative_to (CCCCore.infos ++ [m]) q = None) ->
  roots_differ CCCCore.inputs q ->
  roots_differ CCCCore.outputs q ->
  keeps (fun t => t !! q = o) CCCCore.organize_files.
Proof.
  intros Hrel Hin Hout. unfold CCCCore.organize_files.
  repeat (first [ apply keeps_bind; [|intros ?] | apply keeps_for_each; intros m Hm ];
          auto with keeps).
  - apply elem_of_glob in Hm as (_ & Hm & _).
    apply keeps_move; [apply Hrel; left; exact Hm | apply roots_differ_app_l, Hin].
  - apply elem_of_glob in Hm as (_ & Hm & _).
    apply keeps_move; [apply Hrel; right; exact Hm | apply roots_differ_app_l, Hout].
Qed.

Lemma core_organize_keeps (n : string) (r : path) (o : option entry) :
  glob_match "*.in" n = false ->
  glob_match "*example*.out" n = false ->
  keeps (fun t => t !! (CCCCore.infos ++ n :: r) = o) CCCCore.organize_files.
Proof.
  intros Hin Hout. apply core_organize_keeps_at.
  - intros m Hm. apply relative_to_sibling. destruct Hm; congruence.
  - simpl. discriminate.
  - simpl. discriminate.
Qed.

(** The staging directory itself stays what it is. *)
Lemma core_organize_keeps_infos (o : option entry) :
  keeps (fun t => t !! CCCCore.infos = o) CCCCore.organize_files.
Proof.
  apply core_organize_keeps_at.
  - intros m _. reflexivity.
  - simpl. discriminate.
  - simpl. discriminate.
Qed.

(** The same for [CCCSimple.organize_files], whose second pattern takes
    every output-suffixed name. *)
Lemma simple_organize_keeps_at (q : path) (o : option entry) :
  (forall m, glob_match "*.in" m = true \/ glob_match "*.out" m = true ->
             relative_to (["infos"] ++ [m]) q = None) ->
  roots_differ ["Inputs"] q ->
  roots_differ ["Outputs"] q ->
  keeps (fun t => t !! q = o) CCCSimple.organize_files.
Proof.
  intros Hrel Hin Hout. unfold CCCSimple.organize_files.
  repeat (first [ apply keeps_bind; [|intros ?] | apply keeps_for_each; intros m Hm ];
          auto with keeps).
  - apply elem_of_glob in Hm as (_ & Hm & _).
    apply keeps_move; [apply Hrel; left; exact Hm | exact Hin].
  - apply elem_of_glob in Hm as (_ & Hm & _).
    apply keeps_move; [apply Hrel; right; exact Hm | exact Hout].
Qed.

(** A regular file directly inside the staging directory is gone after
    [cleanup_infos]. *)
Lemma cleanup_infos_removes (w : world) (n c : string) :
  is_dir (files w) CCCCore.infos = true ->
  files w !! (CCCCore.infos ++ [n]) = Some (File c) ->
  files (exec CCCCore.cleanup_infos w) !! (CCCCore.infos ++ [n]) = None.
Proof.
  intros Hd Hn. rewrite files_cleanup_infos. apply lookup_sweep_file.
  - apply elem_of_glob. repeat split; [exact Hd | apply glob_match_any | eauto].
  - unfold is_file. rewrite Hn. reflexivity.
Qed.

(** Clearing removes regular files directly inside the folder, nothing else. *)
Lemma clear_folder_only_files (w : world) (folder : path) (description : string) (q : path) :
  (forall n, q = folder ++ [n] -> is_file (files w) q = false) ->
  files (exec (CCCCore.clear_folder folder description) w) !! q = files w !! q.
Proof.
  intros H. rewrite files_clear_folder.
  destruct (exists_ (files w) folder); [|reflexivity].
  destruct (is_file (files w) q) eqn:Hf.
  - apply lookup_sweep_other. intros n Hn. specialize (H n Hn). congruence.
  - apply lookup_sweep_not_file, Hf.
Qed.

Lemma cleanup_infos_only_files (w : world) (q : path) :
  (forall n, q = CCCCore.infos ++ [n] -> is_file (files w) q = false) ->
  files (exec CCCCore.cleanup_infos w) !! q = files w !! q.
Proof.
  intros H. rewrite files_cleanup_infos.
  destruct (is_file (files w) q) eqn:Hf.
  - apply lookup_sweep_other. intros n Hn. specialize (H n Hn). congruence.
  - apply lookup_sweep_not_file, Hf.
Qed.

Lemma simple_cleanup_only_files (w : world) (q : path) :
  (forall n, q = ["infos"] ++ [n] -> is_file (files w) q = false) ->
  files (exec CCCSimple.cleanup w) !! q = files w !! q.
Proof.
  intros H. rewrite files_simple_cleanup.
  destruct (is_file (files w) q) eqn:Hf.
  - apply lookup_sweep_other. intros n Hn. specialize (H n Hn). congruence.
  - apply lookup_sweep_not_file, Hf.
Qed.

(** A path at or below a subdirectory of [d] is no regular file directly
    inside [d]. *)
Lemma below_subdirectory (t : fs) (d : path) (sub : string) (r : path) :
  t !! (d ++ [sub]) = Some Dir ->
  forall n, d ++ sub :: r = d ++ [n] -> is_file t (d ++ sub :: r) = false.
Proof.
  intros Hsub n H. apply app_inv_head in H. injection H as -> ->.
  unfold is_file. rewrite Hsub. reflexivity.
Qed.

(** ** The classifier: what it moves *)

Lemma leads_keeps {A : Type} (P : fs -> Prop) (m : M A) : keeps P m -> leads P P m.
Proof. intros H. exact H. Qed.

Lemma leads_bind {A B : Type} (P R Q : fs -> Prop) (m : M A) (k : A -> M B) :
  leads P R m -> (forall t, R t -> Q t) -> (forall v, leads R Q (k v)) ->
  leads P Q (bind m k).
Proof.
  intros Hm HRQ Hk w H. specialize (Hm w H). unfold exec, bind in *.
  destruct (m w) as [[v|e] w1]; simpl in *; [apply Hk, Hm | apply HRQ, Hm].
Qed.

Lemma leads_get_files {B : Type} (P Q : fs -> Prop) (k : fs -> M B) :
  (forall t, P t -> leads (fun t' => t' = t) Q (k t)) ->
  leads P Q (bind get_files k).
Proof.
  intros Hk w H. unfold exec, bind, get_files. apply (Hk (files w) H). reflexivity.
Qed.

Lemma core_body_moves_one (s d : path) (msg : string -> string) :
  moves_one s d
    (fun name => fs_op (shutil_move (s ++ [name]) (d ++ [name])) >>
                 CCCCore.log (msg name) "INFO").
Proof.
  intros n w. unfold bind, fs_op, CCCCore.log.
  destruct (shutil_move (s ++ [n]) (d ++ [n]) (files w)); simpl; eauto.
  exists (console w). destruct w; reflexivity.
Qed.

Lemma simple_body_moves_one (s d : path) :
  moves_one s d (fun name => fs_op (shutil_move (s ++ [name]) (d ++ [name]))).
Proof.
  intros n w. unfold fs_op.
  destruct (shutil_move (s ++ [n]) (d ++ [n]) (files w)); simpl.
  - exists (console w). reflexivity.
  - exists (console w). destruct w; reflexivity.
Qed.

(** Where every entry is found after a loop that moves the regular files
    [ns] of [s] into [d]; the loop ends normally. *)
Lemma move_loop (s d : path) (body : string -> M unit) (ns : list string) (w : world) :
  moves_one s d body ->
  roots_differ s d ->
  NoDup ns ->
  is_dir (files w) d = true ->
  (forall n, files w !! (d ++ [n]) <> Some Dir) ->
  (forall n, n ∈ ns -> is_file (files w) (s ++ [n]) = true) ->
  exists w',
    for_each ns body w = (Ok tt, w') /\
    keyboard w' = keyboard w /\
    forall q,
      files w' !! q =
      match child_name d q with
      | Some n => if decide (n ∈ ns) then files w !! (s ++ [n]) else files w !! q
      | None =>
          match child_name s q with
          | Some n => if decide (n ∈ ns) then None else files w !! q
          | None => files w !! q
          end
      end.
Proof.
  intros Hbody Hsd. revert w.
  induction ns as [|n ns IH]; intros w Hnd Hd Hnodir Hfiles.
  - exists w. repeat split. intros q.
    destruct (child_name d q); [|destruct (child_name s q)];
      try rewrite decide_False by apply not_elem_of_nil; reflexivity.
  - apply NoDup_cons in Hnd as [Hn Hnd].
    assert (Hsn : is_file (files w) (s ++ [n]) = true) by (apply Hfiles; left).
    unfold is_file in Hsn.
    destruct (files w !! (s ++ [n])) as [[c|]|] eqn:Hsrc; try discriminate.
    assert (Hne : forall a b, s ++ [a] <> d ++ [b]).
    { intros a b. apply roots_differ_ne, Hsd. }
    assert (Hdn : d <> s ++ [n]).
    { intros H. apply (roots_differ_ne s d [n] []); [exact Hsd|].
      rewrite app_nil_r. congruence. }
    assert (Hmv : shutil_move (s ++ [n]) (d ++ [n]) (files w) =
                  Ok (<[d ++ [n] := File c]> (delete (s ++ [n]) (files w)))).
    { apply shutil_move_file; [exact Hsrc| |].
      - unfold is_dir. specialize (Hnodir n).
        destruct (d ++ [n]) eqn:E; [destruct d; discriminate|].
        destruct (files w !! (s0 :: l)) as [[?|]|]; congruence.
      - unfold parent. rewrite removelast_last. exact Hd. }
    specialize (Hbody n w). rewrite Hmv in Hbody. destruct Hbody as [c' Hb].
    set (t1 := <[d ++ [n] := File c]> (delete (s ++ [n]) (files w))) in *.
    destruct (IH (World t1 c' (keyboard w))) as (w' & Hloop & Hkb & Hq); simpl files.
    + exact Hnd.
    + unfold is_dir in *. destruct d as [|a d']; [reflexivity|].
      unfold t1. rewrite lookup_insert_ne, lookup_delete_ne; [exact Hd|congruence|].
      intros H. apply (f_equal length) in H. rewrite length_app in H. simpl in H. lia.
    + intros m. unfold t1. destruct (decide (m = n)) as [->|Hmn].
      * rewrite lookup_insert_eq. discriminate.
      * rewrite lookup_insert_ne, lookup_delete_ne; [apply Hnodir|apply Hne|].
        intros H. apply app_inj_tail in H as [_ ?]. congruence.
    + intros m Hm. unfold is_file, t1.
      rewrite lookup_insert_ne by (intros H; symmetry in H; exact (Hne _ _ H)).
      rewrite lookup_delete_ne.
      * apply (Hfiles m). right. exact Hm.
      * intros H. apply app_inj_tail in H as [_ ->]. contradiction.
    + exists w'. split; [|split; [exact Hkb|]].
      * simpl. unfold bind. rewrite Hb. exact Hloop.
      * intros q. rewrite Hq. simpl files.
        destruct (child_name d q) as [m|] eqn:Hcd.
        { apply child_name_Some in Hcd. subst q.
          destruct (decide (m ∈ ns)) as [Hm|Hm].
          - rewrite decide_True by (right; exact Hm). unfold t1.
            rewrite lookup_insert_ne by (intros H; symmetry in H; exact (Hne _ _ H)).
            apply lookup_delete_ne. intros H. apply app_inj_tail in H as [_ ->].
            contradiction.
          - destruct (decide (m = n)) as [->|Hmn].
            + rewrite decide_True by left. unfold t1. rewrite lookup_insert_eq.
              symmetry. exact Hsrc.
            + rewrite decide_False.
              * unfold t1. rewrite lookup_insert_ne, lookup_delete_ne;
                  [reflexivity|apply Hne|].
                intros H. apply app_inj_tail in H as [_ ?]. congruence.
              * intros H. apply elem_of_cons in H as [?|?]; contradiction. }
        destruct (child_name s q) as [m|] eqn:Hcs.
        { apply child_name_Some in Hcs. subst q.
          destruct (decide (m ∈ ns)) as [Hm|Hm].
          - rewrite decide_True by (right; exact Hm). reflexivity.
          - destruct (decide (m = n)) as [->|Hmn].
            + rewrite decide_True by left. unfold t1.
              rewrite lookup_insert_ne by (intros H; symmetry in H; exact (Hne _ _ H)).
              apply lookup_delete_eq.
            + rewrite decide_False.
              * unfold t1.
                rewrite lookup_insert_ne by (intros H; symmetry in H; exact (Hne _ _ H)).
                apply lookup_delete_ne. intros H. apply app_inj_tail in H as [_ ?].
                congruence.
              * intros H. apply elem_of_cons in H as [?|?]; contradiction. }
        unfold t1. rewrite lookup_insert_ne, lookup_delete_ne; [reflexivity| |].
        -- intros <-. rewrite (proj2 (child_name_Some s (s ++ [n]) n) eq_refl) in Hcs.
           discriminate.
        -- intros <-. rewrite (proj2 (child_name_Some d (d ++ [n]) n) eq_refl) in Hcd.
           discriminate.
Qed.

(** ** Claims about clearing and classification *)

(** C9. Clearing is shallow: a subdirectory of the staging directory, and
    every path below it, keeps its entry through [clear_folder] on the
    staging directory, through [cleanup_infos] and through
    [CCCSimple.cleanup]; only regular files directly inside are removed. *)
Theorem cleanup_is_shallow (w : world) (description sub : string) (r : path) :
  files w !! (CCCCore.infos ++ [sub]) = Some Dir ->
  let q := CCCCore.infos ++ sub :: r in
  files (exec (CCCCore.clear_folder CCCCore.infos description) w) !! q = files w !! q /\
  files (exec CCCCore.cleanup_infos w) !! q = files w !! q /\
  files (exec CCCSimple.cleanup w) !! q = files w !! q.
Proof.
  intros Hsub q. pose proof (below_subdirectory _ _ _ r Hsub) as Hq.
  split; [|split].
  - apply clear_folder_only_files, Hq.
  - apply cleanup_infos_only_files, Hq.
  - apply simple_cleanup_only_files, Hq.
Qed.

Lemma cleanup_is_shallow_witness :
  files nested_world !! ["infos"; "extra"] = Some Dir /\
  files (exec (CCCCore.clear_folder CCCCore.infos "infos") nested_world)
    !! ["infos"; "extra"; "level3_9.in"] = Some (File "9") /\
  files (exec CCCCore.cleanup_infos nested_world)
    !! ["infos"; "extra"; "level3_9.in"] = Some (File "9") /\
  files (exec CCCSimple.cleanup nested_world)
    !! ["infos"; "extra"; "level3_9.in"] = Some (File "9").
Proof.
  split; [reflexivity|].
  apply (cleanup_is_shallow nested_world "infos" "extra" ["level3_9.in"]).
  reflexivity.
Defined.

(** C8. Classification leaves alone every staged entry whose name matches
    neither pattern, with all that lies below it; when that entry is a
    regular file, the cleanup that follows classification removes it. *)
Theorem classifier_leaves_unmatched (w : world) (n : string) :
  glob_match "*.in" n = false ->
  glob_match "*example*.out" n = false ->
  (forall r, files (exec CCCCore.organize_files w) !! (CCCCore.infos ++ n :: r) =
             files w !! (CCCCore.infos ++ n :: r)) /\
  (forall c, is_dir (files w) CCCCore.infos = true ->
             files w !! (CCCCore.infos ++ [n]) = Some (File c) ->
             files (exec CCCCore.cleanup_infos (exec CCCCore.organize_files w))
               !! (CCCCore.infos ++ [n]) = None).
Proof.
  intros Hin Hout. split.
  - intros r. apply (core_organize_keeps n r _ Hin Hout w). reflexivity.
  - intros c Hd Hn. apply (cleanup_infos_removes _ n c).
    + apply is_dir_lookup in Hd. apply is_dir_lookup.
      apply (core_organize_keeps_infos (Some Dir) w Hd).
    + apply (core_organize_keeps n [] _ Hin Hout w). exact Hn.
Qed.

Lemma classifier_leaves_unmatched_witness :
  files (exec CCCCore.organize_files nested_world) !! ["infos"; "notes.txt"] =
    Some (File "remember") /\
  files (exec CCCCore.cleanup_infos (exec CCCCore.organize_files nested_world))
    !! ["infos"; "notes.txt"] = None.
Proof.
  destruct (classifier_leaves_unmatched nested_world "notes.txt") as [H1 H2];
    [reflexivity | reflexivity |].
  split.
  - etransitivity; [exact (H1 []) | reflexivity].
  - apply (H2 "remember"); reflexivity.
Defined.

(** C7. On a staging directory in which the two listings of the classifier
    find nothing, as after a completed classification, the classifier moves
    nothing: it returns the counts (0, 0), leaves the files as they are,
    and only logs its two lines. *)
Theorem classifier_idempotent_on_organized (w : world) :
  glob (files w) CCCCore.infos "*.in" = [] ->
  glob (files w) CCCCore.infos "*example*.out" = [] ->
  CCCCore.organize_files w =
  (Ok (0%nat, 0%nat),
   World (files w)
         (console w ++
          [ Log "INFO" "Organizing files...";
            Log "SUCCESS" "Organized 0 input files and 0 example output files" ])
         (keyboard w)).
Proof.
  intros Hin Hout. unfold CCCCore.organize_files, bind, CCCCore.log, get_files.
  cbn [files console keyboard]. rewrite Hin. cbn [for_each length ret].
  cbn [files console keyboard]. rewrite Hout. cbn [for_each length].
  unfold ret. cbn [files console keyboard].
  rewrite <- app_assoc. reflexivity.
Qed.

(** Classifying the scenario of the specification a second time. *)
Lemma classifier_idempotent_on_organized_witness :
  let w1 := exec CCCCore.organize_files (staged_world "1 2" "3" "4 5") in
  glob (files w1) CCCCore.infos "*.in" = [] /\
  glob (files w1) CCCCore.infos "*example*.out" = [] /\
  eval CCCCore.organize_files w1 = Ok (0%nat, 0%nat) /\
  files (exec CCCCore.organize_files w1) = files w1.
Proof.
  cbv zeta.
  assert (Hin : glob (files (exec CCCCore.organize_files (staged_world "1 2" "3" "4 5")))
                  CCCCore.infos "*.in" = []) by (vm_compute; reflexivity).
  assert (Hout : glob (files (exec CCCCore.organize_files (staged_world "1 2" "3" "4 5")))
                   CCCCore.infos "*example*.out" = []) by (vm_compute; reflexivity).
  set (w1 := exec CCCCore.organize_files (staged_world "1 2" "3" "4 5")) in *.
  split; [exact Hin|]. split; [exact Hout|].
  unfold eval, exec.
  rewrite (classifier_idempotent_on_organized w1 Hin Hout). split; reflexivity.
Defined.

Lemma append_assoc (a b c : string) : (a +:+ b) +:+ c = a +:+ (b +:+ c).
Proof.
  induction a as [|x a IH]; [reflexivity|].
  change (String x ((a +:+ b) +:+ c) = String x (a +:+ (b +:+ c))).
  rewrite IH. reflexivity.
Qed.

Lemma example_out_ends_out (n : string) :
  glob_match "*example*.out" n = true -> ends_with ".out" n.
Proof.
  intros H. apply glob_match_example_out in H as (a & b & ->).
  exists (a +:+ "example" +:+ b). rewrite !append_assoc. reflexivity.
Qed.

Lemma keeps_and {A : Type} (P Q : fs -> Prop) (m : M A) :
  keeps P m -> keeps Q m -> keeps (fun t => P t /\ Q t) m.
Proof. intros HP HQ w [H1 H2]. split; [apply HP, H1 | apply HQ, H2]. Qed.

Lemma leads_core_log {B : Type} (P Q : fs -> Prop) (message level : string) (k : M B) :
  leads P Q k -> leads P Q (CCCCore.log message level >> k).
Proof.
  intros Hk w H.
  exact (Hk (World (files w) (console w ++ [Log level message]) (keyboard w)) H).
Qed.

(** The files that a successful first loop of the classifier has put in
    place stay there through the rest of [CCCCore.organize_files]. *)
Lemma core_second_loop_keeps (q : path) (o : option entry) (k : nat -> M (nat * nat)) :
  (forall m, glob_match "*example*.out" m = true ->
             relative_to (CCCCore.infos ++ [m]) q = None) ->
  roots_differ CCCCore.outputs q ->
  (forall n, keeps (fun t => t !! q = o) (k n)) ->
  keeps (fun t => t !! q = o)
    (let* t1 := get_files in
     let example_out_files := glob t1 CCCCore.infos "*example*.out" in
     for_each example_out_files
       (fun name =>
          let dest := CCCCore.outputs ++ [name] in
          fs_op (shutil_move (CCCCore.infos ++ [name]) dest) >>
          CCCCore.log ("Moved " +:+ name +:+ " -> Outputs/") "INFO") >>
     k (length example_out_files)).
Proof.
  intros Hrel Hout Hk.
  apply keeps_bind; [auto with keeps|]. intros t1.
  apply keeps_bind; [|intros _; apply Hk].
  apply keeps_for_each. intros m Hm. apply elem_of_glob in Hm as (_ & Hm & _).
  apply keeps_bind; [|intros _; auto with keeps].
  apply keeps_move; [apply Hrel, Hm | apply roots_differ_app_l, Hout].
Qed.

Lemma core_organize_inputs (t : fs) (name c : string) :
  inputs_ready t ->
  t !! (CCCCore.infos ++ [name]) = Some (File c) ->
  ends_with ".in" name ->
  leads (fun t' => t' = t)
        (fun t' => t' !! (CCCCore.inputs ++ [name]) = Some (File c) /\
                   t' !! (CCCCore.infos ++ [name]) = None)
        CCCCore.organize_files.
Proof.
  intros (Hinfos & Hinputs & Hnodir & Hreg) Hname Hsuffix.
  assert (Hin : name ∈ glob t CCCCore.infos "*.in").
  { apply elem_of_glob. repeat split; [exact Hinfos | apply glob_match_in, Hsuffix | eauto]. }
  unfold CCCCore.organize_files.
  apply leads_core_log, leads_get_files. intros t0 ->.
  apply leads_bind
    with (R := fun t' => t' !! (CCCCore.inputs ++ [name]) = Some (File c) /\
                         t' !! (CCCCore.infos ++ [name]) = None);
    [ | tauto | intros _ ].
  - intros w0 Hw0.
    destruct (move_loop CCCCore.infos CCCCore.inputs _
                (glob t CCCCore.infos "*.in") w0
                (core_body_moves_one _ _ (fun name => "Moved " +:+ name +:+ " -> Inputs/")))
      as (w1 & Hloop & _ & Hq).
    + simpl. discriminate.
    + apply NoDup_glob.
    + rewrite Hw0. exact Hinputs.
    + rewrite Hw0. exact Hnodir.
    + intros n Hn. rewrite Hw0. apply elem_of_glob in Hn as (_ & Hm & [e He]).
      apply glob_match_in in Hm. specialize (Hreg n Hm). unfold is_file.
      rewrite He. destruct e; [reflexivity | congruence].
    + unfold exec. cbv zeta. rewrite Hloop. simpl snd. split.
      * rewrite Hq, (proj2 (child_name_Some _ _ name) eq_refl), decide_True by exact Hin.
        rewrite Hw0. exact Hname.
      * rewrite Hq.
        replace (child_name CCCCore.inputs (CCCCore.infos ++ [name])) with (@None string)
          by reflexivity.
        rewrite (proj2 (child_name_Some _ _ name) eq_refl), decide_True by exact Hin.
        reflexivity.
  - set (k := fun n_out : nat =>
                CCCCore.log ("Organized " +:+
                             str_nat (length (glob t CCCCore.infos "*.in")) +:+
                             " input files and " +:+ str_nat n_out +:+
                             " example output files") "SUCCESS" >>
                ret (length (glob t CCCCore.infos "*.in"), n_out)).
    apply keeps_and.
    1: apply (core_second_loop_keeps (CCCCore.inputs ++ [name]) (Some (File c)) k).
    4: apply (core_second_loop_keeps (CCCCore.infos ++ [name]) None k).
    + intros m _. reflexivity.
    + simpl. discriminate.
    + intros n. repeat (apply keeps_bind; [|intros ?]); auto with keeps.
    + intros m Hm. apply (relative_to_sibling _ _ _ []). intros ->.
      exact (in_not_out _ Hsuffix (example_out_ends_out _ Hm)).
    + simpl. discriminate.
    + intros n. repeat (apply keeps_bind; [|intros ?]); auto with keeps.
Qed.

(** C4. Every regular file of the staging directory whose name ends with
    the input suffix is, after classification, in the inputs folder with its
    content and gone from the staging directory; the classifier's list of
    input files names it exactly once. *)
Theorem classifier_moves_inputs (w : world) (name c : string) :
  inputs_ready (files w) ->
  files w !! (CCCCore.infos ++ [name]) = Some (File c) ->
  ends_with ".in" name ->
  let w' := exec CCCCore.organize_files w in
  files w' !! (CCCCore.inputs ++ [name]) = Some (File c) /\
  files w' !! (CCCCore.infos ++ [name]) = None /\
  count_occ String.string_dec (glob (files w) CCCCore.infos "*.in") name = 1%nat.
Proof.
  intros Hready Hname Hsuffix w'.
  destruct (core_organize_inputs _ _ _ Hready Hname Hsuffix w eq_refl) as [H1 H2].
  repeat split; [exact H1 | exact H2 |].
  apply NoDup_count_occ'; [apply NoDup_ListNoDup, NoDup_glob|].
  apply list_elem_of_In, elem_of_glob.
  destruct Hready as (Hinfos & _).
  repeat split; [exact Hinfos | apply glob_match_in, Hsuffix | eauto].
Qed.

(** Lookups in a map written out entry by entry, at a key that is not
    fully known: each entry either is not at the key or settles the goal. *)
Ltac settle_lookup :=
  unfold world_of, list_to_map; cbn [files foldr fst snd uncurry app];
  repeat (rewrite lookup_insert;
          destruct (decide _) as [Heq|_];
          [first [discriminate Heq | discriminate | reflexivity]|]);
  rewrite ?lookup_empty; first [discriminate | reflexivity].

Lemma staged_world_ready (c1 c2 c3 : string) : inputs_ready (files (staged_world c1 c2 c3)).
Proof.
  unfold inputs_ready, staged_world. repeat split.
  - intros n. settle_lookup.
  - intros n _. settle_lookup.
Qed.

Lemma classifier_moves_inputs_witness :
  let w := staged_world "1 2" "3" "4 5" in
  let w' := exec CCCCore.organize_files w in
  files w !! ["infos"; "level3_2.in"] = Some (File "4 5") /\
  files w' !! ["Inputs"; "level3_2.in"] = Some (File "4 5") /\
  files w' !! ["infos"; "level3_2.in"] = None /\
  count_occ String.string_dec (glob (files w) CCCCore.infos "*.in") "level3_2.in" = 1%nat.
Proof.
  split; [reflexivity|].
  apply (classifier_moves_inputs (staged_world "1 2" "3" "4 5") "level3_2.in" "4 5").
  - apply staged_world_ready.
  - reflexivity.
  - exists "level3_2". reflexivity.
Defined.

(** Why the inputs folder must hold no subdirectory: [shutil.move] then
    aims inside that subdirectory, finds the name taken and raises; the
    classifier stops and both inputs stay staged. *)
Example subdirectory_blocks_classifier :
  inputs_ready (files blocked_world) -> False.
Proof.
  intros (_ & _ & H & _). apply (H "level3_2.in"). reflexivity.
Qed.

Example blocked_classifier_raises :
  eval CCCCore.organize_files blocked_world =
    Raise (Exn ShutilError
             "Destination path 'Inputs/level3_2.in/level3_2.in' already exists") /\
  files (exec CCCCore.organize_files blocked_world) !! ["infos"; "level3_1.in"]
    = Some (File "1") /\
  files (exec CCCCore.organize_files blocked_world) !! ["infos"; "level3_2.in"]
    = Some (File "2").
Proof. repeat split; vm_compute; reflexivity. Qed.

(** C3. On the staged scenario the classifier returns the counts (2, 1);
    afterwards the inputs folder holds exactly the two inputs, the outputs
    folder exactly the example output, each with its content, and the
    staging directory is empty.  [CCCSimple.organize_files], which returns
    nothing, leaves the same files and logs the same counts. *)
Theorem classifier_scenario (c1 c2 c3 : string) :
  let w := staged_world c1 c2 c3 in
  let t' := files (exec CCCCore.organize_files w) in
  eval CCCCore.organize_files w = Ok (2%nat, 1%nat) /\
  listdir t' CCCCore.inputs ≡ₚ ["level3_1.in"; "level3_2.in"] /\
  listdir t' CCCCore.outputs = ["level3_1_example.out"] /\
  listdir t' CCCCore.infos = [] /\
  t' !! ["Inputs"; "level3_1.in"] = Some (File c1) /\
  t' !! ["Inputs"; "level3_2.in"] = Some (File c3) /\
  t' !! ["Outputs"; "level3_1_example.out"] = Some (File c2) /\
  eval CCCSimple.organize_files w = Ok tt /\
  last (console (exec CCCSimple.organize_files w)) =
    Some (Log "OK" "Dateien organisiert: 2 .in, 1 .out") /\
  map_to_list (files (exec CCCSimple.organize_files w)) = map_to_list t'.
Proof.
  intros w t'. subst w t'. repeat split; try (vm_compute; reflexivity).
  vm_compute. apply perm_swap.
Qed.

(** ** Claims about running the solution *)

(** [run_python_script] when the child ran to its end. *)
Lemma run_python_script_exited (E : env) (script_path : path) (w : world)
    (code : Z) (t : fs) :
  subprocess_run E [str_path script_path] (files w) = Ok (code, t) ->
  CCCCore.run_python_script E script_path w = (Ok code, set_files t w).
Proof.
  intros H. unfold CCCCore.run_python_script, try_except, subprocess.
  rewrite H. reflexivity.
Qed.

(** [run_python_script] when launching the child raised. *)
Lemma run_python_script_raised (E : env) (script_path : path) (w : world) (e : exn) :
  subprocess_run E [str_path script_path] (files w) = Raise e ->
  CCCCore.run_python_script E script_path w =
  (Ok 1%Z,
   World (files w)
         (console w ++
          [Log "ERROR" ("Error running " +:+ str_path script_path +:+ ": " +:+ exn_msg e)])
         (keyboard w)).
Proof.
  intros H. unfold CCCCore.run_python_script, try_except, subprocess.
  rewrite H. reflexivity.
Qed.

(** C10. [run_python_script] always returns an integer and never raises:
    the child's exit status when the child ran, and 1 when launching it
    raised.  A launch that raised and a child that exited with status 1
    without touching a file give the same value and the same files; only
    the error line on the console tells them apart. *)
Theorem run_python_script_total (E : env) (script_path : path) (w : world) :
  (exists code, eval (CCCCore.run_python_script E script_path) w = Ok code) /\
  (forall code t,
     subprocess_run E [str_path script_path] (files w) = Ok (code, t) ->
     eval (CCCCore.run_python_script E script_path) w = Ok code) /\
  (forall e,
     subprocess_run E [str_path script_path] (files w) = Raise e ->
     eval (CCCCore.run_python_script E script_path) w = Ok 1%Z /\
     files (exec (CCCCore.run_python_script E script_path) w) = files w) /\
  (forall E' e,
     subprocess_run E [str_path script_path] (files w) = Raise e ->
     subprocess_run E' [str_path script_path] (files w) = Ok (1%Z, files w) ->
     eval (CCCCore.run_python_script E script_path) w =
       eval (CCCCore.run_python_script E' script_path) w /\
     files (exec (CCCCore.run_python_script E script_path) w) =
       files (exec (CCCCore.run_python_script E' script_path) w)).
Proof.
  split; [|split; [|split]].
  - destruct (subprocess_run E [str_path script_path] (files w)) as [[code t]|e] eqn:H.
    + exists code. unfold eval. rewrite (run_python_script_exited _ _ _ _ _ H). reflexivity.
    + exists 1%Z. unfold eval. rewrite (run_python_script_raised _ _ _ _ H). reflexivity.
  - intros code t H. unfold eval. rewrite (run_python_script_exited _ _ _ _ _ H).
    reflexivity.
  - intros e H. unfold eval, exec. rewrite (run_python_script_raised _ _ _ _ H).
    split; reflexivity.
  - intros E' e H H'. unfold eval, exec.
    rewrite (run_python_script_raised _ _ _ _ H), (run_python_script_exited _ _ _ _ _ H').
    split; reflexivity.
Qed.

(** An interpreter that cannot be launched, and a script that exits with 1. *)
Lemma run_python_script_total_witness :
  let broken := Env [] false (fun _ => None) (fun _ => Ok [])
                    (fun _ _ => Raise (Exn FileNotFoundError "python")) in
  eval (CCCCore.run_python_script broken ["level3.py"]) contest_world = Ok 1%Z /\
  eval (CCCCore.run_python_script broken ["level3.py"]) contest_world =
    eval (CCCCore.run_python_script (contest_env 1) ["level3.py"]) contest_world.
Proof.
  cbv zeta.
  destruct (run_python_script_total
              (Env [] false (fun _ => None) (fun _ => Ok [])
                   (fun _ _ => Raise (Exn FileNotFoundError "python")))
              ["level3.py"] contest_world) as (_ & _ & H3 & H4).
  split.
  - apply (H3 (Exn FileNotFoundError "python")). reflexivity.
  - apply (H4 (contest_env 1) (Exn FileNotFoundError "python")); reflexivity.
Defined.



(** ** Claims about locating the archive *)

Lemma run_clear_folder (folder : path) (description : string) (w : world) :
  exists c,
    CCCCore.clear_folder folder description w =
    (Ok tt, World (cleared folder (files w)) c (keyboard w)).
Proof.
  unfold CCCCore.clear_folder, cleared. cbv zeta. unfold bind at 1. unfold get_files at 1.
  destruct (exists_ (files w) folder).
  - unfold bind at 1.
    destruct (counting_loop folder (glob (files w) folder "*") 0%nat w) as [n Hn].
    rewrite Hn. destruct (0 <? n)%nat.
    + eexists. reflexivity.
    + eexists. reflexivity.
  - exists (console w). destruct w; reflexivity.
Qed.

Lemma lookup_cleared_other (folder q : path) (t : fs) :
  (forall n, q <> folder ++ [n]) -> cleared folder t !! q = t !! q.
Proof.
  intros H. unfold cleared. destruct (exists_ t folder); [|reflexivity].
  apply lookup_sweep_other, H.
Qed.

Lemma exists_ext (t t' : fs) (q : path) : t !! q = t' !! q -> exists_ t q = exists_ t' q.
Proof. intros H. unfold exists_. rewrite H. reflexivity. Qed.

(** The archive's candidate locations are not entries of the folders that
    the pipeline clears first. *)
Lemma downloads_not_cleared (h : path) (zip n : string) (folder : string) :
  folder <> "Downloads" -> h ++ ["Downloads"; zip] <> [folder] ++ [n].
Proof.
  intros Hf H. destruct h as [|a h]; simpl in H.
  - injection H as H _. congruence.
  - apply (f_equal length) in H. simpl in H. rewrite length_app in H.
    simpl in H. lia.
Qed.

Lemma exists_after_clearing (t : fs) (q : path) :
  (forall n, q <> CCCCore.inputs ++ [n]) ->
  (forall n, q <> CCCCore.outputs ++ [n]) ->
  exists_ (cleared CCCCore.outputs (cleared CCCCore.inputs t)) q = exists_ t q.
Proof.
  intros Hi Ho. apply exists_ext.
  rewrite lookup_cleared_other by exact Ho. apply lookup_cleared_other, Hi.
Qed.

(** What [find_zip_file] answers, by the two existence tests it makes. *)
Lemma run_find_zip_file (E : env) (level_number : Z) (w : world) :
  let zip := "level" +:+ str_int level_number +:+ ".zip" in
  let downloads := home E ++ ["Downloads"; zip] in
  CCCCore.find_zip_file E level_number w =
  if exists_ (files w) downloads then
    (Ok (Some downloads),
     World (files w) (console w ++ [Log "INFO" ("Found " +:+ zip +:+ " in Downloads folder")])
           (keyboard w))
  else if exists_ (files w) [zip] then
    (Ok (Some [zip]),
     World (files w) (console w ++ [Log "INFO" ("Found " +:+ zip +:+ " in current directory")])
           (keyboard w))
  else
    (Ok None,
     World (files w) (console w ++ [Log "ERROR" ("ZIP file " +:+ zip +:+ " not found")])
           (keyboard w)).
Proof.
  intros zip downloads. unfold CCCCore.find_zip_file. cbv zeta.
  fold zip. fold downloads. unfold bind at 1. unfold get_files at 1.
  destruct (exists_ (files w) downloads); [reflexivity|].
  destruct (exists_ (files w) [zip]); reflexivity.
Qed.

(** [CCCSimple.find_zip] makes the same tests and raises where
    [find_zip_file] answers [None]. *)
Lemma run_simple_find_zip (E : env) (level : Z) (w : world) :
  let zip := "level" +:+ str_int level +:+ ".zip" in
  let downloads := home E ++ ["Downloads"; zip] in
  CCCSimple.find_zip E level w =
  if exists_ (files w) downloads then
    (Ok downloads,
     World (files w) (console w ++ [Log "INFO" ("ZIP gefunden: " +:+ str_path downloads)])
           (keyboard w))
  else if exists_ (files w) [zip] then
    (Ok [zip],
     World (files w) (console w ++ [Log "INFO" ("ZIP gefunden: " +:+ str_path [zip])])
           (keyboard w))
  else
    (Raise (Exn FileNotFoundError ("❌ " +:+ zip +:+ " nicht gefunden!")), w).
Proof.
  intros zip downloads. unfold CCCSimple.find_zip. cbv zeta.
  fold zip. fold downloads. unfold bind at 1. unfold get_files at 1.
  destruct (exists_ (files w) downloads); [reflexivity|].
  destruct (exists_ (files w) [zip]); reflexivity.
Qed.

(** Without an archive the processing pipeline of [CCCRunner] stops after
    clearing the two destination folders. *)
Lemma pipeline_without_archive (E : env) (level_number : Z) (w : world) :
  let zip := "level" +:+ str_int level_number +:+ ".zip" in
  exists_ (files w) (home E ++ ["Downloads"; zip]) = false ->
  exists_ (files w) [zip] = false ->
  exists c,
    CCCRunner._run_processing_pipeline E level_number w =
    (Ok false,
     World (cleared CCCCore.outputs (cleared CCCCore.inputs (files w))) c (keyboard w)).
Proof.
  intros zip Hd Hc. unfold CCCRunner._run_processing_pipeline.
  unfold bind at 1. unfold CCCCore.log at 1.
  unfold bind at 1.
  match goal with
  | |- context [CCCCore.clear_folder CCCCore.inputs "Inputs" ?w0] =>
      destruct (run_clear_folder CCCCore.inputs "Inputs" w0) as [c1 H1]; rewrite H1
  end.
  unfold bind at 1.
  match goal with
  | |- context [CCCCore.clear_folder CCCCore.outputs "Outputs" ?w0] =>
      destruct (run_clear_folder CCCCore.outputs "Outputs" w0) as [c2 H2]; rewrite H2
  end.
  cbn [files keyboard]. unfold bind at 1. unfold CCCCore.extract_zip, bind at 1.
  rewrite run_find_zip_file. cbn [files keyboard console]. fold zip.
  rewrite !exists_after_clearing, Hd, Hc.
  - eexists. reflexivity.
  - intros n. simpl. discriminate.
  - intros n. simpl. discriminate.
  - intros n. apply (downloads_not_cleared _ _ _ "Inputs"). discriminate.
  - intros n. apply (downloads_not_cleared _ _ _ "Outputs"). discriminate.
Qed.

(** C6. The locator answers with the archive in the download directory
    when there is one, otherwise with the archive in the working directory
    when there is one, and otherwise signals that none was found: [None]
    from [find_zip_file], [FileNotFoundError] from [CCCSimple.find_zip].
    In that last case the interactive pipelines return 1 at once: the
    operator is not asked anything, no child process is run, and the files
    are those found at the start, less what [CCCRunner] clears from the two
    destination folders before looking for the archive. *)
Theorem archive_locator (E : env) (level_number : Z) (w : world) :
  let zip := "level" +:+ str_int level_number +:+ ".zip" in
  let downloads := home E ++ ["Downloads"; zip] in
  (exists_ (files w) downloads = true ->
   eval (CCCCore.find_zip_file E level_number) w = Ok (Some downloads) /\
   eval (CCCSimple.find_zip E level_number) w = Ok downloads) /\
  (exists_ (files w) downloads = false -> exists_ (files w) [zip] = true ->
   eval (CCCCore.find_zip_file E level_number) w = Ok (Some [zip]) /\
   eval (CCCSimple.find_zip E level_number) w = Ok [zip]) /\
  (exists_ (files w) downloads = false -> exists_ (files w) [zip] = false ->
   eval (CCCCore.find_zip_file E level_number) w = Ok None /\
   eval (CCCSimple.find_zip E level_number) w =
     Raise (Exn FileNotFoundError ("❌ " +:+ zip +:+ " nicht gefunden!")) /\
   eval (CCCRunner.run_interactive E level_number) w = Ok 1%Z /\
   files (exec (CCCRunner.run_interactive E level_number) w) =
     cleared CCCCore.outputs (cleared CCCCore.inputs (files w)) /\
   keyboard (exec (CCCRunner.run_interactive E level_number) w) = keyboard w /\
   eval (CCCSimple.run_interactive E level_number) w = Ok 1%Z /\
   files (exec (CCCSimple.run_interactive E level_number) w) = files w /\
   keyboard (exec (CCCSimple.run_interactive E level_number) w) = keyboard w).
Proof.
  intros zip downloads.
  pose proof (run_find_zip_file E level_number w) as Hcore.
  pose proof (run_simple_find_zip E level_number w) as Hsimple.
  cbv zeta in Hcore, Hsimple. fold zip in Hcore, Hsimple. fold downloads in Hcore, Hsimple.
  split; [|split].
  - intros Hd. rewrite Hd in Hcore, Hsimple. unfold eval.
    rewrite Hcore, Hsimple. split; reflexivity.
  - intros Hd Hc. rewrite Hd, Hc in Hcore, Hsimple. unfold eval.
    rewrite Hcore, Hsimple. split; reflexivity.
  - intros Hd Hc. rewrite Hd, Hc in Hcore, Hsimple.
    assert (Hrunner : exists c,
               CCCRunner.run_interactive E level_number w =
               (Ok 1%Z,
                World (cleared CCCCore.outputs (cleared CCCCore.inputs (files w))) c
                      (keyboard w))).
    { unfold CCCRunner.run_interactive. unfold bind at 1.
      unfold CCCCore.print_header, bind, print. cbn [files console keyboard].
      match goal with
      | |- context [CCCRunner._run_processing_pipeline E level_number ?w0] =>
          destruct (pipeline_without_archive E level_number w0) as [c Hp];
          [exact Hd | exact Hc | rewrite Hp]
      end.
      eexists. reflexivity. }
    assert (Hs : exists c,
               CCCSimple.run_interactive E level_number w =
               (Ok 1%Z, World (files w) c (keyboard w))).
    { unfold CCCSimple.run_interactive, CCCSimple.header, print, try_except,
        CCCSimple.extract_zip, bind.
      rewrite run_simple_find_zip. cbn [files console keyboard].
      fold zip. fold downloads. rewrite Hd, Hc.
      eexists. reflexivity. }
    destruct Hrunner as [c1 Hrunner]. destruct Hs as [c2 Hs].
    unfold eval, exec. rewrite Hcore, Hsimple, Hrunner, Hs. repeat split.
Qed.

Lemma archive_locator_witness :
  eval (CCCCore.find_zip_file (plain_env 0) 3) downloaded_world =
    Ok (Some ["home"; "user"; "Downloads"; "level3.zip"]) /\
  eval (CCCCore.find_zip_file (plain_env 0) 3) (world_of [(["level3.zip"], File "PK2")]) =
    Ok (Some ["level3.zip"]) /\
  eval (CCCRunner.run_interactive (plain_env 0) 3) (staged_world "1" "2" "3") = Ok 1%Z.
Proof.
  split; [|split].
  - apply (archive_locator (plain_env 0) 3 downloaded_world). reflexivity.
  - apply (archive_locator (plain_env 0) 3 (world_of [(["level3.zip"], File "PK2")]));
      reflexivity.
  - apply (archive_locator (plain_env 0) 3 (staged_world "1" "2" "3")); reflexivity.
Defined.

(** ** The child's exit status: the values a mode can return *)

Lemma returns_ret {A : Type} (Q : A -> Prop) (v : A) : Q v -> returns Q (ret v).
Proof. intros H w v' [= <-]. exact H. Qed.

Lemma returns_bind {A B : Type} (Q : B -> Prop) (m : M A) (k : A -> M B) :
  (forall v, returns Q (k v)) -> returns Q (bind m k).
Proof.
  intros Hk w v. unfold eval, bind. destruct (m w) as [[a|e] w1]; simpl.
  - apply Hk.
  - discriminate.
Qed.

Lemma returns_if {A : Type} (Q : A -> Prop) (b : bool) (m1 m2 : M A) :
  returns Q m1 -> returns Q m2 -> returns Q (if b then m1 else m2).
Proof. destruct b; auto. Qed.

(** [CCCSimple.run_interactive] can only return 0 or 1. *)
Lemma simple_run_interactive_codes (E : env) (level : Z) :
  returns (fun code => code = 0%Z \/ code = 1%Z) (CCCSimple.run_interactive E level).
Proof.
  unfold CCCSimple.run_interactive.
  repeat first [ apply returns_bind; intros ?
               | apply returns_if
               | apply returns_ret; auto ].
Qed.

Lemma run_find_level_script (level_number : Z) (w : world) :
  let script := "level" +:+ str_int level_number +:+ ".py" in
  CCCCore.find_level_script level_number w =
  (Ok (if exists_ (files w) [script] then Some [script]
       else if exists_ (files w) (CCCCore.levels ++ [script])
            then Some (CCCCore.levels ++ [script])
            else None), w).
Proof.
  intros script. unfold CCCCore.find_level_script. cbv zeta. fold script.
  unfold bind, get_files.
  destruct (exists_ (files w) [script]); [reflexivity|].
  destruct (exists_ (files w) (CCCCore.levels ++ [script])); reflexivity.
Qed.

(** ** The prompt when no document text is at hand: what the stages leave alone *)

Lemma parent_root (a : string) (l : path) :
  parent (a :: l) = [] \/ exists l', parent (a :: l) = a :: l'.
Proof.
  unfold parent. destruct l as [|b l]; [left; reflexivity|].
  right. exists (removelast (b :: l)). reflexivity.
Qed.

Lemma makedirs_parent_frame (a : string) (l q : path) (t t' : fs) :
  makedirs (parent (a :: l)) t = Ok t' ->
  roots_differ [a] q ->
  t' !! q = t !! q.
Proof.
  intros H Hd. destruct (parent_root a l) as [Hp | [l' Hp]]; rewrite Hp in H.
  - injection H as <-. reflexivity.
  - apply (makedirs_frame _ _ _ _ H). destruct q; [contradiction | exact Hd].
Qed.

(** Extraction writes below its base directory only. *)
Lemma extract_member_frame (a : string) (base : path) (m : path * entry) (q : path)
    (t t' : fs) :
  extract_member (a :: base) m t = Ok t' ->
  roots_differ [a] q ->
  t' !! q = t !! q.
Proof.
  unfold extract_member. intros H Hd.
  assert (Hne : (a :: base) ++ m.1 <> q).
  { intros <-. simpl in Hd. congruence. }
  assert (H1 : exists t1,
             (if exists_ t (parent ((a :: base) ++ m.1)) then Ok t
              else makedirs (parent ((a :: base) ++ m.1)) t) = Ok t1 /\
             t1 !! q = t !! q /\
             match m.2 with
             | Dir => if is_dir t1 ((a :: base) ++ m.1) then Ok t1
                      else mkdir_exist_ok ((a :: base) ++ m.1) t1
             | File c => write_text ((a :: base) ++ m.1) c t1
             end = Ok t').
  { destruct (exists_ t (parent ((a :: base) ++ m.1))).
    - exists t. auto.
    - destruct (makedirs (parent ((a :: base) ++ m.1)) t) as [t1|] eqn:Hm; [|discriminate].
      exists t1. repeat split; [|exact H].
      apply (makedirs_parent_frame a (base ++ m.1) q _ _ Hm Hd). }
  destruct H1 as (t1 & _ & Hq & H2). rewrite <- Hq.
  destruct (m.2) as [c|].
  - unfold write_text in H2.
    destruct (is_dir t1 ((a :: base) ++ m.1)); [discriminate|].
    destruct (is_dir t1 (parent ((a :: base) ++ m.1))).
    + injection H2 as <-. apply lookup_insert_ne, Hne.
    + destruct (exists_ t1 (parent ((a :: base) ++ m.1))); discriminate.
  - destruct (is_dir t1 ((a :: base) ++ m.1)) eqn:Hdir; [congruence|].
    unfold mkdir_exist_ok in H2. rewrite Hdir in H2.
    destruct (exists_ t1 ((a :: base) ++ m.1)); [discriminate|].
    destruct (is_dir t1 (parent ((a :: base) ++ m.1))).
    + injection H2 as <-. apply lookup_insert_ne, Hne.
    + destruct (exists_ t1 (parent ((a :: base) ++ m.1))); discriminate.
Qed.

Lemma extractall_frame (a : string) (base : path) (members : list (path * entry))
    (q : path) (t : fs) :
  roots_differ [a] q ->
  (extractall (a :: base) members t).2 !! q = t !! q.
Proof.
  intros Hd. revert t. induction members as [|m members IH]; intros t; simpl.
  - reflexivity.
  - destruct (extract_member (a :: base) m t) as [t1|e] eqn:Hm; [|reflexivity].
    rewrite IH. apply (extract_member_frame _ _ _ _ _ _ Hm Hd).
Qed.

Lemma keeps_zip_extractall (E : env) (zip_path : path) (a : string) (base q : path)
    (o : option entry) :
  roots_differ [a] q ->
  keeps (fun t => t !! q = o) (zip_extractall E zip_path (a :: base)).
Proof.
  intros Hd w H. unfold exec, zip_extractall.
  destruct (files w !! zip_path) as [[bytes|]|]; try exact H.
  destruct (zip_members E bytes) as [members|]; [|exact H].
  pose proof (extractall_frame a base members q (files w) Hd) as Hq.
  destruct (extractall (a :: base) members (files w)) as [[?|?] t']; simpl in *;
    congruence.
Qed.

Lemma keeps_clear_folder (folder : path) (description : string) (q : path)
    (o : option entry) :
  (forall n, q <> folder ++ [n]) ->
  keeps (fun t => t !! q = o) (CCCCore.clear_folder folder description).
Proof.
  intros Hq w H. rewrite clear_folder_only_files; [exact H|].
  intros n Hn. destruct (Hq n Hn).
Qed.

Lemma keeps_find_zip_file (E : env) (level_number : Z) (P : fs -> Prop) :
  keeps P (CCCCore.find_zip_file E level_number).
Proof.
  unfold CCCCore.find_zip_file. cbv zeta.
  repeat first [ apply keeps_bind; [|intros ?] | apply keeps_if ]; auto with keeps.
Qed.

Lemma keeps_extract_zip (E : env) (level_number : Z) (q : path) (o : option entry) :
  roots_differ CCCCore.infos q ->
  keeps (fun t => t !! q = o) (CCCCore.extract_zip E level_number).
Proof.
  intros Hd. unfold CCCCore.extract_zip.
  apply keeps_bind; [apply keeps_find_zip_file|]. intros [zip_path|]; [|auto with keeps].
  apply keeps_bind; [auto with keeps|]. intros _.
  apply keeps_try_except.
  - apply keeps_bind; [apply keeps_zip_extractall, Hd|]. intros _.
    apply keeps_bind; auto with keeps.
  - intros e. apply keeps_bind; auto with keeps.
Qed.

Lemma keeps_bind_assoc {A B C : Type} (P : fs -> Prop) (m : M A) (f : A -> M B)
    (k : B -> M C) :
  keeps P (bind m (fun x => bind (f x) k)) -> keeps P (bind (bind m f) k).
Proof.
  intros H w Hw. specialize (H w Hw). unfold exec, bind in *.
  destruct (m w) as [[v|e] w1]; simpl in *; [|exact H].
  destruct (f v w1) as [[v'|e] w2]; exact H.
Qed.

Lemma keeps_ret_bind {A B : Type} (P : fs -> Prop) (v : A) (k : A -> M B) :
  keeps P (k v) -> keeps P (bind (ret v) k).
Proof. intros H. exact H. Qed.

(** Without the PDF library the processing pipeline of [CCCRunner] writes
    nothing outside the staging directory and the two destination folders. *)
Lemma pipeline_keeps_without_pdf (E : env) (level_number : Z) (q : path)
    (o : option entry) :
  PDF_AVAILABLE E = false ->
  roots_differ CCCCore.infos q ->
  roots_differ CCCCore.inputs q ->
  roots_differ CCCCore.outputs q ->
  keeps (fun t => t !! q = o) (CCCRunner._run_processing_pipeline E level_number).
Proof.
  intros Hpdf Hinfos Hin Hout.
  unfold CCCRunner._run_processing_pipeline, CCCCore.extract_pdf_text.
  rewrite Hpdf. cbn [negb].
  apply keeps_bind; [auto with keeps|]. intros _.
  apply keeps_bind.
  { apply keeps_clear_folder. intros n ->. simpl in Hin. congruence. }
  intros _. apply keeps_bind.
  { apply keeps_clear_folder. intros n ->. simpl in Hout. congruence. }
  intros _. apply keeps_bind; [apply keeps_extract_zip, Hinfos|].
  intros extracted. apply keeps_if; [auto with keeps|].
  apply keeps_bind_assoc. apply keeps_bind; [auto with keeps|]. intros _.
  apply keeps_ret_bind.
  apply keeps_bind; [auto with keeps|]. intros _.
  apply keeps_bind.
  { apply core_organize_keeps_at; [|exact Hin|exact Hout].
    intros m _. apply roots_differ_relative, Hinfos. }
  intros _. apply keeps_bind; auto with keeps.
Qed.

Lemma keeps_pdfplumber_pages (E : env) (pdf_file : path) (P : fs -> Prop) :
  keeps P (pdfplumber_pages E pdf_file).
Proof.
  intros w H. unfold exec, pdfplumber_pages.
  destruct (files w !! pdf_file) as [[bytes|]|]; try exact H.
  destruct (pdf_pages E bytes); exact H.
Qed.

Lemma keeps_simple_find_pdf (E : env) (level : Z) (P : fs -> Prop) :
  keeps P (CCCSimple.find_pdf E level).
Proof.
  unfold CCCSimple.find_pdf.
  apply keeps_bind; [auto with keeps|]. intros t.
  repeat first [ destruct (first_existing _ _) | destruct (glob _ _ _) ];
    auto with keeps.
Qed.

Lemma keeps_simple_extract_pdf_text (E : env) (level : Z) (P : fs -> Prop) :
  keeps P (CCCSimple.extract_pdf_text E level).
Proof.
  unfold CCCSimple.extract_pdf_text. apply keeps_if.
  - apply keeps_bind; auto with keeps.
  - apply keeps_try_except.
    + apply keeps_bind; [apply keeps_simple_find_pdf|]. intros pdf_path.
      apply keeps_bind; [auto with keeps|]. intros _.
      apply keeps_bind; [apply keeps_pdfplumber_pages|]. intros pages.
      apply keeps_bind; auto with keeps.
    + intros e. apply keeps_bind; auto with keeps.
Qed.

Lemma keeps_core_find_pdf_file (E : env) (level_number : Z) (P : fs -> Prop) :
  keeps P (CCCCore.find_pdf_file E level_number).
Proof.
  unfold CCCCore.find_pdf_file. cbv zeta.
  apply keeps_bind; [auto with keeps|]. intros t.
  repeat first [ destruct (first_existing _ _) | destruct (glob _ _ _)
               | apply keeps_bind; [|intros ?] ];
    auto with keeps.
Qed.

Lemma keeps_core_extract_pdf_text (E : env) (level_number : Z) (P : fs -> Prop) :
  keeps P (CCCCore.extract_pdf_text E level_number).
Proof.
  unfold CCCCore.extract_pdf_text. apply keeps_if.
  - apply keeps_bind; auto with keeps.
  - apply keeps_bind; [apply keeps_core_find_pdf_file|]. intros [pdf_file|].
    + apply keeps_try_except.
      * apply keeps_bind; [apply keeps_pdfplumber_pages|]. intros pages.
        apply keeps_bind; auto with keeps.
      * intros e. apply keeps_bind; auto with keeps.
    + apply keeps_bind; auto with keeps.
Qed.

(** [CCCSimple.extract_pdf_text] never raises. *)
Lemma simple_extract_pdf_text_total (E : env) (level : Z) (w : world) :
  exists text, eval (CCCSimple.extract_pdf_text E level) w = Ok text.
Proof.
  unfold eval, CCCSimple.extract_pdf_text.
  destruct (PDF_AVAILABLE E); cbn [negb].
  - unfold try_except.
    match goal with |- context [match ?body w with _ => _ end] => destruct (body w) as [[v|e] w1] end.
    + eauto.
    + eexists. reflexivity.
  - eexists. reflexivity.
Qed.

(** The description section of the prompt of [ccc_simple.py] when the text
    is empty: the placeholder, between the two headings. *)
Lemma simple_prompt_placeholder (level : Z) :
  exists rest : string,
    CCCSimple.prompt_text level "" =
    "# Coding Challenge - Level " +:+ str_int level +:+ nl +:+
    nl +:+
    "## Problembeschreibung:" +:+ nl +:+
    CCCSimple.placeholder +:+ nl +:+
    nl +:+
    "## Aufgabe:" +:+ nl +:+ rest.
Proof.
  unfold CCCSimple.prompt_text, unlines. cbn [foldr String.eqb].
  eexists. rewrite append_assoc. reflexivity.
Qed.

(** * Further properties of the code *)

(** ** Level numbers and file names *)

Lemma str_int_inj (n m : Z) : str_int n = str_int m -> n = m.
Proof.
  unfold str_int; intros H.
  apply DecimalZ.to_int_inj.
  assert (Hnn : forall z, Z.to_int z <> Decimal.Pos Decimal.Nil /\
                          Z.to_int z <> Decimal.Neg Decimal.Nil).
  { intros [|p|p]; simpl; split; try discriminate;
      intros [= Hp]; exact (DecimalPos.Unsigned.to_uint_nonnil p Hp). }
  destruct (Hnn n) as [Hn1 Hn2], (Hnn m) as [Hm1 Hm2].
  pose proof (NilZero.isi _ Hn1 Hn2) as Hn.
  pose proof (NilZero.isi _ Hm1 Hm2) as Hm.
  rewrite H in Hn. congruence.
Qed.

Lemma append_inj_l (a b c : string) : a +:+ b = a +:+ c -> b = c.
Proof. induction a as [|x a IH]; simpl; [tauto|]. intros [= H]. auto. Qed.

Lemma append_inj_r (a b c : string) : a +:+ c = b +:+ c -> a = b.
Proof.
  intros H. apply list_ascii_of_string_inj.
  apply (f_equal String.list_ascii_of_string) in H.
  rewrite !list_ascii_of_string_app in H.
  exact (app_inv_tail _ _ _ H).
Qed.

Lemma level_name_inj (pre suf : string) (n m : Z) :
  pre +:+ str_int n +:+ suf = pre +:+ str_int m +:+ suf -> n = m.
Proof.
  intros H. apply append_inj_l in H. apply append_inj_r in H.
  exact (str_int_inj _ _ H).
Qed.

(** ** Computations that leave the keyboard alone *)

Lemma quiet_ret {A : Type} (v : A) : quiet (ret v).
Proof. intros w; reflexivity. Qed.

Lemma quiet_raise {A : Type} (e : exn) : quiet (@raise A e).
Proof. intros w; reflexivity. Qed.

Lemma quiet_bind {A B : Type} (m : M A) (k : A -> M B) :
  quiet m -> (forall v, quiet (k v)) -> quiet (bind m k).
Proof.
  intros Hm Hk w. specialize (Hm w). unfold exec, bind in *.
  destruct (m w) as [[v|e] w1]; simpl in *; [|exact Hm].
  rewrite <- Hm. apply Hk.
Qed.

Lemma quiet_try_except {A : Type} (m : M A) (h : exn -> M A) :
  quiet m -> (forall e, quiet (h e)) -> quiet (try_except m h).
Proof.
  intros Hm Hh w. specialize (Hm w). unfold exec, try_except in *.
  destruct (m w) as [[v|e] w1]; simpl in *; [exact Hm|].
  rewrite <- Hm. apply Hh.
Qed.

Lemma quiet_get_files : quiet get_files.
Proof. intros w; reflexivity. Qed.

Lemma quiet_print (text : string) : quiet (print text).
Proof. intros w; reflexivity. Qed.

Lemma quiet_core_log (message level : string) : quiet (CCCCore.log message level).
Proof. intros w; reflexivity. Qed.

Lemma quiet_simple_log (msg typ : string) : quiet (CCCSimple.log msg typ).
Proof. intros w; reflexivity. Qed.

Lemma quiet_fs_op (f : fs -> result fs) : quiet (fs_op f).
Proof. intros w. unfold exec, fs_op. destruct (f (files w)); reflexivity. Qed.

Lemma quiet_subprocess (E : env) (argv : list string) : quiet (subprocess E argv).
Proof.
  intros w. unfold exec, subprocess.
  destruct (subprocess_run E argv (files w)) as [[code t]|e]; reflexivity.
Qed.

Lemma quiet_zip_extractall (E : env) (zip_path base : path) :
  quiet (zip_extractall E zip_path base).
Proof.
  intros w. unfold exec, zip_extractall.
  destruct (files w !! zip_path) as [[bytes|]|]; try reflexivity.
  destruct (zip_members E bytes) as [members|]; try reflexivity.
  destruct (extractall base members (files w)) as [[u|e] t]; reflexivity.
Qed.

Lemma quiet_pdfplumber_pages (E : env) (pdf_file : path) :
  quiet (pdfplumber_pages E pdf_file).
Proof.
  intros w. unfold exec, pdfplumber_pages.
  destruct (files w !! pdf_file) as [[bytes|]|]; try reflexivity.
  destruct (pdf_pages E bytes); reflexivity.
Qed.

Lemma quiet_for_each {A : Type} (xs : list A) (body : A -> M unit) :
  (forall x, quiet (body x)) -> quiet (for_each xs body).
Proof.
  intros Hb. induction xs as [|x xs IH]; simpl; [apply quiet_ret|].
  apply quiet_bind; [apply Hb | intros _; exact IH].
Qed.

Lemma quiet_for_fold {A S : Type} (xs : list A) (s : S) (body : A -> S -> M S) :
  (forall x s', quiet (body x s')) -> quiet (for_fold xs s body).
Proof.
  intros Hb. revert s; induction xs as [|x xs IH]; intros s; simpl; [apply quiet_ret|].
  apply quiet_bind; [apply Hb | intros s1; apply IH].
Qed.

Create HintDb quiet.
#[local] Hint Resolve quiet_ret quiet_raise quiet_get_files quiet_print quiet_core_log
  quiet_simple_log quiet_fs_op quiet_subprocess quiet_zip_extractall
  quiet_pdfplumber_pages : quiet.

(** One step of a proof that a computation is [quiet]: a rule for its head,
    or a case split on what it branches on. *)
Ltac quiet_step :=
  first
    [ solve [auto 1 with quiet nocore]
    | apply quiet_bind; [|intros ?]
    | apply quiet_try_except; [|intros ?]
    | apply quiet_for_each; intros ?
    | apply quiet_for_fold; intros ? ?
    | match goal with
      | |- quiet (if ?b then _ else _) => destruct b
      | |- quiet (match ?x with _ => _ end) => destruct x
      end ].

Ltac quiet_auto := repeat quiet_step.

Lemma quiet_clear_folder (folder : path) (description : string) :
  quiet (CCCCore.clear_folder folder description).
Proof. unfold CCCCore.clear_folder. quiet_auto. Qed.

Lemma quiet_core_extract_zip (E : env) (level_number : Z) :
  quiet (CCCCore.extract_zip E level_number).
Proof. unfold CCCCore.extract_zip, CCCCore.find_zip_file. quiet_auto. Qed.

Lemma quiet_core_extract_pdf_text (E : env) (level_number : Z) :
  quiet (CCCCore.extract_pdf_text E level_number).
Proof. unfold CCCCore.extract_pdf_text, CCCCore.find_pdf_file. quiet_auto. Qed.

Lemma quiet_core_create_ai_prompt (level_number : Z) (pdf_text : string) :
  quiet (CCCCore.create_ai_prompt level_number pdf_text).
Proof. unfold CCCCore.create_ai_prompt. quiet_auto. Qed.

Lemma quiet_core_organize_files : quiet CCCCore.organize_files.
Proof. unfold CCCCore.organize_files. quiet_auto. Qed.

Lemma quiet_cleanup_infos : quiet CCCCore.cleanup_infos.
Proof. unfold CCCCore.cleanup_infos. quiet_auto. Qed.

Lemma quiet_run_python_script (E : env) (script_path : path) :
  quiet (CCCCore.run_python_script E script_path).
Proof. unfold CCCCore.run_python_script. quiet_auto. Qed.

Lemma quiet_print_header (title : string) : quiet (CCCCore.print_header title).
Proof. unfold CCCCore.print_header. quiet_auto. Qed.

#[local] Hint Resolve quiet_clear_folder quiet_core_extract_zip quiet_core_extract_pdf_text
  quiet_core_create_ai_prompt quiet_core_organize_files quiet_cleanup_infos
  quiet_run_python_script quiet_print_header : quiet.

Lemma quiet_processing_pipeline (E : env) (level_number : Z) :
  quiet (CCCRunner._run_processing_pipeline E level_number).
Proof. unfold CCCRunner._run_processing_pipeline. quiet_auto. Qed.

Lemma quiet_simple_extract_zip (E : env) (level : Z) : quiet (CCCSimple.extract_zip E level).
Proof. unfold CCCSimple.extract_zip, CCCSimple.find_zip. quiet_auto. Qed.

Lemma quiet_simple_extract_pdf_text (E : env) (level : Z) :
  quiet (CCCSimple.extract_pdf_text E level).
Proof. unfold CCCSimple.extract_pdf_text, CCCSimple.find_pdf. quiet_auto. Qed.

Lemma quiet_simple_organize_files : quiet CCCSimple.organize_files.
Proof. unfold CCCSimple.organize_files. quiet_auto. Qed.

Lemma quiet_simple_create_ai_prompt (level : Z) (pdf_text : string) :
  quiet (CCCSimple.create_ai_prompt level pdf_text).
Proof. unfold CCCSimple.create_ai_prompt. quiet_auto. Qed.

Lemma quiet_generate_template (level : Z) : quiet (CCCSimple.generate_template level).
Proof. unfold CCCSimple.generate_template. quiet_auto. Qed.

Lemma quiet_simple_run_solution (E : env) (level : Z) : quiet (CCCSimple.run_solution E level).
Proof. unfold CCCSimple.run_solution. quiet_auto. Qed.

Lemma quiet_simple_cleanup : quiet CCCSimple.cleanup.
Proof. unfold CCCSimple.cleanup. quiet_auto. Qed.

#[local] Hint Resolve quiet_processing_pipeline quiet_simple_extract_zip
  quiet_simple_extract_pdf_text quiet_simple_organize_files quiet_simple_create_ai_prompt
  quiet_generate_template quiet_simple_run_solution quiet_simple_cleanup : quiet.

(** ** Creating the folders *)

Lemma mkdir_top (a : string) (t : fs) :
  mkdir_exist_ok [a] t =
  if is_dir t [a] then Ok t
  else if is_file t [a] then Raise (eexist [a])
  else Ok (<[[a] := Dir]> t).
Proof.
  unfold mkdir_exist_ok, is_dir, is_file, exists_, parent; simpl.
  destruct (t !! [a]) as [[c|]|]; reflexivity.
Qed.

Lemma lookup_with_dirs (ds : list path) (t : fs) (q : path) :
  Forall (fun d => exists a, d = [a]) ds ->
  (forall d, d ∈ ds -> is_file t d = false) ->
  with_dirs ds t !! q = if bool_decide (q ∈ ds) then Some Dir else t !! q.
Proof.
  intros Htop. revert t. induction Htop as [|d ds [a ->] Htop IH]; intros t Hf.
  - reflexivity.
  - change (with_dirs ([a] :: ds) t)
      with (with_dirs ds (if is_dir t [a] then t else <[[a] := Dir]> t)).
    assert (Hfa : is_file t [a] = false) by (apply Hf; left).
    assert (Hnext : forall t1, (forall p, t1 !! p = if decide (p = [a]) then Some Dir else t !! p) ->
                    with_dirs ds t1 !! q = if bool_decide (q ∈ [a] :: ds) then Some Dir else t !! q).
    { intros t1 Ht1. rewrite IH.
      - destruct (decide (q ∈ ds)) as [Hin|Hnin].
        + rewrite !bool_decide_eq_true_2; [reflexivity|right; exact Hin|exact Hin].
        + rewrite (bool_decide_eq_false_2 _ Hnin). rewrite Ht1.
          destruct (decide (q = [a])) as [->|Hne].
          * rewrite bool_decide_eq_true_2; [reflexivity|left].
          * rewrite bool_decide_eq_false_2; [reflexivity|].
            intros [->|H]%elem_of_cons; [apply Hne; reflexivity|exact (Hnin H)].
      - intros p Hp. unfold is_file. rewrite Ht1.
        destruct (decide (p = [a])); [reflexivity|]. apply Hf. right; exact Hp. }
    destruct (is_dir t [a]) eqn:Hd.
    + apply Hnext. intros p. destruct (decide (p = [a])) as [->|]; [|reflexivity].
      apply is_dir_lookup. exact Hd.
    + apply Hnext. intros p. destruct (decide (p = [a])) as [->|Hne].
      * apply lookup_insert_eq.
      * apply lookup_insert_ne. congruence.
Qed.

Lemma mkdir_loop (ds : list path) (w : world) :
  Forall (fun d => exists a, d = [a]) ds ->
  (forall d, d ∈ ds -> is_file (files w) d = false) ->
  for_each ds (fun d => fs_op (mkdir_exist_ok d)) w =
  (Ok tt, set_files (with_dirs ds (files w)) w).
Proof.
  intros Htop. revert w. induction Htop as [|d ds [a ->] Htop IH]; intros w Hf.
  - simpl. unfold ret. rewrite set_files_id. reflexivity.
  - change (with_dirs ([a] :: ds) (files w))
      with (with_dirs ds (if is_dir (files w) [a] then files w
                          else <[[a] := Dir]> (files w))).
    cbn [for_each].
    assert (Hfa : is_file (files w) [a] = false) by (apply Hf; left).
    unfold bind at 1. unfold fs_op at 1. rewrite mkdir_top, Hfa.
    destruct (is_dir (files w) [a]) eqn:Hd.
    + rewrite set_files_id. apply IH. intros p Hp. apply Hf. right; exact Hp.
    + rewrite IH; [reflexivity|].
      intros p Hp. cbn [files set_files]. unfold is_file.
      destruct (decide (p = [a])) as [->|Hne].
      * rewrite lookup_insert_eq. reflexivity.
      * rewrite lookup_insert_ne by congruence. apply (Hf p). right; exact Hp.
Qed.

Lemma for_each_app {A : Type} (xs ys : list A) (body : A -> M unit) (w : world) :
  for_each (xs ++ ys) body w =
  match for_each xs body w with
  | (Ok _, w1) => for_each ys body w1
  | (Raise e, w1) => (Raise e, w1)
  end.
Proof.
  revert w. induction xs as [|x xs IH]; intros w; simpl; [reflexivity|].
  unfold bind. destruct (body x w) as [[[]|e] w1]; [apply IH|reflexivity].
Qed.

Lemma mkdir_loop_establishes (ds : list path) (w : world) :
  Forall (fun d => exists a, d = [a]) ds ->
  (forall d, d ∈ ds -> is_file (files w) d = false) ->
  establishes ds (for_each ds (fun d => fs_op (mkdir_exist_ok d))) w.
Proof.
  intros Htop Hf. exists (with_dirs ds (files w)).
  assert (Hin : forall d, d ∈ ds -> with_dirs ds (files w) !! d = Some Dir).
  { intros d Hd. rewrite (lookup_with_dirs _ _ _ Htop Hf).
    rewrite bool_decide_eq_true_2; [reflexivity|exact Hd]. }
  split; [apply (mkdir_loop _ _ Htop Hf)|].
  split; [exact Hin|].
  split.
  { intros q Hq. rewrite (lookup_with_dirs _ _ _ Htop Hf).
    rewrite bool_decide_eq_false_2; [reflexivity|exact Hq]. }
  rewrite mkdir_loop; [|exact Htop|].
  - unfold set_files; cbn [files console keyboard]. do 2 f_equal.
    apply map_eq. intros q. rewrite lookup_with_dirs; [|exact Htop|].
    + destruct (decide (q ∈ ds)) as [Hq|Hq].
      * rewrite bool_decide_eq_true_2 by exact Hq. symmetry. apply Hin, Hq.
      * rewrite bool_decide_eq_false_2 by exact Hq. reflexivity.
    + intros d Hd. unfold is_file. rewrite (Hin d Hd). reflexivity.
  - intros d Hd. cbn [files]. unfold is_file. rewrite (Hin d Hd). reflexivity.
Qed.

Lemma directories_top : Forall (fun d : path => exists a, d = [a]) CCCCore.directories.
Proof. repeat constructor; eexists; reflexivity. Qed.

(** X1 (setup_directories, setup_dirs).  When no regular file has taken the
    name of one of the folders, the constructors of both implementations
    return normally; afterwards each of their folders is a directory, every
    other path holds what it held before, nothing is printed and the
    operator is not asked; and running them a second time changes nothing. *)
Theorem setup_directories_establishes (w : world) :
  (forall d, d ∈ CCCCore.directories -> is_file (files w) d = false) ->
  establishes CCCCore.directories CCCCore.setup_directories w /\
  establishes [["Inputs"]; ["Outputs"]; ["infos"]] CCCSimple.setup_dirs w.
Proof.
  intros Hf. split.
  - apply mkdir_loop_establishes; [exact directories_top|exact Hf].
  - apply mkdir_loop_establishes.
    + repeat constructor; eexists; reflexivity.
    + intros d Hd. apply Hf. apply list_elem_of_In. apply list_elem_of_In in Hd.
      simpl in *. tauto.
Qed.

Lemma setup_directories_establishes_witness :
  establishes CCCCore.directories CCCCore.setup_directories (staged_world "1" "2" "3") /\
  establishes [["Inputs"]; ["Outputs"]; ["infos"]] CCCSimple.setup_dirs
    (staged_world "1" "2" "3").
Proof.
  apply setup_directories_establishes.
  intros d Hd. unfold CCCCore.directories in Hd.
  repeat (apply elem_of_cons in Hd as [->|Hd]; [vm_compute; reflexivity|]).
  inversion Hd.
Defined.

(** X2 (setup_directories).  A regular file that has taken the name of one
    of the folders stops the constructor with [FileExistsError] for that
    name; the folders listed before it have been created by then and stay,
    the ones after it are not attempted, and nothing else is touched. *)
Theorem setup_directories_blocked (w : world) (pre post : list path) (d : path) :
  CCCCore.directories = pre ++ d :: post ->
  (forall p, p ∈ pre -> is_file (files w) p = false) ->
  is_file (files w) d = true ->
  exists t',
    CCCCore.setup_directories w =
      (Raise (eexist d), World t' (console w) (keyboard w)) /\
    (forall p, p ∈ pre -> t' !! p = Some Dir) /\
    (forall q, q ∉ pre -> t' !! q = files w !! q).
Proof.
  intros Hsplit Hpre Hd.
  pose proof directories_top as Htop. rewrite Hsplit in Htop.
  apply Forall_app in Htop as [Htop_pre Htop_d].
  apply Forall_cons in Htop_d as [[a ->] _].
  exists (with_dirs pre (files w)).
  split; [|split].
  - unfold CCCCore.setup_directories. rewrite Hsplit, for_each_app.
    rewrite (mkdir_loop _ _ Htop_pre Hpre). simpl.
    unfold bind at 1. unfold fs_op at 1. cbn [files set_files].
    rewrite mkdir_top.
    assert (Ha : with_dirs pre (files w) !! [a] = files w !! [a]).
    { rewrite (lookup_with_dirs _ _ _ Htop_pre Hpre).
      rewrite bool_decide_eq_false_2; [reflexivity|].
      intros Hin. rewrite (Hpre _ Hin) in Hd. discriminate. }
    unfold is_dir, is_file in *. rewrite Ha.
    destruct (files w !! [a]) as [[c|]|]; try discriminate. reflexivity.
  - intros p Hp. rewrite (lookup_with_dirs _ _ _ Htop_pre Hpre).
    rewrite bool_decide_eq_true_2; [reflexivity|exact Hp].
  - intros q Hq. rewrite (lookup_with_dirs _ _ _ Htop_pre Hpre).
    rewrite bool_decide_eq_false_2; [reflexivity|exact Hq].
Qed.

Lemma setup_directories_blocked_witness :
  exists t',
    CCCCore.setup_directories squatted_world =
      (Raise (eexist ["Outputs"]), World t' [] []) /\
    (forall p, p ∈ [["Inputs"]] -> t' !! p = Some Dir) /\
    (forall q, q ∉ [["Inputs"]] -> t' !! q = files squatted_world !! q).
Proof.
  apply (setup_directories_blocked squatted_world [["Inputs"]]
           [["infos"]; ["prompts"]; ["levels"]] ["Outputs"]).
  - reflexivity.
  - intros p Hp. apply list_elem_of_singleton in Hp as ->. vm_compute. reflexivity.
  - vm_compute. reflexivity.
Defined.

(** ** Clearing a folder, completely *)

Lemma filter_elem_ext {A : Type} (P Q : A -> Prop)
    `{!forall x, Decision (P x)} `{!forall x, Decision (Q x)} (l : list A) :
  (forall x, x ∈ l -> P x <-> Q x) -> filter P l = filter Q l.
Proof.
  induction l as [|x l IH]; intros Hext; [reflexivity|].
  rewrite !filter_cons.
  assert (Hl : filter P l = filter Q l).
  { apply IH. intros y Hy. apply Hext. right; exact Hy. }
  destruct (decide (P x)) as [Hp|Hp], (decide (Q x)) as [Hq|Hq].
  - rewrite Hl. reflexivity.
  - exfalso. apply Hq. apply Hext; [left|exact Hp].
  - exfalso. apply Hp. apply Hext; [left|exact Hq].
  - exact Hl.
Qed.

Lemma is_file_delete_sibling (d : path) (m n : string) (t : fs) :
  m <> n -> is_file (delete (d ++ [m]) t) (d ++ [n]) = is_file t (d ++ [n]).
Proof.
  intros Hne. unfold is_file. rewrite lookup_delete_ne; [reflexivity|].
  intros H. apply app_inv_head in H. congruence.
Qed.

Lemma counting_loop_count (d : path) (names : list string) (count : nat) (w : world) :
  NoDup names ->
  for_fold names count
    (fun name files_removed =>
       let* t1 := get_files in
       if is_file t1 (d ++ [name]) then
         fs_op (unlink (d ++ [name])) >> ret (S files_removed)
       else ret files_removed) w
  = (Ok (count + length (filter (fun n => is_file (files w) (d ++ [n]) = true) names))%nat,
     set_files (sweep d names (files w)) w).
Proof.
  intros Hnd. revert count w.
  induction Hnd as [|n names Hn Hnd IH]; intros count w.
  - simpl. unfold ret. rewrite set_files_id, Nat.add_0_r. reflexivity.
  - cbn [for_fold sweep foldl]. fold (sweep d names).
    unfold bind at 1. unfold bind at 1. unfold get_files at 1.
    unfold unlink_if_file. rewrite filter_cons.
    destruct (is_file (files w) (d ++ [n])) eqn:Hf.
    + unfold bind at 1. rewrite (unlink_guarded _ _ Hf). unfold ret at 1.
      rewrite IH. cbn [files set_files].
      rewrite decide_True by reflexivity. cbn [length].
      rewrite (filter_elem_ext
                 (fun m => is_file (delete (d ++ [n]) (files w)) (d ++ [m]) = true)
                 (fun m => is_file (files w) (d ++ [m]) = true)).
      * rewrite Nat.add_succ_r. reflexivity.
      * intros m Hm. rewrite is_file_delete_sibling; [reflexivity|].
        intros ->. exact (Hn Hm).
    + unfold ret at 1. rewrite IH.
      rewrite decide_False by discriminate. reflexivity.
Qed.

Lemma sweep_glob_no_file (t : fs) (d : path) (n : string) :
  is_dir t d = true ->
  is_file (sweep d (glob t d "*") t) (d ++ [n]) = false.
Proof.
  intros Hd. unfold is_file at 1.
  destruct (is_file t (d ++ [n])) eqn:Hf.
  - rewrite lookup_sweep_file; [reflexivity| |exact Hf].
    apply elem_of_glob. split; [exact Hd|]. split; [apply glob_match_any|].
    unfold is_file in Hf. destruct (t !! (d ++ [n])); [eexists; reflexivity|discriminate].
  - rewrite lookup_sweep_not_file by exact Hf. exact Hf.
Qed.

Lemma lookup_sweep_kept (d : path) (names : list string) (t : fs) (q : path) :
  is_file t q = false \/ (forall n, q <> d ++ [n]) ->
  sweep d names t !! q = t !! q.
Proof.
  intros [H|H]; [apply lookup_sweep_not_file|apply lookup_sweep_other]; exact H.
Qed.

(** X3 (clear_folder).  Clearing a folder that is a directory always returns
    normally and leaves no regular file directly inside it; subdirectories,
    what lies below them and every path outside the folder are kept; the
    operator is not asked; and the one line it logs, when it removed
    anything, states the number of regular files that were in the folder. *)
Theorem clear_folder_removes_every_file (w : world) (folder : path) (description : string) :
  is_dir (files w) folder = true ->
  exists t',
    CCCCore.clear_folder folder description w =
      (Ok tt,
       World t'
             (console w ++
              if (0 <? count_files (files w) folder)%nat
              then [Log "INFO" ("Cleared " +:+ str_nat (count_files (files w) folder) +:+
                                " files from " +:+ description)]
              else [])
             (keyboard w)) /\
    (forall n, is_file t' (folder ++ [n]) = false) /\
    (forall q, is_file (files w) q = false \/ (forall n, q <> folder ++ [n]) ->
               t' !! q = files w !! q).
Proof.
  intros Hd.
  exists (sweep folder (glob (files w) folder "*") (files w)).
  split; [|split].
  - unfold CCCCore.clear_folder. cbv zeta. unfold bind at 1. unfold get_files at 1.
    assert (He : exists_ (files w) folder = true).
    { destruct folder as [|a p]; [reflexivity|].
      simpl in *. destruct (files w !! (a :: p)) as [[c|]|]; congruence. }
    rewrite He. unfold bind at 1.
    rewrite (counting_loop_count folder _ 0%nat w (NoDup_glob _ _ _)).
    rewrite Nat.add_0_l. fold (count_files (files w) folder).
    destruct (0 <? count_files (files w) folder)%nat.
    + reflexivity.
    + unfold ret, set_files. rewrite app_nil_r. reflexivity.
  - intros n. apply sweep_glob_no_file, Hd.
  - intros q Hq. apply lookup_sweep_kept, Hq.
Qed.

Lemma clear_folder_removes_every_file_witness :
  exists t',
    CCCCore.clear_folder CCCCore.outputs "Outputs" stale_world =
      (Ok tt, World t' [Log "INFO" "Cleared 2 files from Outputs"] []) /\
    (forall n, is_file t' (CCCCore.outputs ++ [n]) = false) /\
    (forall q, is_file (files stale_world) q = false \/
               (forall n, q <> CCCCore.outputs ++ [n]) ->
               t' !! q = files stale_world !! q).
Proof.
  apply (clear_folder_removes_every_file stale_world CCCCore.outputs "Outputs").
  vm_compute. reflexivity.
Defined.

Lemma run_cleanup_infos (w : world) :
  CCCCore.cleanup_infos w =
  (Ok tt,
   World (sweep CCCCore.infos (glob (files w) CCCCore.infos "*") (files w))
         (console w ++
          Log "INFO" "Cleaning up infos/ folder..." ::
          (if (0 <? count_files (files w) CCCCore.infos)%nat
           then [Log "SUCCESS"
                   ("Cleaned up " +:+ str_nat (count_files (files w) CCCCore.infos) +:+
                    " files from infos/")]
           else []))
         (keyboard w)).
Proof.
  unfold CCCCore.cleanup_infos. cbv zeta. unfold bind at 1. unfold CCCCore.log at 1.
  unfold bind at 1. unfold get_files at 1. unfold bind at 1.
  cbn [files console keyboard].
  match goal with
  | |- context [for_fold ?l 0%nat _ ?w0] =>
      rewrite (counting_loop_count CCCCore.infos l 0%nat w0 (NoDup_glob _ _ _))
  end.
  cbn [files console keyboard]. rewrite Nat.add_0_l.
  fold (count_files (files w) CCCCore.infos).
  destruct (0 <? count_files (files w) CCCCore.infos)%nat.
  - unfold CCCCore.log, set_files. cbn [files console keyboard].
    rewrite <- app_assoc. reflexivity.
  - reflexivity.
Qed.

Lemma run_simple_cleanup (w : world) :
  CCCSimple.cleanup w =
  (Ok tt,
   World (sweep CCCCore.infos (glob (files w) CCCCore.infos "*") (files w))
         (console w ++ [Log "INFO" "Räume auf..."; Log "OK" "Aufgeräumt"])
         (keyboard w)).
Proof.
  unfold CCCSimple.cleanup. cbv zeta. unfold bind at 1. unfold CCCSimple.log at 1.
  unfold bind at 1. unfold get_files at 1. unfold bind at 1.
  cbn [files console keyboard].
  match goal with
  | |- context [for_each ?l _ ?w0] =>
      pose proof (plain_loop ["infos"] l w0) as Hloop; cbn [app] in Hloop;
      rewrite Hloop; clear Hloop
  end.
  unfold CCCSimple.log, set_files. cbn [files console keyboard].
  rewrite <- app_assoc. reflexivity.
Qed.

(** X4 (cleanup_infos, cleanup).  When the staging folder is a directory,
    the cleanup steps of both implementations return normally and leave the
    same files: no regular file remains directly inside the staging folder,
    while subdirectories, what lies below them and every other path are
    kept.  The core one reports the number of regular files it removed (and
    nothing when there were none); the single-file one always logs that it
    has tidied up. *)
Theorem cleanup_removes_every_file (w : world) :
  is_dir (files w) CCCCore.infos = true ->
  exists t',
    CCCCore.cleanup_infos w =
      (Ok tt,
       World t'
             (console w ++
              Log "INFO" "Cleaning up infos/ folder..." ::
              (if (0 <? count_files (files w) CCCCore.infos)%nat
               then [Log "SUCCESS"
                       ("Cleaned up " +:+ str_nat (count_files (files w) CCCCore.infos) +:+
                        " files from infos/")]
               else []))
             (keyboard w)) /\
    CCCSimple.cleanup w =
      (Ok tt,
       World t' (console w ++ [Log "INFO" "Räume auf..."; Log "OK" "Aufgeräumt"])
             (keyboard w)) /\
    (forall n, is_file t' (CCCCore.infos ++ [n]) = false) /\
    (forall q, is_file (files w) q = false \/ (forall n, q <> CCCCore.infos ++ [n]) ->
               t' !! q = files w !! q).
Proof.
  intros Hd.
  exists (sweep CCCCore.infos (glob (files w) CCCCore.infos "*") (files w)).
  split; [apply run_cleanup_infos|].
  split; [apply run_simple_cleanup|].
  split.
  - intros n. apply sweep_glob_no_file, Hd.
  - intros q Hq. apply lookup_sweep_kept, Hq.
Qed.

Lemma cleanup_removes_every_file_witness :
  exists t',
    CCCCore.cleanup_infos nested_world =
      (Ok tt,
       World t' [ Log "INFO" "Cleaning up infos/ folder...";
                  Log "SUCCESS" "Cleaned up 1 files from infos/" ] []) /\
    CCCSimple.cleanup nested_world =
      (Ok tt, World t' [Log "INFO" "Räume auf..."; Log "OK" "Aufgeräumt"] []) /\
    (forall n, is_file t' (CCCCore.infos ++ [n]) = false) /\
    (forall q, is_file (files nested_world) q = false \/
               (forall n, q <> CCCCore.infos ++ [n]) ->
               t' !! q = files nested_world !! q).
Proof.
  apply (cleanup_removes_every_file nested_world).
  vm_compute. reflexivity.
Defined.

(** ** Extracting the archive *)

Lemma find_zip_file_world (E : env) (level_number : Z) (w : world) :
  exists r c,
    CCCCore.find_zip_file E level_number w = (Ok r, World (files w) c (keyboard w)).
Proof.
  rewrite run_find_zip_file. cbv zeta.
  destruct (exists_ (files w) _); [eexists _, _; reflexivity|].
  destruct (exists_ (files w) _); eexists _, _; reflexivity.
Qed.

Lemma run_extract_zip (E : env) (level_number : Z) (w : world) :
  exists r,
    eval (CCCCore.find_zip_file E level_number) w = Ok r /\
    exists c,
      CCCCore.extract_zip E level_number w =
      match r with
      | Some p =>
          (Ok (extraction E p (files w)).1,
           World (extraction E p (files w)).2 c (keyboard w))
      | None => (Ok false, World (files w) c (keyboard w))
      end.
Proof.
  destruct (find_zip_file_world E level_number w) as (r & c & Hfind).
  exists r. unfold CCCCore.extract_zip, eval. unfold bind at 1. rewrite Hfind.
  split; [reflexivity|].
  destruct r as [p|]; [|exists c; reflexivity].
  unfold bind at 1. unfold CCCCore.log at 1. cbn [files console keyboard].
  unfold try_except, bind at 1, zip_extractall, extraction. cbn [files console keyboard].
  destruct (files w !! p) as [[bytes|]|].
  - destruct (zip_members E bytes) as [members|].
    + destruct (extractall CCCCore.infos members (files w)) as [[u|e] t'].
      * eexists. reflexivity.
      * eexists. reflexivity.
    + eexists. reflexivity.
  - eexists. reflexivity.
  - eexists. reflexivity.
Qed.

(** X5 (extract_zip).  Extraction never raises and never asks the
    operator.  It answers [False] and changes no file when no archive is
    found, when the path found is a directory, or when its bytes are no zip
    archive; for a readable archive it writes the members in archive order
    below the staging folder and answers [True] exactly when every member
    could be written - the members written before a failing one stay.
    Whatever happens, paths outside the staging folder are untouched. *)
Theorem extract_zip_never_raises (E : env) (level_number : Z) (w : world) :
  let run := CCCCore.extract_zip E level_number in
  (exists b, eval run w = Ok b) /\
  keyboard (exec run w) = keyboard w /\
  (forall q, roots_differ CCCCore.infos q -> files (exec run w) !! q = files w !! q) /\
  (eval (CCCCore.find_zip_file E level_number) w = Ok None ->
   eval run w = Ok false /\ files (exec run w) = files w) /\
  (forall p, eval (CCCCore.find_zip_file E level_number) w = Ok (Some p) ->
     match files w !! p with
     | Some (File bytes) =>
         match zip_members E bytes with
         | Some members =>
             files (exec run w) = (extractall CCCCore.infos members (files w)).2 /\
             eval run w =
               Ok (match (extractall CCCCore.infos members (files w)).1 with
                   | Ok _ => true
                   | Raise _ => false
                   end)
         | None => eval run w = Ok false /\ files (exec run w) = files w
         end
     | _ => eval run w = Ok false /\ files (exec run w) = files w
     end).
Proof.
  cbv zeta.
  destruct (run_extract_zip E level_number w) as (r & Hfind & c & Hrun).
  split; [|split; [|split; [|split]]].
  - unfold eval. rewrite Hrun. destruct r; eexists; reflexivity.
  - apply quiet_core_extract_zip.
  - intros q Hq. exact (keeps_extract_zip E level_number q _ Hq w eq_refl).
  - intros Hnone. rewrite Hfind in Hnone. injection Hnone as ->.
    unfold eval, exec. rewrite Hrun. split; reflexivity.
  - intros p Hp. rewrite Hfind in Hp. injection Hp as ->.
    unfold eval, exec. rewrite Hrun. unfold extraction. cbn [fst snd files].
    destruct (files w !! p) as [[bytes|]|]; try (split; reflexivity).
    destruct (zip_members E bytes) as [members|]; try (split; reflexivity).
    destruct (extractall CCCCore.infos members (files w)) as [[u|e] t']; split; reflexivity.
Qed.

(** ** Locating the document *)

Lemma literal_pdf : literal (String.list_ascii_of_string ".pdf").
Proof. repeat constructor. Qed.

Lemma glob_match_pdf (n : string) : glob_match "*.pdf" n = true <-> ends_with ".pdf" n.
Proof. exact (glob_match_suffix ".pdf" n literal_pdf). Qed.

Lemma pdf_patterns_end (level_number : Z) (pattern : string) :
  pattern ∈ CCCCore.pdf_patterns level_number -> ends_with ".pdf" pattern.
Proof.
  intros H. apply list_elem_of_In in H. simpl in H.
  destruct H as [<-|[<-|[<-|[<-|[]]]]];
    eexists; symmetry; apply append_assoc.
Qed.

Lemma first_existing_Some (t : fs) (candidates : list path) (p : path) :
  first_existing t candidates = Some p -> p ∈ candidates /\ exists_ t p = true.
Proof.
  intros H. apply find_some in H as [Hin Hex]. split; [apply list_elem_of_In, Hin|exact Hex].
Qed.

Lemma first_existing_None (t : fs) (candidates : list path) (p : path) :
  first_existing t candidates = None -> p ∈ candidates -> exists_ t p = false.
Proof.
  intros H Hin. apply (find_none _ _ H). apply list_elem_of_In, Hin.
Qed.

(** X6 (find_pdf_file).  The search for the document never raises and
    changes nothing but the console.  A path it returns exists and is one
    of the four expected names in the download folder, or a name ending in
    [.pdf] in the staging folder.  The download folder wins: as soon as one
    of the four names exists there the result lies there, whatever the
    staging folder holds.  And the search is complete for the staging
    folder: it answers [None] only if that folder (when it is a directory)
    holds no entry whose name ends in [.pdf]. *)
Theorem find_pdf_file_search (E : env) (level_number : Z) (w : world) :
  let downloads := home E ++ ["Downloads"] in
  exists r c,
    CCCCore.find_pdf_file E level_number w = (Ok r, World (files w) c (keyboard w)) /\
    (forall p, r = Some p ->
       exists_ (files w) p = true /\
       exists n, ends_with ".pdf" n /\
                 ((p = downloads ++ [n] /\ n ∈ CCCCore.pdf_patterns level_number) \/
                  p = CCCCore.infos ++ [n])) /\
    (forall pattern,
       pattern ∈ CCCCore.pdf_patterns level_number ->
       exists_ (files w) (downloads ++ [pattern]) = true ->
       exists pattern', pattern' ∈ CCCCore.pdf_patterns level_number /\
                        r = Some (downloads ++ [pattern'])) /\
    (r = None ->
     is_dir (files w) CCCCore.infos = true ->
     forall n, ends_with ".pdf" n -> files w !! (CCCCore.infos ++ [n]) = None).
Proof.
  cbv zeta. unfold CCCCore.find_pdf_file. cbv zeta. unfold bind at 1. unfold get_files at 1.
  destruct (first_existing (files w) _) as [p1|] eqn:H1.
  { apply first_existing_Some in H1 as [Hin Hex].
    apply list_elem_of_fmap in Hin as (n & -> & Hn).
    eexists (Some _), _. split; [reflexivity|]. split; [|split].
    - intros p [= <-]. split; [exact Hex|]. exists n.
      split; [exact (pdf_patterns_end _ _ Hn)|]. left. split; [reflexivity|exact Hn].
    - intros pattern _ _. exists n. split; [exact Hn|reflexivity].
    - discriminate. }
  assert (Hdown : forall pattern,
            pattern ∈ CCCCore.pdf_patterns level_number ->
            exists_ (files w) ((home E ++ ["Downloads"]) ++ [pattern]) = true -> False).
  { intros pattern Hp Hex.
    rewrite (first_existing_None _ _ _ H1) in Hex; [discriminate|].
    apply list_elem_of_fmap. exists pattern. split; [reflexivity|exact Hp]. }
  destruct (first_existing (files w) (map (fun pattern => CCCCore.infos ++ [pattern]) _))
    as [p2|] eqn:H2.
  { apply first_existing_Some in H2 as [Hin Hex].
    apply list_elem_of_fmap in Hin as (n & -> & Hn).
    eexists (Some _), _. split; [reflexivity|]. split; [|split].
    - intros p [= <-]. split; [exact Hex|]. exists n.
      split; [exact (pdf_patterns_end _ _ Hn)|]. right. reflexivity.
    - intros pattern Hp Hex'. destruct (Hdown pattern Hp Hex').
    - discriminate. }
  destruct (glob (files w) CCCCore.infos "*.pdf") as [|n rest] eqn:Hg.
  - exists None, (console w). split; [destruct w; reflexivity|]. split; [|split].
    + discriminate.
    + intros pattern Hp Hex'. destruct (Hdown pattern Hp Hex').
    + intros _ Hd n Hn.
      destruct (files w !! (CCCCore.infos ++ [n])) as [e|] eqn:Hl; [|reflexivity].
      assert (Hin : n ∈ glob (files w) CCCCore.infos "*.pdf").
      { apply elem_of_glob. split; [exact Hd|]. split; [apply glob_match_pdf, Hn|].
        rewrite Hl. eexists; reflexivity. }
      rewrite Hg in Hin. inversion Hin.
  - assert (Hin : n ∈ glob (files w) CCCCore.infos "*.pdf") by (rewrite Hg; left).
    apply elem_of_glob in Hin as (Hd & Hm & [e He]).
    eexists (Some _), _. split; [reflexivity|]. split; [|split].
    + intros p [= <-]. split.
      * unfold exists_, CCCCore.infos. cbn [app]. unfold CCCCore.infos in He.
        cbn [app] in He. rewrite He. reflexivity.
      * exists n. split; [apply glob_match_pdf, Hm|]. right. reflexivity.
    + intros pattern Hp Hex'. destruct (Hdown pattern Hp Hex').
    + discriminate.
Qed.

(** ** A document without text *)

Lemma returns_try_except {A : Type} (Q : A -> Prop) (m : M A) (h : exn -> M A) :
  returns Q m -> (forall e, returns Q (h e)) -> returns Q (try_except m h).
Proof.
  intros Hm Hh w v. specialize (Hm w). unfold eval, try_except in *.
  destruct (m w) as [[a|e] w1]; simpl in *.
  - exact (Hm v).
  - apply Hh.
Qed.

Lemma returns_bind_of {A B : Type} (R : A -> Prop) (Q : B -> Prop) (m : M A)
    (k : A -> M B) :
  returns R m -> (forall v, R v -> returns Q (k v)) -> returns Q (bind m k).
Proof.
  intros Hm Hk w v. specialize (Hm w). unfold eval, bind in *.
  destruct (m w) as [[a|e] w1]; simpl in *.
  - apply Hk. apply Hm. reflexivity.
  - discriminate.
Qed.

Lemma keeps_bind_of {A B : Type} (P : fs -> Prop) (R : A -> Prop) (m : M A)
    (k : A -> M B) :
  keeps P m -> returns R m -> (forall v, R v -> keeps P (k v)) -> keeps P (bind m k).
Proof.
  intros Hm Hr Hk w Hw. specialize (Hm w Hw). specialize (Hr w).
  unfold exec, eval, bind in *.
  destruct (m w) as [[v|e] w1]; simpl in *; [|exact Hm].
  apply Hk; [apply Hr; reflexivity|exact Hm].
Qed.

Lemma returns_pdfplumber_pages (E : env) (pdf_file : path) :
  returns (fun pages => exists bytes, pdf_pages E bytes = Ok pages)
          (pdfplumber_pages E pdf_file).
Proof.
  intros w pages. unfold eval, pdfplumber_pages.
  destruct (files w !! pdf_file) as [[bytes|]|]; try discriminate.
  destruct (pdf_pages E bytes) as [ps|e] eqn:Hp; [|discriminate].
  intros [= <-]. exists bytes. exact Hp.
Qed.

Lemma page_texts_empty (i : nat) (pages : list string) :
  CCCCore.page_texts i pages = "" <-> Forall (fun text => text = "") pages.
Proof.
  revert i. induction pages as [|text pages IH]; intros i; cbn [CCCCore.page_texts].
  - split; [constructor|reflexivity].
  - destruct (String.eqb_spec text "") as [->|Hne].
    + change ("" +:+ ?s) with s. rewrite IH.
      split; [intros H; constructor; [reflexivity|exact H]|intros H; inversion H; assumption].
    + split; [discriminate|]. intros H. inversion H; contradiction.
Qed.

Lemma core_extract_pdf_text_textless (E : env) (level_number : Z) :
  (forall bytes pages, pdf_pages E bytes = Ok pages -> Forall (fun text => text = "") pages) ->
  returns (fun v => v = None \/ v = Some "") (CCCCore.extract_pdf_text E level_number).
Proof.
  intros Hpages. unfold CCCCore.extract_pdf_text.
  apply returns_if.
  - apply returns_bind. intros _. apply returns_ret. left; reflexivity.
  - apply returns_bind. intros [pdf_file|].
    + apply returns_try_except.
      * eapply returns_bind_of; [apply returns_pdfplumber_pages|].
        intros pages [bytes Hb]. cbv zeta.
        apply returns_bind. intros _. apply returns_ret. right.
        f_equal. apply page_texts_empty. exact (Hpages _ _ Hb).
      * intros e. apply returns_bind. intros _. apply returns_ret. left; reflexivity.
    + apply returns_bind. intros _. apply returns_ret. left; reflexivity.
Qed.

(** X7 (_run_processing_pipeline, run_processing_pipeline, extract_pdf_text).
    A document from which no page yields text - a scanned statement, say -
    is extracted "successfully" as the empty text, which the pipelines of
    the core runners treat like a missing document: no prompt is written.
    Every path outside the staging, inputs and outputs folders, the prompt
    file in particular, holds after the pipeline what it held before. *)
Theorem textless_document_writes_no_prompt (E : env) (level_number : Z) (w : world)
    (q : path) :
  (forall bytes pages, pdf_pages E bytes = Ok pages -> Forall (fun text => text = "") pages) ->
  roots_differ CCCCore.infos q ->
  roots_differ CCCCore.inputs q ->
  roots_differ CCCCore.outputs q ->
  files (exec (CCCRunner._run_processing_pipeline E level_number) w) !! q = files w !! q /\
  files (exec (ArchiveRunLevel.run_processing_pipeline E level_number) w) !! q =
    files w !! q.
Proof.
  intros Hpages Hinfos Hin Hout.
  assert (Hclear_in : keeps (fun t => t !! q = files w !! q)
                            (CCCCore.clear_folder CCCCore.inputs "Inputs")).
  { apply keeps_clear_folder. intros n ->. simpl in Hin. congruence. }
  assert (Hclear_out : keeps (fun t => t !! q = files w !! q)
                             (CCCCore.clear_folder CCCCore.outputs "Outputs")).
  { apply keeps_clear_folder. intros n ->. simpl in Hout. congruence. }
  assert (Horg : keeps (fun t => t !! q = files w !! q) CCCCore.organize_files).
  { apply core_organize_keeps_at; [|exact Hin|exact Hout].
    intros m _. apply roots_differ_relative, Hinfos. }
  split.
  - enough (Hk : keeps (fun t => t !! q = files w !! q)
                       (CCCRunner._run_processing_pipeline E level_number))
      by exact (Hk w eq_refl).
    unfold CCCRunner._run_processing_pipeline.
    apply keeps_bind; [auto with keeps|]. intros _.
    apply keeps_bind; [exact Hclear_in|]. intros _.
    apply keeps_bind; [exact Hclear_out|]. intros _.
    apply keeps_bind; [apply keeps_extract_zip, Hinfos|].
    intros extracted. apply keeps_if; [auto with keeps|].
    eapply keeps_bind_of;
      [apply keeps_core_extract_pdf_text
      |apply (core_extract_pdf_text_textless _ _ Hpages)|].
    intros v [->| ->]; cbn [String.eqb];
      (apply keeps_bind; [auto with keeps|]; intros _;
       apply keeps_bind; [exact Horg|]; intros _;
       apply keeps_bind; auto with keeps).
  - enough (Hk : keeps (fun t => t !! q = files w !! q)
                       (ArchiveRunLevel.run_processing_pipeline E level_number))
      by exact (Hk w eq_refl).
    unfold ArchiveRunLevel.run_processing_pipeline.
    apply keeps_bind; [exact Hclear_in|]. intros _.
    apply keeps_bind; [exact Hclear_out|]. intros _.
    apply keeps_bind; [apply keeps_extract_zip, Hinfos|].
    intros extracted. apply keeps_if; [apply keeps_bind; auto with keeps|].
    eapply keeps_bind_of;
      [apply keeps_core_extract_pdf_text
      |apply (core_extract_pdf_text_textless _ _ Hpages)|].
    intros v [->| ->]; cbn [String.eqb];
      (apply keeps_bind; [auto with keeps|]; intros _;
       apply keeps_bind; [exact Horg|]; intros _;
       apply keeps_bind; auto with keeps).
Qed.

Lemma textless_document_writes_no_prompt_witness :
  files (exec (CCCRunner._run_processing_pipeline scanned_env 3) contest_world)
    !! ["prompts"; "level3_prompt.txt"] = files contest_world !! ["prompts"; "level3_prompt.txt"] /\
  files (exec (ArchiveRunLevel.run_processing_pipeline scanned_env 3) contest_world)
    !! ["prompts"; "level3_prompt.txt"] = files contest_world !! ["prompts"; "level3_prompt.txt"].
Proof.
  apply (textless_document_writes_no_prompt scanned_env 3 contest_world
           ["prompts"; "level3_prompt.txt"]).
  - intros bytes pages [= <-]. repeat constructor.
  - simpl. discriminate.
  - simpl. discriminate.
  - simpl. discriminate.
Defined.

(** ** Writing the prompt *)

Lemma contains_in_lines (text : string) (before after : list string) :
  contains text (unlines (before ++ text :: after)).
Proof.
  induction before as [|l before IH]; simpl.
  - exists "", (nl +:+ unlines after). reflexivity.
  - destruct IH as (a & b & Hab). exists (l +:+ nl +:+ a), b.
    fold (unlines (before ++ text :: after)). rewrite Hab.
    rewrite !append_assoc. reflexivity.
Qed.

(** X8 (create_ai_prompt, get_prompt_file_path).  With the prompts folder
    in place, writing the prompt returns the very text it stores: the
    prompt file of the level holds the returned prompt, whatever it held
    before, and the document text appears verbatim inside it.  Every other
    path is untouched - in particular the prompt file of any other level,
    since distinct levels have distinct prompt files - and the operator is
    not asked. *)
Theorem create_ai_prompt_round_trip (level_number : Z) (pdf_text : string) (w : world) :
  is_dir (files w) CCCCore.prompts = true ->
  is_dir (files w) (CCCCore.get_prompt_file_path level_number) = false ->
  let prompt := CCCCore.prompt_text level_number pdf_text in
  let w' := exec (CCCCore.create_ai_prompt level_number pdf_text) w in
  eval (CCCCore.create_ai_prompt level_number pdf_text) w = Ok prompt /\
  files w' !! CCCCore.get_prompt_file_path level_number = Some (File prompt) /\
  contains pdf_text prompt /\
  (forall q, q <> CCCCore.get_prompt_file_path level_number -> files w' !! q = files w !! q) /\
  (forall other, other <> level_number ->
     files w' !! CCCCore.get_prompt_file_path other =
     files w !! CCCCore.get_prompt_file_path other) /\
  keyboard w' = keyboard w.
Proof.
  intros Hdir Hfile. cbv zeta.
  assert (Hrun : CCCCore.create_ai_prompt level_number pdf_text w =
                 (Ok (CCCCore.prompt_text level_number pdf_text),
                  World (<[CCCCore.get_prompt_file_path level_number :=
                             File (CCCCore.prompt_text level_number pdf_text)]> (files w))
                        (console w ++
                         [Log "SUCCESS" ("AI prompt saved to: " +:+
                            str_path (CCCCore.get_prompt_file_path level_number))])
                        (keyboard w))).
  { unfold CCCCore.create_ai_prompt. cbv zeta. unfold bind at 1. unfold fs_op, write_text.
    rewrite Hfile.
    change (parent (CCCCore.get_prompt_file_path level_number)) with CCCCore.prompts.
    rewrite Hdir. reflexivity. }
  unfold eval, exec. rewrite Hrun. cbn [fst snd files keyboard].
  split; [reflexivity|]. split; [apply lookup_insert_eq|].
  split.
  { unfold CCCCore.prompt_text.
    apply (contains_in_lines pdf_text
             [ "# Coding Challenge - Level " +:+ str_int level_number; "";
               "## Problem Description (from PDF):"; "" ]). }
  split; [intros q Hq; apply lookup_insert_ne; congruence|].
  split; [|reflexivity].
  intros other Hother. apply lookup_insert_ne.
  unfold CCCCore.get_prompt_file_path. intros [= Heq].
  apply Hother. symmetry. exact (level_name_inj _ _ _ _ Heq).
Qed.

Lemma create_ai_prompt_round_trip_witness :
  eval (CCCCore.create_ai_prompt 3 "Add the numbers.") contest_world =
    Ok (CCCCore.prompt_text 3 "Add the numbers.") /\
  files (exec (CCCCore.create_ai_prompt 3 "Add the numbers.") contest_world)
    !! ["prompts"; "level3_prompt.txt"] =
    Some (File (CCCCore.prompt_text 3 "Add the numbers.")).
Proof.
  destruct (create_ai_prompt_round_trip 3 "Add the numbers." contest_world)
    as (Hv & Hf & _).
  - vm_compute. reflexivity.
  - vm_compute. reflexivity.
  - split; [exact Hv|exact Hf].
Defined.

(** X9 (create_ai_prompt).  The two implementations differ in what can go
    wrong when the prompt is written.  The core one writes below the
    prompts folder and raises [FileNotFoundError], writing nothing, when
    that folder is missing; the single-file one writes into the working
    directory, which always exists, so it succeeds for every text unless a
    directory has taken the prompt file's name. *)
Theorem create_ai_prompt_needs_folder (level : Z) (pdf_text : string) (w : world) :
  (files w !! CCCCore.prompts = None ->
   files w !! CCCCore.get_prompt_file_path level = None ->
   CCCCore.create_ai_prompt level pdf_text w =
     (Raise (enoent (CCCCore.get_prompt_file_path level)), w)) /\
  (is_dir (files w) (CCCSimple.prompt_file level) = false ->
   eval (CCCSimple.create_ai_prompt level pdf_text) w =
     Ok (CCCSimple.prompt_text level pdf_text) /\
   files (exec (CCCSimple.create_ai_prompt level pdf_text) w) !! CCCSimple.prompt_file level =
     Some (File (CCCSimple.prompt_text level pdf_text))) /\
  (is_dir (files w) (CCCSimple.prompt_file level) = true ->
   CCCSimple.create_ai_prompt level pdf_text w =
     (Raise (eisdir (CCCSimple.prompt_file level)), w)).
Proof.
  split; [|split].
  - intros Hnone Hfree. unfold CCCCore.create_ai_prompt. cbv zeta. unfold bind at 1.
    unfold fs_op, write_text.
    change (parent (CCCCore.get_prompt_file_path level)) with CCCCore.prompts.
    assert (Hp : is_dir (files w) (CCCCore.get_prompt_file_path level) = false).
    { unfold is_dir, CCCCore.get_prompt_file_path in *. cbn [app CCCCore.prompts] in *.
      rewrite Hfree. reflexivity. }
    rewrite Hp.
    unfold is_dir, exists_, CCCCore.prompts in *. rewrite Hnone. reflexivity.
  - intros Hfile.
    assert (Hrun : CCCSimple.create_ai_prompt level pdf_text w =
                   (Ok (CCCSimple.prompt_text level pdf_text),
                    World (<[CCCSimple.prompt_file level :=
                               File (CCCSimple.prompt_text level pdf_text)]> (files w))
                          (console w ++
                           [Log "OK" ("AI-Prompt gespeichert: " +:+
                              str_path (CCCSimple.prompt_file level))])
                          (keyboard w))).
    { unfold CCCSimple.create_ai_prompt. cbv zeta. unfold bind at 1.
      unfold fs_op, write_text. rewrite Hfile. reflexivity. }
    unfold eval, exec. rewrite Hrun. split; [reflexivity|apply lookup_insert_eq].
  - intros Hdir. unfold CCCSimple.create_ai_prompt. cbv zeta. unfold bind at 1.
    unfold fs_op, write_text. rewrite Hdir. reflexivity.
Qed.

(** ** The classifier, start to end *)

Lemma move_phases (out_pattern : string) (body1 body2 : string -> M unit) (w : world) :
  moves_one CCCCore.infos CCCCore.inputs body1 ->
  moves_one CCCCore.infos CCCCore.outputs body2 ->
  (forall n, glob_match "*.in" n = true -> glob_match out_pattern n = true -> False) ->
  staging_ready out_pattern (files w) ->
  exists w1 w2,
    for_each (glob (files w) CCCCore.infos "*.in") body1 w = (Ok tt, w1) /\
    for_each (glob (files w1) CCCCore.infos out_pattern) body2 w1 = (Ok tt, w2) /\
    keyboard w2 = keyboard w /\
    length (glob (files w1) CCCCore.infos out_pattern) =
      length (glob (files w) CCCCore.infos out_pattern) /\
    classified out_pattern (files w) (files w2).
Proof.
  intros Hb1 Hb2 Hdisj ((Hinfos & Hinputs & Hnodir1 & Hreg1) & Houtputs & Hnodir2 & Hreg2).
  set (t := files w) in *.
  set (ns1 := glob t CCCCore.infos "*.in").
  destruct (move_loop CCCCore.infos CCCCore.inputs body1 ns1 w Hb1) as (w1 & Hloop1 & Hkb1 & Hq1).
  { simpl. discriminate. }
  { apply NoDup_glob. }
  { exact Hinputs. }
  { exact Hnodir1. }
  { intros n Hn. apply elem_of_glob in Hn as (_ & Hm & [e He]).
    apply glob_match_in in Hm. specialize (Hreg1 n Hm). unfold is_file. fold t.
    rewrite He. destruct e; [reflexivity|congruence]. }
  fold t in Hq1. set (t1 := files w1) in *.
  assert (F_infos : forall n, t1 !! (CCCCore.infos ++ [n]) =
                              if decide (n ∈ ns1) then None else t !! (CCCCore.infos ++ [n])).
  { intros n. rewrite Hq1.
    replace (child_name CCCCore.inputs (CCCCore.infos ++ [n])) with (@None string)
      by reflexivity.
    rewrite (proj2 (child_name_Some _ _ n) eq_refl). reflexivity. }
  assert (F_out : forall n, t1 !! (CCCCore.outputs ++ [n]) = t !! (CCCCore.outputs ++ [n])).
  { intros n. rewrite Hq1. reflexivity. }
  assert (F_in : forall n, t1 !! (CCCCore.inputs ++ [n]) =
                           if decide (n ∈ ns1) then t !! (CCCCore.infos ++ [n])
                           else t !! (CCCCore.inputs ++ [n])).
  { intros n. rewrite Hq1. rewrite (proj2 (child_name_Some _ _ n) eq_refl). reflexivity. }
  assert (F_dirs : is_dir t1 CCCCore.infos = true /\ is_dir t1 CCCCore.outputs = true).
  { unfold is_dir, CCCCore.infos, CCCCore.outputs in *. rewrite !Hq1. cbn.
    split; [exact Hinfos|exact Houtputs]. }
  destruct F_dirs as [Hinfos1 Houtputs1].
  assert (Hns1 : forall n, n ∈ ns1 -> glob_match "*.in" n = true).
  { intros n Hn. apply elem_of_glob in Hn as (_ & Hm & _). exact Hm. }
  set (ns2 := glob t1 CCCCore.infos out_pattern).
  assert (Hmem : forall n, n ∈ ns2 <-> n ∈ glob t CCCCore.infos out_pattern).
  { intros n. unfold ns2. rewrite !elem_of_glob. rewrite F_infos.
    split; intros (Hd & Hm & Hs); (split; [assumption|]; split; [exact Hm|]).
    - destruct (decide (n ∈ ns1)); [destruct Hs; discriminate|exact Hs].
    - rewrite decide_False; [exact Hs|].
      intros Hn. exact (Hdisj n (Hns1 n Hn) Hm). }
  destruct (move_loop CCCCore.infos CCCCore.outputs body2 ns2 w1 Hb2) as (w2 & Hloop2 & Hkb2 & Hq2).
  { simpl. discriminate. }
  { apply NoDup_glob. }
  { exact Houtputs1. }
  { intros n. fold t1. rewrite F_out. apply Hnodir2. }
  { intros n Hn. unfold is_file. fold t1. rewrite F_infos.
    pose proof Hn as Hn'. apply Hmem in Hn'. apply elem_of_glob in Hn' as (_ & Hm & [e He]).
    rewrite decide_False by (intros Hn1; exact (Hdisj n (Hns1 n Hn1) Hm)).
    specialize (Hreg2 n Hm). rewrite He. destruct e; [reflexivity|congruence]. }
  fold t1 in Hq2.
  exists w1, w2. split; [exact Hloop1|]. split; [exact Hloop2|].
  split; [congruence|]. split.
  { apply Permutation_length, NoDup_Permutation; [apply NoDup_glob..|exact Hmem]. }
  split; [|split].
  - intros n e Hn He. split.
    + rewrite Hq2.
      replace (child_name CCCCore.outputs (CCCCore.inputs ++ [n])) with (@None string)
        by reflexivity.
      replace (child_name CCCCore.infos (CCCCore.inputs ++ [n])) with (@None string)
        by reflexivity.
      rewrite F_in, decide_True by exact Hn. exact He.
    + rewrite Hq2.
      replace (child_name CCCCore.outputs (CCCCore.infos ++ [n])) with (@None string)
        by reflexivity.
      rewrite (proj2 (child_name_Some _ _ n) eq_refl).
      destruct (decide (n ∈ ns2)); [reflexivity|].
      rewrite F_infos, decide_True by exact Hn. reflexivity.
  - intros n e Hn He. pose proof Hn as Hn2. apply Hmem in Hn2.
    apply elem_of_glob in Hn as (_ & Hm & _).
    split.
    + rewrite Hq2. rewrite (proj2 (child_name_Some _ _ n) eq_refl).
      rewrite decide_True by exact Hn2. rewrite F_infos.
      rewrite decide_False by (intros Hn1; exact (Hdisj n (Hns1 n Hn1) Hm)). exact He.
    + rewrite Hq2.
      replace (child_name CCCCore.outputs (CCCCore.infos ++ [n])) with (@None string)
        by reflexivity.
      rewrite (proj2 (child_name_Some _ _ n) eq_refl).
      rewrite decide_True by exact Hn2. reflexivity.
  - intros q Hq_in Hq_out. rewrite Hq2.
    destruct (child_name CCCCore.outputs q) as [n|] eqn:Hco.
    { apply child_name_Some in Hco. subst q.
      destruct (decide (n ∈ ns2)) as [Hn|Hn].
      - apply Hmem in Hn. destruct (Hq_out n Hn) as [Hne _]. congruence.
      - apply F_out. }
    destruct (child_name CCCCore.infos q) as [n|] eqn:Hci.
    { apply child_name_Some in Hci. subst q.
      destruct (decide (n ∈ ns2)) as [Hn|Hn].
      - apply Hmem in Hn. destruct (Hq_out n Hn) as [_ Hne]. congruence.
      - rewrite F_infos. destruct (decide (n ∈ ns1)) as [Hn1|Hn1]; [|reflexivity].
        destruct (Hq_in n Hn1) as [_ Hne]. congruence. }
    rewrite Hq1, Hci.
    destruct (child_name CCCCore.inputs q) as [n|] eqn:Hcin; [|reflexivity].
    apply child_name_Some in Hcin. subst q.
    destruct (decide (n ∈ ns1)) as [Hn1|Hn1]; [|reflexivity].
    destruct (Hq_in n Hn1) as [Hne _]. congruence.
Qed.

Lemma in_not_example_out (n : string) :
  glob_match "*.in" n = true -> glob_match "*example*.out" n = true -> False.
Proof.
  intros Hin Hout. apply glob_match_in in Hin.
  exact (in_not_out _ Hin (example_out_ends_out _ Hout)).
Qed.

Lemma in_not_any_out (n : string) :
  glob_match "*.in" n = true -> glob_match "*.out" n = true -> False.
Proof.
  intros Hin Hout. apply glob_match_in in Hin. apply glob_match_out in Hout.
  exact (in_not_out _ Hin Hout).
Qed.

Lemma run_core_organize_files (w : world) :
  staging_ready "*example*.out" (files w) ->
  exists t' c,
    CCCCore.organize_files w =
      (Ok (length (glob (files w) CCCCore.infos "*.in"),
           length (glob (files w) CCCCore.infos "*example*.out")),
       World t' c (keyboard w)) /\
    classified "*example*.out" (files w) t'.
Proof.
  intros Hready.
  unfold CCCCore.organize_files. cbv zeta.
  unfold bind at 1. unfold CCCCore.log at 1.
  unfold bind at 1. unfold get_files at 1. cbn [files console keyboard].
  set (w0 := World (files w) (console w ++ [Log "INFO" "Organizing files..."]) (keyboard w)).
  destruct (move_phases "*example*.out"
              (fun name => fs_op (shutil_move (CCCCore.infos ++ [name]) (CCCCore.inputs ++ [name])) >>
                           CCCCore.log ("Moved " +:+ name +:+ " -> Inputs/") "INFO")
              (fun name => fs_op (shutil_move (CCCCore.infos ++ [name]) (CCCCore.outputs ++ [name])) >>
                           CCCCore.log ("Moved " +:+ name +:+ " -> Outputs/") "INFO")
              w0)
    as (w1 & w2 & Hloop1 & Hloop2 & Hkb & Hlen & Hcl).
  { apply (core_body_moves_one _ _ (fun name => "Moved " +:+ name +:+ " -> Inputs/")). }
  { apply (core_body_moves_one _ _ (fun name => "Moved " +:+ name +:+ " -> Outputs/")). }
  { exact in_not_example_out. }
  { exact Hready. }
  subst w0. cbn [files keyboard] in Hloop1, Hlen, Hcl, Hkb.
  unfold bind at 1. rewrite Hloop1.
  unfold bind at 1. unfold get_files at 1.
  unfold bind at 1. rewrite Hloop2.
  unfold bind, CCCCore.log, ret. cbn [files console keyboard].
  rewrite Hlen, Hkb.
  eexists _, _. split; [reflexivity|exact Hcl].
Qed.

(** X10 (CCCCore.organize_files).  In the state the constructor sets up,
    with no subdirectory in the inputs and outputs folders and the staged
    inputs and example outputs being regular files, the classifier returns
    normally without asking the operator; the pair it returns counts the
    staged names ending in [.in] and the staged names matching
    [*example*.out]; each of them is afterwards at its name in the inputs,
    respectively outputs, folder with its content and gone from the
    staging folder; and no other path is touched. *)
Theorem classifier_succeeds (w : world) :
  staging_ready "*example*.out" (files w) ->
  exists t' c,
    CCCCore.organize_files w =
      (Ok (length (glob (files w) CCCCore.infos "*.in"),
           length (glob (files w) CCCCore.infos "*example*.out")),
       World t' c (keyboard w)) /\
    classified "*example*.out" (files w) t'.
Proof. exact (run_core_organize_files w). Qed.

Lemma mixed_world_ready (out_pattern : string) :
  staging_ready out_pattern (files mixed_world).
Proof.
  unfold staging_ready, inputs_ready, mixed_world. repeat split.
  - intros n. settle_lookup.
  - intros n _. settle_lookup.
  - intros n. settle_lookup.
  - intros n _. settle_lookup.
Qed.

Lemma classifier_succeeds_witness :
  exists t' c,
    CCCCore.organize_files mixed_world = (Ok (1%nat, 1%nat), World t' c []) /\
    classified "*example*.out" (files mixed_world) t'.
Proof.
  apply (classifier_succeeds mixed_world).
  apply mixed_world_ready.
Defined.

(** X11 (CCCSimple.organize_files).  Under the same conditions the
    classifier of the single-file implementation returns normally without
    asking the operator, and it moves every staged name ending in [.out],
    not only the example outputs: a staged regular file whose name ends in
    [.out] without matching [*example*.out] ends up in the outputs folder,
    whereas the core classifier leaves that very file in the staging
    folder. *)
Theorem simple_classifier_moves_every_output (w : world) :
  staging_ready "*.out" (files w) ->
  (exists t' c,
     CCCSimple.organize_files w = (Ok tt, World t' c (keyboard w)) /\
     classified "*.out" (files w) t') /\
  (forall n c,
     glob_match "*.out" n = true ->
     glob_match "*example*.out" n = false ->
     files w !! (CCCCore.infos ++ [n]) = Some (File c) ->
     files (exec CCCSimple.organize_files w) !! (CCCCore.outputs ++ [n]) = Some (File c) /\
     files (exec CCCSimple.organize_files w) !! (CCCCore.infos ++ [n]) = None /\
     files (exec CCCCore.organize_files w) !! (CCCCore.infos ++ [n]) = Some (File c)).
Proof.
  intros Hready.
  assert (Hrun : exists t' c,
             CCCSimple.organize_files w = (Ok tt, World t' c (keyboard w)) /\
             classified "*.out" (files w) t').
  { unfold CCCSimple.organize_files. cbv zeta.
    unfold bind at 1. unfold CCCSimple.log at 1.
    unfold bind at 1. unfold get_files at 1. cbn [files console keyboard].
    destruct (move_phases "*.out"
                (fun name => fs_op (shutil_move (CCCCore.infos ++ [name]) (CCCCore.inputs ++ [name])))
                (fun name => fs_op (shutil_move (CCCCore.infos ++ [name]) (CCCCore.outputs ++ [name])))
                (World (files w) (console w ++ [Log "INFO" "Organisiere Dateien..."]) (keyboard w)))
      as (w1 & w2 & Hloop1 & Hloop2 & Hkb & Hlen & Hcl).
    { apply simple_body_moves_one. }
    { apply simple_body_moves_one. }
    { exact in_not_any_out. }
    { exact Hready. }
    unfold CCCCore.infos, CCCCore.inputs, CCCCore.outputs in Hloop1, Hloop2, Hlen.
    cbn [files keyboard app] in Hloop1, Hloop2, Hlen, Hkb.
    unfold bind at 1. rewrite Hloop1.
    unfold bind at 1. unfold get_files at 1.
    unfold bind at 1. rewrite Hloop2.
    unfold CCCSimple.log. rewrite Hkb.
    eexists _, _. split; [reflexivity|exact Hcl]. }
  split; [exact Hrun|].
  intros n c Hout Hex Hn.
  destruct Hrun as (t' & c' & Hrun & Hin & Hmoved & Hrest).
  destruct Hready as ((Hinfos & _) & _).
  unfold exec at 1 2. rewrite Hrun. cbn [snd files].
  assert (Hmem : n ∈ glob (files w) CCCCore.infos "*.out").
  { apply elem_of_glob. split; [exact Hinfos|]. split; [exact Hout|].
    rewrite Hn. eexists; reflexivity. }
  destruct (Hmoved n _ Hmem Hn) as [H1 H2].
  split; [exact H1|]. split; [exact H2|].
  rewrite <- Hn.
  refine (core_organize_keeps n [] (files w !! (CCCCore.infos ++ [n])) _ Hex w eq_refl).
  destruct (glob_match "*.in" n) eqn:Hm; [|reflexivity].
  destruct (in_not_any_out n Hm Hout).
Qed.

Lemma simple_classifier_moves_every_output_witness :
  files (exec CCCSimple.organize_files mixed_world) !! ["Outputs"; "level3_1.out"] =
    Some (File "own") /\
  files (exec CCCSimple.organize_files mixed_world) !! ["infos"; "level3_1.out"] = None /\
  files (exec CCCCore.organize_files mixed_world) !! ["infos"; "level3_1.out"] =
    Some (File "own").
Proof.
  destruct (simple_classifier_moves_every_output mixed_world (mixed_world_ready "*.out"))
    as [_ H].
  apply (H "level3_1.out" "own"); reflexivity.
Defined.

(** ** Running the solution *)

Lemma find_level_script_found (level_number : Z) (w w0 : world) (p : path) :
  eval (CCCCore.find_level_script level_number) w = Ok (Some p) ->
  files w0 = files w ->
  CCCCore.find_level_script level_number w0 = (Ok (Some p), w0).
Proof.
  intros Hp Hfiles.
  pose proof (run_find_level_script level_number) as Hf. cbv zeta in Hf.
  unfold eval in Hp. rewrite Hf in Hp. cbn [fst] in Hp.
  rewrite Hf, Hfiles. congruence.
Qed.

(** X12 (_run_solution, count_output_files).  When the solution script is
    found and exits with status 0, the runner returns 0 without asking the
    operator; it reports the number of entries matching [*.out] that the
    outputs folder holds once the child has finished, and then cleans the
    staging folder: of the files the child left, no regular file remains
    directly inside the staging folder, and nothing else is changed. *)
Theorem run_solution_success (E : env) (level_number : Z) (w : world) (p : path) (t : fs) :
  eval (CCCCore.find_level_script level_number) w = Ok (Some p) ->
  subprocess_run E [str_path p] (files w) = Ok (0%Z, t) ->
  is_dir t CCCCore.infos = true ->
  exists t',
    CCCRunner._run_solution E level_number w =
      (Ok 0%Z,
       World t'
         (console w ++
          [ Printed (str_repeat "-" 60);
            Log "STEP" ("Running level" +:+ str_int level_number +:+ ".py...");
            Log "SUCCESS" ("Generated " +:+
                           str_nat (length (glob t CCCCore.outputs "*.out")) +:+
                           " output files");
            Log "INFO" "Cleaning up infos/ folder..." ] ++
          (if (0 <? count_files t CCCCore.infos)%nat
           then [Log "SUCCESS" ("Cleaned up " +:+ str_nat (count_files t CCCCore.infos) +:+
                                " files from infos/")]
           else []) ++
          [ Printed (nl +:+ str_repeat "=" 60);
            Printed ("🎉 Level " +:+ str_int level_number +:+ " Completed Successfully!");
            Printed (str_repeat "=" 60);
            Log "INFO" "📁 Output files ready in: Outputs/";
            Log "INFO" "🚀 Ready for submission!" ])
         (keyboard w)) /\
    (forall n, is_file t' (CCCCore.infos ++ [n]) = false) /\
    (forall q, is_file t q = false \/ (forall n, q <> CCCCore.infos ++ [n]) ->
               t' !! q = t !! q).
Proof.
  intros Hp Hchild Hd.
  exists (sweep CCCCore.infos (glob t CCCCore.infos "*") t).
  split; [|split].
  - unfold CCCRunner._run_solution, CCCCore.print_separator.
    unfold bind at 1. unfold print at 1.
    unfold bind at 1. unfold CCCCore.log at 1. cbn [files console keyboard].
    unfold bind at 1.
    match goal with
    | |- context [CCCCore.find_level_script level_number ?w0] =>
        rewrite (find_level_script_found level_number w w0 p Hp eq_refl)
    end.
    unfold bind at 1.
    match goal with
    | |- context [CCCCore.run_python_script E p ?w0] =>
        rewrite (run_python_script_exited E p w0 0%Z t Hchild)
    end.
    cbn [Z.eqb negb].
    unfold bind at 1. unfold CCCCore.count_output_files.
    unfold bind at 1. unfold get_files at 1. unfold ret at 1.
    unfold bind at 1. unfold CCCCore.log at 1. cbn [files console keyboard set_files].
    unfold bind at 1. rewrite run_cleanup_infos. cbn [files console keyboard].
    unfold CCCCore.print_header, bind, print, CCCCore.log, ret.
    cbn [files console keyboard].
    f_equal. f_equal.
    destruct (0 <? count_files t CCCCore.infos)%nat;
      repeat rewrite <- app_assoc; reflexivity.
  - intros n. apply sweep_glob_no_file, Hd.
  - intros q Hq. apply lookup_sweep_kept, Hq.
Qed.

Lemma run_solution_success_witness :
  eval (CCCRunner._run_solution (contest_env 0) 3) contest_world = Ok 0%Z /\
  (forall n, is_file (files (exec (CCCRunner._run_solution (contest_env 0) 3) contest_world))
               (CCCCore.infos ++ [n]) = false).
Proof.
  destruct (run_solution_success (contest_env 0) 3 contest_world ["level3.py"]
              (files contest_world)) as (t' & Hrun & Hclean & _).
  - reflexivity.
  - reflexivity.
  - reflexivity.
  - unfold eval, exec. rewrite Hrun. split; [reflexivity|exact Hclean].
Defined.

(** ** Computations that differ in what they print *)

Lemma alike_refl (w : world) : alike w w.
Proof. split; reflexivity. Qed.

Lemma agree_ret {A : Type} (v : A) : agree (ret v) (ret v).
Proof. intros w1 w2 H. split; [reflexivity|exact H]. Qed.

Lemma agree_raise {A : Type} (e : exn) : agree (@raise A e) (raise e).
Proof. intros w1 w2 H. split; [reflexivity|exact H]. Qed.

Lemma agree_bind {A B : Type} (m1 m2 : M A) (k1 k2 : A -> M B) :
  agree m1 m2 -> (forall v, agree (k1 v) (k2 v)) -> agree (bind m1 k1) (bind m2 k2).
Proof.
  intros Hm Hk w1 w2 Hw. destruct (Hm w1 w2 Hw) as [He Ha].
  unfold eval, exec, bind in *.
  destruct (m1 w1) as [[v1|e1] u1], (m2 w2) as [[v2|e2] u2]; simpl in *;
    try discriminate.
  - injection He as ->. apply Hk, Ha.
  - injection He as ->. split; [reflexivity|exact Ha].
Qed.

Lemma agree_try_except {A : Type} (m1 m2 : M A) (h1 h2 : exn -> M A) :
  agree m1 m2 -> (forall e, agree (h1 e) (h2 e)) ->
  agree (try_except m1 h1) (try_except m2 h2).
Proof.
  intros Hm Hh w1 w2 Hw. destruct (Hm w1 w2 Hw) as [He Ha].
  unfold eval, exec, try_except in *.
  destruct (m1 w1) as [[v1|e1] u1], (m2 w2) as [[v2|e2] u2]; simpl in *;
    try discriminate.
  - split; [exact He|exact Ha].
  - injection He as ->. apply Hh, Ha.
Qed.

Lemma agree_core_log (m1 l1 m2 l2 : string) : agree (CCCCore.log m1 l1) (CCCCore.log m2 l2).
Proof. intros w1 w2 H. split; [reflexivity|exact H]. Qed.

Lemma agree_simple_log (m1 l1 m2 l2 : string) :
  agree (CCCSimple.log m1 l1) (CCCSimple.log m2 l2).
Proof. intros w1 w2 H. split; [reflexivity|exact H]. Qed.

Lemma agree_print (t1 t2 : string) : agree (print t1) (print t2).
Proof. intros w1 w2 H. split; [reflexivity|exact H]. Qed.

(** A step that only prints, on one side. *)
Lemma agree_silent_l {A : Type} (s : M unit) (m1 m2 : M A) :
  (forall w, exists c, s w = (Ok tt, World (files w) c (keyboard w))) ->
  agree m1 m2 -> agree (s >> m1) m2.
Proof.
  intros Hs Hm w1 w2 Hw. unfold eval, exec, bind.
  destruct (Hs w1) as [c Hc]. rewrite Hc. apply Hm. exact Hw.
Qed.

Lemma agree_silent_r {A : Type} (s : M unit) (m1 m2 : M A) :
  (forall w, exists c, s w = (Ok tt, World (files w) c (keyboard w))) ->
  agree m1 m2 -> agree m1 (s >> m2).
Proof.
  intros Hs Hm w1 w2 Hw. unfold eval, exec, bind.
  destruct (Hs w2) as [c Hc]. rewrite Hc. apply Hm. exact Hw.
Qed.

Lemma silent_core_log (message level : string) (w : world) :
  exists c, CCCCore.log message level w = (Ok tt, World (files w) c (keyboard w)).
Proof. eexists. reflexivity. Qed.

Lemma silent_print (text : string) (w : world) :
  exists c, print text w = (Ok tt, World (files w) c (keyboard w)).
Proof. eexists. reflexivity. Qed.

Lemma agree_get_files : agree get_files get_files.
Proof.
  intros w1 w2 H. unfold eval, exec, get_files. simpl.
  split; [f_equal; apply H|exact H].
Qed.

Ltac agree_leaf :=
  simpl; split; [reflexivity|split; simpl; first [reflexivity|congruence]].

Lemma agree_fs_op (f : fs -> result fs) : agree (fs_op f) (fs_op f).
Proof.
  intros w1 w2 [Hf Hk]. unfold eval, exec, fs_op. rewrite Hf.
  destruct (f (files w2)); agree_leaf.
Qed.

Lemma agree_input : agree input input.
Proof.
  intros w1 w2 [Hf Hk]. unfold eval, exec, input. rewrite Hk, Hf.
  destruct (keyboard w2) eqn:Hk2; agree_leaf.
Qed.

Lemma agree_subprocess (E : env) (argv : list string) :
  agree (subprocess E argv) (subprocess E argv).
Proof.
  intros w1 w2 [Hf Hk]. unfold eval, exec, subprocess. rewrite Hf.
  destruct (subprocess_run E argv (files w2)) as [[code t]|e]; agree_leaf.
Qed.

Lemma agree_zip_extractall (E : env) (zip_path base : path) :
  agree (zip_extractall E zip_path base) (zip_extractall E zip_path base).
Proof.
  intros w1 w2 [Hf Hk]. unfold eval, exec, zip_extractall. rewrite Hf.
  destruct (files w2 !! zip_path) as [[bytes|]|]; try agree_leaf.
  destruct (zip_members E bytes) as [members|]; try agree_leaf.
  destruct (extractall base members (files w2)) as [[u|e] t]; agree_leaf.
Qed.

Lemma agree_pdfplumber_pages (E : env) (pdf_file : path) :
  agree (pdfplumber_pages E pdf_file) (pdfplumber_pages E pdf_file).
Proof.
  intros w1 w2 [Hf Hk]. unfold eval, exec, pdfplumber_pages. rewrite Hf.
  destruct (files w2 !! pdf_file) as [[bytes|]|]; try agree_leaf.
  destruct (pdf_pages E bytes); agree_leaf.
Qed.

Lemma agree_for_each {A : Type} (xs : list A) (body1 body2 : A -> M unit) :
  (forall x, agree (body1 x) (body2 x)) -> agree (for_each xs body1) (for_each xs body2).
Proof.
  intros Hb. induction xs as [|x xs IH]; simpl; [apply agree_ret|].
  apply agree_bind; [apply Hb|intros _; exact IH].
Qed.

Lemma agree_for_fold {A S : Type} (xs : list A) (s : S) (body1 body2 : A -> S -> M S) :
  (forall x s', agree (body1 x s') (body2 x s')) ->
  agree (for_fold xs s body1) (for_fold xs s body2).
Proof.
  intros Hb. revert s. induction xs as [|x xs IH]; intros s; simpl; [apply agree_ret|].
  apply agree_bind; [apply Hb|intros s1; apply IH].
Qed.

Create HintDb agree.
#[local] Hint Resolve agree_ret agree_raise agree_core_log agree_simple_log agree_print
  agree_get_files agree_fs_op agree_input agree_subprocess agree_zip_extractall
  agree_pdfplumber_pages : agree.

(** One step of a proof that two computations of the same shape [agree]. *)
Ltac agree_step :=
  first
    [ solve [auto 1 with agree nocore]
    | apply agree_bind; [|intros ?]
    | apply agree_try_except; [|intros ?]
    | apply agree_for_each; intros ?
    | apply agree_for_fold; intros ? ?
    | match goal with
      | |- agree (if ?b then _ else _) (if ?b then _ else _) => destruct b
      | |- agree (match ?x with _ => _ end) (match ?x with _ => _ end) => destruct x
      end ].

Ltac agree_auto := repeat agree_step.

Lemma agree_clear_folder (folder : path) (description : string) :
  agree (CCCCore.clear_folder folder description) (CCCCore.clear_folder folder description).
Proof. unfold CCCCore.clear_folder. agree_auto. Qed.

Lemma agree_core_extract_zip (E : env) (level_number : Z) :
  agree (CCCCore.extract_zip E level_number) (CCCCore.extract_zip E level_number).
Proof. unfold CCCCore.extract_zip, CCCCore.find_zip_file. agree_auto. Qed.

Lemma agree_core_extract_pdf_text (E : env) (level_number : Z) :
  agree (CCCCore.extract_pdf_text E level_number) (CCCCore.extract_pdf_text E level_number).
Proof. unfold CCCCore.extract_pdf_text, CCCCore.find_pdf_file. agree_auto. Qed.

Lemma agree_core_create_ai_prompt (level_number : Z) (pdf_text : string) :
  agree (CCCCore.create_ai_prompt level_number pdf_text)
        (CCCCore.create_ai_prompt level_number pdf_text).
Proof. unfold CCCCore.create_ai_prompt. agree_auto. Qed.

Lemma agree_core_organize_files : agree CCCCore.organize_files CCCCore.organize_files.
Proof. unfold CCCCore.organize_files. agree_auto. Qed.

Lemma agree_find_level_script (level_number : Z) :
  agree (CCCCore.find_level_script level_number) (CCCCore.find_level_script level_number).
Proof. unfold CCCCore.find_level_script. agree_auto. Qed.

Lemma agree_run_python_script (E : env) (script_path : path) :
  agree (CCCCore.run_python_script E script_path) (CCCCore.run_python_script E script_path).
Proof. unfold CCCCore.run_python_script. agree_auto. Qed.

Lemma agree_count_output_files : agree CCCCore.count_output_files CCCCore.count_output_files.
Proof. unfold CCCCore.count_output_files. agree_auto. Qed.

Lemma agree_cleanup_infos : agree CCCCore.cleanup_infos CCCCore.cleanup_infos.
Proof. unfold CCCCore.cleanup_infos. agree_auto. Qed.

Lemma agree_print_header (title1 title2 : string) :
  agree (CCCCore.print_header title1) (CCCCore.print_header title2).
Proof. unfold CCCCore.print_header. agree_auto. Qed.

#[local] Hint Resolve agree_clear_folder agree_core_extract_zip agree_core_extract_pdf_text
  agree_core_create_ai_prompt agree_core_organize_files agree_find_level_script
  agree_run_python_script agree_count_output_files agree_cleanup_infos
  agree_print_header : agree.

Lemma archive_pipeline_agrees (E : env) (level_number : Z) :
  agree (ArchiveRunLevel.run_processing_pipeline E level_number)
        (CCCRunner._run_processing_pipeline E level_number).
Proof.
  unfold ArchiveRunLevel.run_processing_pipeline, CCCRunner._run_processing_pipeline.
  apply agree_silent_r; [apply silent_core_log|].
  do 3 (apply agree_bind; [auto with agree|intros ?]).
  destruct v1; cbn [negb].
  - apply agree_bind; [auto with agree|intros pdf_text].
    apply agree_bind.
    + destruct pdf_text as [text|]; [destruct (String.eqb text "")|]; agree_auto.
    + intros _. agree_auto.
  - apply agree_silent_l; [apply silent_core_log|]. apply agree_ret.
Qed.

Lemma archive_solution_agrees (E : env) (level_number : Z) :
  agree (ArchiveRunLevel.run_solution E level_number)
        (CCCRunner._run_solution E level_number).
Proof.
  unfold ArchiveRunLevel.run_solution, CCCRunner._run_solution.
  apply agree_bind; [unfold CCCCore.print_separator; auto with agree|intros _].
  apply agree_bind; [auto with agree|intros _].
  apply agree_bind; [auto with agree|intros solution_path].
  destruct solution_path as [solution_path|].
  - apply agree_bind; [auto with agree|intros exit_code].
    destruct (negb (exit_code =? 0)%Z).
    + agree_auto.
    + apply agree_silent_l; [apply silent_core_log|].
      apply agree_bind; [auto with agree|intros output_count].
      apply agree_bind; [auto with agree|intros _].
      apply agree_bind; [auto with agree|intros _].
      apply agree_bind; [auto with agree|intros _].
      apply agree_silent_r; [apply silent_core_log|].
      apply agree_silent_r; [apply silent_core_log|].
      apply agree_ret.
  - apply agree_bind; [auto with agree|intros _].
    apply agree_silent_l; [apply silent_core_log|]. apply agree_ret.
Qed.

(** X13 (archive/run_level.py: run_processing_pipeline, run_solution).  The
    runner of the archive duplicates the pipeline and the solution step of
    [CCCRunner]; the copies differ in what they print only.  Run in the
    same world, each returns the same value (or raises the same exception)
    as its counterpart and leaves the same files and the same pending
    input of the operator. *)
Theorem archive_runner_agrees (E : env) (level_number : Z) (w : world) :
  let pipeline := ArchiveRunLevel.run_processing_pipeline E level_number in
  let pipeline' := CCCRunner._run_processing_pipeline E level_number in
  let solution := ArchiveRunLevel.run_solution E level_number in
  let solution' := CCCRunner._run_solution E level_number in
  (eval pipeline w = eval pipeline' w /\
   files (exec pipeline w) = files (exec pipeline' w) /\
   keyboard (exec pipeline w) = keyboard (exec pipeline' w)) /\
  (eval solution w = eval solution' w /\
   files (exec solution w) = files (exec solution' w) /\
   keyboard (exec solution w) = keyboard (exec solution' w)).
Proof.
  cbv zeta. split.
  - destruct (archive_pipeline_agrees E level_number w w (alike_refl w)) as [He [Hf Hk]].
    auto.
  - destruct (archive_solution_agrees E level_number w w (alike_refl w)) as [He [Hf Hk]].
    auto.
Qed.

(** ** Exit codes *)

Lemma total_ret {A : Type} (v : A) : total (ret v).
Proof. intros w. exists v. reflexivity. Qed.

Lemma total_bind {A B : Type} (m : M A) (k : A -> M B) :
  total m -> (forall v, total (k v)) -> total (bind m k).
Proof.
  intros Hm Hk w. destruct (Hm w) as [v Hv]. unfold eval, bind in *.
  destruct (m w) as [[a|e] w1]; simpl in *; [|discriminate]. apply Hk.
Qed.

Lemma total_try_except {A : Type} (m : M A) (h : exn -> M A) :
  (forall e, total (h e)) -> total (try_except m h).
Proof.
  intros Hh w. unfold eval, try_except.
  destruct (m w) as [[a|e] w1]; simpl; [exists a; reflexivity|apply Hh].
Qed.

Lemma total_get_files : total get_files.
Proof. intros w. eexists. reflexivity. Qed.

Lemma total_print (text : string) : total (print text).
Proof. intros w. eexists. reflexivity. Qed.

Lemma total_core_log (message level : string) : total (CCCCore.log message level).
Proof. intros w. eexists. reflexivity. Qed.

Lemma total_simple_log (msg typ : string) : total (CCCSimple.log msg typ).
Proof. intros w. eexists. reflexivity. Qed.

Lemma total_cleanup_infos : total CCCCore.cleanup_infos.
Proof. intros w. exists tt. unfold eval. rewrite run_cleanup_infos. reflexivity. Qed.

Lemma total_simple_cleanup : total CCCSimple.cleanup.
Proof. intros w. exists tt. unfold eval. rewrite run_simple_cleanup. reflexivity. Qed.

Lemma total_clear_folder (folder : path) (description : string) :
  total (CCCCore.clear_folder folder description).
Proof. intros w. exists tt. apply eval_clear_folder. Qed.

Create HintDb total.
#[local] Hint Resolve total_ret total_get_files total_print total_core_log total_simple_log
  total_cleanup_infos total_simple_cleanup total_clear_folder : total.

(** One step of a proof that a computation is [total]. *)
Ltac total_step :=
  first
    [ solve [auto 1 with total nocore]
    | apply total_try_except; intros ?
    | apply total_bind; [|intros ?]
    | match goal with
      | |- total (if ?b then _ else _) => destruct b
      | |- total (match ?x with _ => _ end) => destruct x
      end ].

Ltac total_auto := repeat total_step.

Lemma total_print_header (title : string) : total (CCCCore.print_header title).
Proof. unfold CCCCore.print_header. total_auto. Qed.

Lemma total_simple_header (title : string) : total (CCCSimple.header title).
Proof. unfold CCCSimple.header. total_auto. Qed.

Lemma total_find_level_script (level_number : Z) :
  total (CCCCore.find_level_script level_number).
Proof. unfold CCCCore.find_level_script. total_auto. Qed.

Lemma total_run_python_script (E : env) (script_path : path) :
  total (CCCCore.run_python_script E script_path).
Proof. unfold CCCCore.run_python_script. total_auto. Qed.

Lemma total_count_output_files : total CCCCore.count_output_files.
Proof. unfold CCCCore.count_output_files. total_auto. Qed.

Lemma total_simple_run_solution (E : env) (level : Z) :
  total (CCCSimple.run_solution E level).
Proof. unfold CCCSimple.run_solution. total_auto. Qed.

#[local] Hint Resolve total_print_header total_simple_header total_find_level_script
  total_run_python_script total_count_output_files total_simple_run_solution : total.

Lemma yields_ret {A : Type} (v : A) : yields v (ret v).
Proof. intros w. reflexivity. Qed.

Lemma yields_bind {A B : Type} (v : B) (m : M A) (k : A -> M B) :
  total m -> (forall a, yields v (k a)) -> yields v (bind m k).
Proof.
  intros Hm Hk w. destruct (Hm w) as [a Ha]. unfold eval, bind in *.
  destruct (m w) as [[a'|e] w1]; simpl in *; [|discriminate]. apply Hk.
Qed.

Lemma same_outcome_bind {A B : Type} (m : M A) (k1 k2 : A -> M B) :
  (forall v, same_outcome (k1 v) (k2 v)) -> same_outcome (bind m k1) (bind m k2).
Proof.
  intros Hk w. unfold eval, bind. destruct (m w) as [[v|e] w1]; simpl; [apply Hk|reflexivity].
Qed.

Lemma same_outcome_try_except {A : Type} (v : A) (m1 m2 : M A) (h : exn -> M A) :
  same_outcome m1 m2 -> (forall e, yields v (h e)) ->
  same_outcome (try_except m1 h) (try_except m2 h).
Proof.
  intros Hm Hh w. specialize (Hm w). unfold eval, try_except in *.
  destruct (m1 w) as [[v1|e1] u1], (m2 w) as [[v2|e2] u2]; simpl in *;
    try discriminate.
  - exact Hm.
  - injection Hm as ->. etransitivity; [apply Hh|symmetry; apply Hh].
Qed.

Lemma same_outcome_yields {A : Type} (v : A) (m1 m2 : M A) :
  yields v m1 -> yields v m2 -> same_outcome m1 m2.
Proof. intros H1 H2 w. rewrite H1, H2. reflexivity. Qed.

Lemma returns_yields {A : Type} (Q : A -> Prop) (v : A) (m : M A) :
  yields v m -> Q v -> returns Q m.
Proof. intros Hy Hq w v' Hv. rewrite Hy in Hv. injection Hv as <-. exact Hq. Qed.

Lemma simple_template_only_codes (E : env) (level : Z) :
  returns (fun code => code = 0%Z \/ code = 1%Z) (CCCSimple.run_template_only E level).
Proof.
  unfold CCCSimple.run_template_only.
  apply returns_bind. intros _. apply returns_try_except.
  - repeat (apply returns_bind; intros ?).
    repeat (first [apply returns_if | apply returns_bind; intros ?]);
      apply returns_ret; left; reflexivity.
  - intros e. apply returns_bind. intros _. apply returns_ret. right; reflexivity.
Qed.

Lemma simple_run_auto_codes (E : env) (level : Z) :
  returns (fun code => code = 0%Z \/ code = 1%Z) (CCCSimple.run_auto E level).
Proof.
  unfold CCCSimple.run_auto. cbv zeta.
  apply returns_bind. intros _. apply returns_bind. intros [prompt|].
  - repeat (apply returns_bind; intros ?).
    apply returns_if.
    + repeat (apply returns_bind; intros ?). apply returns_ret. left; reflexivity.
    + apply returns_ret. right; reflexivity.
  - apply returns_ret. right; reflexivity.
Qed.

(** X14 (run_template_only).  Template mode never raises and exits with 0
    or 1 only; and its exit status does not depend on the solution at all:
    whatever the child process does - succeed, fail or not start - and
    whether or not the operator asks for the test run, the same status
    comes out.  A failing solution is thus reported as success. *)
Theorem template_mode_exit_status (h : path) (pdf : bool)
    (zip : string -> option (list (path * entry))) (pages : string -> result (list string))
    (child child' : list string -> fs -> result (Z * fs)) (level : Z) (w : world) :
  (exists code,
     eval (CCCSimple.run_template_only (Env h pdf zip pages child) level) w = Ok code /\
     (code = 0%Z \/ code = 1%Z)) /\
  eval (CCCSimple.run_template_only (Env h pdf zip pages child) level) w =
  eval (CCCSimple.run_template_only (Env h pdf zip pages child') level) w.
Proof.
  split.
  - assert (Ht : total (CCCSimple.run_template_only (Env h pdf zip pages child) level)).
    { unfold CCCSimple.run_template_only. total_auto. }
    destruct (Ht w) as [code Hcode]. exists code. split; [exact Hcode|].
    exact (simple_template_only_codes _ _ w code Hcode).
  - revert w.
    change (same_outcome (CCCSimple.run_template_only (Env h pdf zip pages child) level)
                         (CCCSimple.run_template_only (Env h pdf zip pages child') level)).
    unfold CCCSimple.run_template_only.
    apply same_outcome_bind. intros _.
    apply (same_outcome_try_except 1%Z).
    + do 9 (apply same_outcome_bind; intros ?).
      destruct (bool_decide _).
      * apply (same_outcome_yields 0%Z).
        -- apply yields_bind; [auto with total|]. intros [|].
           ++ apply yields_bind; [auto with total|]. intros _. apply yields_ret.
           ++ apply yields_ret.
        -- apply yields_bind; [auto with total|]. intros [|].
           ++ apply yields_bind; [auto with total|]. intros _. apply yields_ret.
           ++ apply yields_ret.
      * intros w. reflexivity.
    + intros e. apply yields_bind; [auto with total|]. intros _. apply yields_ret.
Qed.

Lemma run_simple_run_solution (E : env) (level : Z) (w : world) :
  exists c,
    CCCSimple.run_solution E level w =
    (Ok (solution_outcome E ("level" +:+ str_int level +:+ ".py") (files w)).1,
     World (solution_outcome E ("level" +:+ str_int level +:+ ".py") (files w)).2 c
           (keyboard w)).
Proof.
  unfold CCCSimple.run_solution, solution_outcome. cbv zeta.
  unfold bind at 1. unfold get_files at 1.
  destruct (exists_ (files w) ["level" +:+ str_int level +:+ ".py"]); cbn [negb].
  - unfold bind at 1. unfold CCCSimple.log at 1.
    unfold try_except, bind at 1, subprocess. cbn [files console keyboard].
    destruct (subprocess_run E ["level" +:+ str_int level +:+ ".py"] (files w))
      as [[code t]|e].
    + destruct (code =? 0)%Z; eexists; reflexivity.
    + eexists; reflexivity.
  - eexists; reflexivity.
Qed.

(** X15 (CCCSimple.run_solution).  Running the solution never raises and
    never asks the operator.  It answers [True] exactly when the script
    exists in the working directory and the child process exits with
    status 0; a missing script, a nonzero status and a child that cannot
    be started all give [False].  The files afterwards are those the child
    left, and the files before when no child ran. *)
Theorem simple_run_solution_verdict (E : env) (level : Z) (w : world) :
  let script := "level" +:+ str_int level +:+ ".py" in
  let run := CCCSimple.run_solution E level in
  (exists b, eval run w = Ok b) /\
  keyboard (exec run w) = keyboard w /\
  (eval run w = Ok true <->
   exists_ (files w) [script] = true /\
   exists t, subprocess_run E [script] (files w) = Ok (0%Z, t)) /\
  (forall code t,
     exists_ (files w) [script] = true ->
     subprocess_run E [script] (files w) = Ok (code, t) ->
     files (exec run w) = t) /\
  (exists_ (files w) [script] = false \/
   (exists e, subprocess_run E [script] (files w) = Raise e) ->
   files (exec run w) = files w).
Proof.
  cbv zeta.
  destruct (run_simple_run_solution E level w) as [c Hrun].
  unfold eval, exec. rewrite Hrun. cbn [fst snd files keyboard].
  split; [eexists; reflexivity|]. split; [reflexivity|].
  unfold solution_outcome.
  destruct (exists_ (files w) ["level" +:+ str_int level +:+ ".py"]) eqn:Hex.
  - destruct (subprocess_run E ["level" +:+ str_int level +:+ ".py"] (files w))
      as [[code t]|e] eqn:Hchild; cbn [fst snd].
    + split; [|split].
      * split.
        -- intros [= Hc]. apply Z.eqb_eq in Hc. subst code.
           split; [reflexivity|eexists; reflexivity].
        -- intros [_ [t' [= -> _]]]. reflexivity.
      * intros code' t' _ [= _ <-]. reflexivity.
      * intros [Hf|[e He]]; discriminate.
    + split; [|split].
      * split; [discriminate|]. intros [_ [t' Ht']]. discriminate.
      * intros code t _ Hc. discriminate.
      * intros _. reflexivity.
  - cbn [fst snd]. split; [|split].
    + split; [discriminate|]. intros [Hf _]. discriminate.
    + intros code t Hf. discriminate.
    + intros _. reflexivity.
Qed.

Lemma eval_bind_raise {A B : Type} (m : M A) (k : A -> M B) (w : world) (e : exn) :
  eval m w = Raise e -> eval (bind m k) w = Raise e.
Proof.
  unfold eval, bind. destruct (m w) as [[v|e'] w1]; simpl; [discriminate|].
  intros [= ->]. reflexivity.
Qed.

Lemma eval_bind_total {A B : Type} (m : M A) (k : A -> M B) (w : world) (v : A) :
  eval m w = Ok v -> total (k v) -> exists r, eval (bind m k) w = Ok r.
Proof.
  unfold eval, bind. destruct (m w) as [[v'|e'] w1]; simpl; [|discriminate].
  intros [= ->] Hk. apply Hk.
Qed.

(** X16 (process_level).  The processing step of the archive exits with 0
    or 1 only.  Its exit status depends neither on the [--run-solution]
    flag nor on anything the solution does: with the flag, a missing
    script, a failing or an unstartable solution still lead to the cleanup
    and to the status the run without the flag has.  The constructor runs
    outside the handler: when it raises, the exception escapes; when it
    returns, the step returns a status and never raises. *)
Theorem process_level_exit_status (h : path) (pdf : bool)
    (zip : string -> option (list (path * entry))) (pages : string -> result (list string))
    (child child' : list string -> fs -> result (Z * fs)) (level_number : Z)
    (run_solution run_solution' : bool) (w : world) :
  let step := ProcessLevel.process_level (Env h pdf zip pages child) level_number
                run_solution in
  let step' := ProcessLevel.process_level (Env h pdf zip pages child') level_number
                 run_solution' in
  (forall code, eval step w = Ok code -> code = 0%Z \/ code = 1%Z) /\
  eval step w = eval step' w /\
  (forall e, eval CCCCore.init w = Raise e -> eval step w = Raise e) /\
  (eval CCCCore.init w = Ok tt -> exists code, eval step w = Ok code).
Proof.
  cbv zeta. split; [|split; [|split]].
  - revert w.
    change (returns (fun code => code = 0%Z \/ code = 1%Z)
              (ProcessLevel.process_level (Env h pdf zip pages child) level_number
                 run_solution)).
    unfold ProcessLevel.process_level. cbv zeta.
    do 2 (apply returns_bind; intros ?).
    apply returns_try_except.
    + do 5 (apply returns_bind; intros ?).
      apply returns_if.
      * apply returns_bind. intros _. apply returns_ret. right; reflexivity.
      * repeat (apply returns_bind; intros ?). apply returns_ret. left; reflexivity.
    + intros e. apply returns_bind. intros _. apply returns_ret. right; reflexivity.
  - revert w.
    change (same_outcome
              (ProcessLevel.process_level (Env h pdf zip pages child) level_number
                 run_solution)
              (ProcessLevel.process_level (Env h pdf zip pages child') level_number
                 run_solution')).
    unfold ProcessLevel.process_level. cbv zeta.
    do 2 (apply same_outcome_bind; intros ?).
    apply (same_outcome_try_except 1%Z).
    + do 4 (apply same_outcome_bind; intros ?).
      apply same_outcome_bind; intros extracted.
      destruct (negb extracted).
      * intros w. reflexivity.
      * do 5 (apply same_outcome_bind; intros ?).
        apply (same_outcome_yields 0%Z).
        -- repeat (first [ apply yields_ret
                         | apply yields_bind; [total_auto|intros ?] ]).
        -- repeat (first [ apply yields_ret
                         | apply yields_bind; [total_auto|intros ?] ]).
    + intros e. apply yields_bind; [auto with total|]. intros _. apply yields_ret.
  - intros e He. unfold ProcessLevel.process_level. apply eval_bind_raise, He.
  - intros Hinit. unfold ProcessLevel.process_level.
    apply (eval_bind_total _ _ _ _ Hinit). total_auto.
Qed.

(** ** The loose runner *)

(** X17 (run_level).  When the processing step exits with a nonzero status
    the loose runner returns that status at once: the operator is not
    asked, no solution is run, and the files are those the step left.  The
    runner has no handler of its own: an exception raised while starting
    the step escapes, and so does the end of input at the prompt that
    follows a successful step. *)
Theorem run_level_processing_failure (E : env) (level_number : Z) (w : world)
    (code : Z) (t : fs) :
  code <> 0%Z ->
  let step := ["general/process_level.py"; str_int level_number] in
  (subprocess_run E step (files w) = Ok (code, t) ->
   eval (RunLevel.run_level E level_number) w = Ok code /\
   files (exec (RunLevel.run_level E level_number) w) = t /\
   keyboard (exec (RunLevel.run_level E level_number) w) = keyboard w) /\
  (forall e,
     subprocess_run E step (files w) = Raise e ->
     eval (RunLevel.run_level E level_number) w = Raise e /\
     files (exec (RunLevel.run_level E level_number) w) = files w) /\
  (forall t0,
     subprocess_run E step (files w) = Ok (0%Z, t0) ->
     keyboard w = [] ->
     eval (RunLevel.run_level E level_number) w =
       Raise (Exn EOFError "EOF when reading a line") /\
     files (exec (RunLevel.run_level E level_number) w) = t0).
Proof.
  intros Hcode. cbv zeta.
  assert (Hnz : (code =? 0)%Z = false) by (apply Z.eqb_neq, Hcode).
  split; [|split].
  - intros Hstep. unfold eval, exec, RunLevel.run_level.
    unfold bind, print, subprocess, ret. cbn [files console keyboard].
    rewrite Hstep. cbn [files console keyboard set_files]. rewrite Hnz.
    cbn [negb fst snd files keyboard]. repeat split; reflexivity.
  - intros e Hstep. unfold eval, exec, RunLevel.run_level.
    unfold bind, print, subprocess, ret. cbn [files console keyboard].
    rewrite Hstep. split; reflexivity.
  - intros t0 Hstep Hkb. unfold eval, exec, RunLevel.run_level.
    unfold bind, print, subprocess, input, ret. cbn [files console keyboard].
    rewrite Hstep. cbn [files console keyboard set_files Z.eqb negb].
    rewrite Hkb. split; reflexivity.
Qed.

Lemma run_level_processing_failure_witness :
  eval (RunLevel.run_level failing_step_env 3) contest_world = Ok 2%Z /\
  files (exec (RunLevel.run_level failing_step_env 3) contest_world) = files contest_world /\
  keyboard (exec (RunLevel.run_level failing_step_env 3) contest_world) =
    keyboard contest_world.
Proof.
  destruct (run_level_processing_failure failing_step_env 3 contest_world 2%Z
              (files contest_world)) as [H _].
  - discriminate.
  - apply H. reflexivity.
Defined.

(** ** Generated templates *)

Lemma run_try_template_generation (level_number : Z) (prompt : string) (w : world) :
  let script := ["level" +:+ str_int level_number +:+ ".py"] in
  AIAutomation._try_template_generation level_number prompt w =
  if is_dir (files w) script then
    (Ok false,
     World (files w)
           (console w ++
            [ Log "INFO" "Generating solution template...";
              Log "ERROR" ("Template generation failed: " +:+ exn_msg (eisdir script)) ])
           (keyboard w))
  else
    (Ok true,
     World (<[script := File (AIAutomation._generate_template_code
                                (AIAutomation._analyze_prompt level_number ""))]> (files w))
           (console w ++
            [ Log "INFO" "Generating solution template...";
              Log "SUCCESS" ("Generated solution template: " +:+ str_path script);
              Log "WARNING" "⚠️  Template generated - you may need to implement the solve() function" ])
           (keyboard w)).
Proof.
  cbv zeta. unfold AIAutomation._try_template_generation. cbv zeta.
  unfold try_except. unfold bind at 1. unfold CCCCore.log at 1.
  unfold bind at 1. unfold fs_op, write_text. cbn [files console keyboard].
  destruct (is_dir (files w) ["level" +:+ str_int level_number +:+ ".py"]).
  - unfold bind, CCCCore.log, ret. cbn [files console keyboard].
    rewrite <- app_assoc. reflexivity.
  - cbn [parent removelast is_dir].
    unfold bind, CCCCore.log, ret, set_files. cbn [files console keyboard].
    rewrite <- !app_assoc. reflexivity.
Qed.

(** X18 (_try_template_generation, _generate_template_code, generate_template).
    Template generation overwrites: unless a directory has taken its name,
    the solution file of the level holds the generated template
    afterwards, whatever it held before, and no other path is touched.
    The core strategy never raises - it answers [True], or [False] when a
    directory is in the way - and ignores the prompt it is given: every
    prompt yields the same file.  The single-file implementation raises
    [IsADirectoryError] in that case. *)
Theorem template_generation_overwrites (level : Z) (prompt : string) (w : world) :
  let script := ["level" +:+ str_int level +:+ ".py"] in
  let core := AIAutomation._try_template_generation level prompt in
  let simple := CCCSimple.generate_template level in
  (is_dir (files w) script = false ->
   (eval core w = Ok true /\
    files (exec core w) !! script =
      Some (File (AIAutomation._generate_template_code
                    (AIAutomation._analyze_prompt level ""))) /\
    (forall q, q <> script -> files (exec core w) !! q = files w !! q)) /\
   (eval simple w = Ok tt /\
    files (exec simple w) !! script = Some (File (CCCSimple.template_text level)) /\
    (forall q, q <> script -> files (exec simple w) !! q = files w !! q))) /\
  (is_dir (files w) script = true ->
   eval core w = Ok false /\
   files (exec core w) = files w /\
   simple w = (Raise (eisdir script), w)).
Proof.
  cbv zeta. split.
  - intros Hd. split.
    + unfold eval, exec. pose proof (run_try_template_generation level prompt w) as Hrun.
      cbv zeta in Hrun. rewrite Hrun, Hd. cbn [fst snd files].
      split; [reflexivity|]. split; [apply lookup_insert_eq|].
      intros q Hq. apply lookup_insert_ne. congruence.
    + assert (Hrun : CCCSimple.generate_template level w =
                     (Ok tt,
                      World (<[["level" +:+ str_int level +:+ ".py"] :=
                                 File (CCCSimple.template_text level)]> (files w))
                            (console w ++
                             [ Log "OK" ("Template erstellt: " +:+
                                         ("level" +:+ str_int level +:+ ".py"));
                               Log "WARN" "⚠️  Bitte implementiere die solve() Funktion!" ])
                            (keyboard w))).
      { unfold CCCSimple.generate_template. cbv zeta.
        unfold bind at 1. unfold fs_op, write_text. rewrite Hd.
        cbn [parent removelast is_dir].
        unfold bind, CCCSimple.log, set_files. cbn [files console keyboard].
        rewrite <- app_assoc. reflexivity. }
      unfold eval, exec. rewrite Hrun. cbn [fst snd files].
      split; [reflexivity|]. split; [apply lookup_insert_eq|].
      intros q Hq. apply lookup_insert_ne. congruence.
  - intros Hd. unfold eval, exec.
    pose proof (run_try_template_generation level prompt w) as Hrun.
    cbv zeta in Hrun. rewrite Hrun, Hd. cbn [fst snd files].
    split; [reflexivity|]. split; [reflexivity|].
    unfold CCCSimple.generate_template. cbv zeta.
    unfold bind at 1. unfold fs_op, write_text. rewrite Hd. reflexivity.
Qed.

Lemma template_generation_overwrites_witness :
  files contest_world !! ["level3.py"] = Some (File "solve") /\
  files (exec (AIAutomation._try_template_generation 3 "any prompt") contest_world)
    !! ["level3.py"] =
    Some (File (AIAutomation._generate_template_code (AIAutomation._analyze_prompt 3 ""))) /\
  files (exec (CCCSimple.generate_template 3) contest_world) !! ["level3.py"] =
    Some (File (CCCSimple.template_text 3)).
Proof.
  split; [reflexivity|].
  destruct (template_generation_overwrites 3 "any prompt" contest_world) as [H _].
  destruct H as [(_ & Hcore & _) (_ & Hsimple & _)]; [reflexivity|].
  split; [exact Hcore|exact Hsimple].
Defined.

(** ** The entry point of the single-file implementation *)

Lemma agree_setup_dirs : agree CCCSimple.setup_dirs CCCSimple.setup_dirs.
Proof. unfold CCCSimple.setup_dirs. agree_auto. Qed.

(** X19 (CCCSimple.main, run_auto, run_template_only, run_interactive).
    Whatever the mode, the entry point of the single-file implementation
    exits with 0 or 1 only: an exception that escapes a mode is turned
    into 1.  The constructor runs outside that handler: when creating the
    folders raises, the exception escapes; when it returns, the entry
    point returns a status and never raises. *)
Theorem simple_main_exit_status (E : env) (level : Z) (template auto : bool) (w : world) :
  (forall code, eval (CCCSimple.main E level template auto) w = Ok code ->
                code = 0%Z \/ code = 1%Z) /\
  (forall e, eval CCCSimple.setup_dirs w = Raise e ->
             eval (CCCSimple.main E level template auto) w = Raise e) /\
  (eval CCCSimple.setup_dirs w = Ok tt ->
   exists code, eval (CCCSimple.main E level template auto) w = Ok code).
Proof.
  split; [|split].
  - revert w.
    change (returns (fun code => code = 0%Z \/ code = 1%Z)
              (CCCSimple.main E level template auto)).
    unfold CCCSimple.main.
    do 2 (apply returns_bind; intros ?).
    apply returns_try_except.
    + destruct template; [apply simple_template_only_codes|].
      destruct auto; [apply simple_run_auto_codes|apply simple_run_interactive_codes].
    + intros e. apply returns_bind. intros _. apply returns_ret. right; reflexivity.
  - intros e He. unfold CCCSimple.main.
    assert (Hnotice : exists c,
              (if negb (PDF_AVAILABLE E)
               then print "⚠️  pdfplumber nicht installiert. Installiere mit: pip install pdfplumber"
               else ret tt) w = (Ok tt, World (files w) c (keyboard w))).
    { destruct (negb (PDF_AVAILABLE E)); [eexists; reflexivity|].
      exists (console w). destruct w; reflexivity. }
    destruct Hnotice as [c Hc]. unfold eval at 1. unfold bind at 1. rewrite Hc.
    apply eval_bind_raise.
    destruct (agree_setup_dirs (World (files w) c (keyboard w)) w) as [Heq _];
      [split; reflexivity|].
    rewrite Heq. exact He.
  - intros Hok. unfold CCCSimple.main.
    assert (Hnotice : exists c,
              (if negb (PDF_AVAILABLE E)
               then print "⚠️  pdfplumber nicht installiert. Installiere mit: pip install pdfplumber"
               else ret tt) w = (Ok tt, World (files w) c (keyboard w))).
    { destruct (negb (PDF_AVAILABLE E)); [eexists; reflexivity|].
      exists (console w). destruct w; reflexivity. }
    destruct Hnotice as [c Hc]. unfold eval at 1. unfold bind at 1. rewrite Hc.
    apply (eval_bind_total _ _ _ tt).
    + destruct (agree_setup_dirs (World (files w) c (keyboard w)) w) as [Heq _];
        [split; reflexivity|].
      rewrite Heq. exact Hok.
    + apply total_try_except. intros e. total_auto.
Qed.

(** ** Process-only mode *)

Lemma quiet_create_ai_workflow_file (level_number : Z) :
  quiet (AIAutomation.create_ai_workflow_file level_number).
Proof. unfold AIAutomation.create_ai_workflow_file. quiet_auto. Qed.

#[local] Hint Resolve quiet_create_ai_workflow_file : quiet.

(** X20 (run_process_only).  Process-only mode works offline: it never
    reads from the operator, and it never starts a child process - with
    any two behaviours of the child the mode returns the same value and
    leaves the same world, console included.  It exits with 0 or 1 only,
    unless an exception escapes. *)
Theorem process_only_is_offline (h : path) (pdf : bool)
    (zip : string -> option (list (path * entry))) (pages : string -> result (list string))
    (child child' : list string -> fs -> result (Z * fs)) (level_number : Z) (w : world) :
  let mode := CCCRunner.run_process_only (Env h pdf zip pages child) level_number in
  mode w = CCCRunner.run_process_only (Env h pdf zip pages child') level_number w /\
  keyboard (exec mode w) = keyboard w /\
  (forall code, eval mode w = Ok code -> code = 0%Z \/ code = 1%Z).
Proof.
  cbv zeta. split; [reflexivity|]. split.
  - revert w.
    change (quiet (CCCRunner.run_process_only (Env h pdf zip pages child) level_number)).
    unfold CCCRunner.run_process_only. quiet_auto.
  - revert w.
    change (returns (fun code => code = 0%Z \/ code = 1%Z)
              (CCCRunner.run_process_only (Env h pdf zip pages child) level_number)).
    unfold CCCRunner.run_process_only.
    do 2 (apply returns_bind; intros ?).
    apply returns_if.
    + repeat (apply returns_bind; intros ?). apply returns_ret. left; reflexivity.
    + apply returns_ret. right; reflexivity.
Qed.

(** ** The pipeline, end to end *)

Lemma lookup_unpacked_other (members : list (path * entry)) (t : fs) (q : path) :
  (forall m, m ∈ members -> q <> CCCCore.infos ++ m.1) ->
  unpacked members t !! q = t !! q.
Proof.
  revert t. induction members as [|m members IH]; intros t Hq; [reflexivity|].
  change (unpacked (m :: members) t)
    with (unpacked members (<[CCCCore.infos ++ m.1 := m.2]> t)).
  rewrite IH by (intros m' Hm'; apply Hq; right; exact Hm').
  apply lookup_insert_ne. intros H. apply (Hq m); [left|symmetry; exact H].
Qed.

Lemma lookup_unpacked_member (members : list (path * entry)) (t : fs) (r : path) (e : entry) :
  NoDup members.*1 ->
  (r, e) ∈ members ->
  unpacked members t !! (CCCCore.infos ++ r) = Some e.
Proof.
  revert t. induction members as [|m members IH]; intros t Hnd Hin; [inversion Hin|].
  change (unpacked (m :: members) t)
    with (unpacked members (<[CCCCore.infos ++ m.1 := m.2]> t)).
  rewrite fmap_cons in Hnd. apply NoDup_cons in Hnd as [Hm Hnd].
  apply elem_of_cons in Hin as [<-|Hin].
  - rewrite lookup_unpacked_other; [apply lookup_insert_eq|].
    intros m' Hm' Heq. apply app_inv_head in Heq. apply Hm.
    simpl. rewrite Heq. apply list_elem_of_fmap. exists m'. split; [reflexivity|exact Hm'].
  - apply IH; assumption.
Qed.

Lemma extractall_flat (members : list (path * entry)) (t : fs) :
  Forall (fun m => exists n c, m = ([n], File c)) members ->
  is_dir t CCCCore.infos = true ->
  (forall n, t !! (CCCCore.infos ++ [n]) <> Some Dir) ->
  extractall CCCCore.infos members t = (Ok (unpacked members t), unpacked members t).
Proof.
  intros Hflat. revert t.
  induction Hflat as [|m members (n & c & ->) Hflat IH]; intros t Hd Hnodir; [reflexivity|].
  change (unpacked (([n], File c) :: members) t)
    with (unpacked members (<[CCCCore.infos ++ [n] := File c]> t)).
  cbn [extractall]. unfold extract_member. cbn [fst snd].
  change (parent (CCCCore.infos ++ [n])) with CCCCore.infos.
  assert (He : exists_ t CCCCore.infos = true).
  { unfold is_dir, exists_, CCCCore.infos in *.
    destruct (t !! ["infos"]) as [[?|]|]; congruence. }
  rewrite He. unfold write_text.
  change (parent (CCCCore.infos ++ [n])) with CCCCore.infos.
  assert (Hn : is_dir t (CCCCore.infos ++ [n]) = false).
  { specialize (Hnodir n). unfold is_dir, CCCCore.infos in *. cbn [app] in *.
    destruct (t !! ["infos"; n]) as [[?|]|]; congruence. }
  rewrite Hn, Hd. apply IH.
  - unfold is_dir, CCCCore.infos in *. cbn [app].
    rewrite lookup_insert_ne by discriminate. exact Hd.
  - intros n'. destruct (decide (n' = n)) as [->|Hne].
    + rewrite lookup_insert_eq. discriminate.
    + rewrite lookup_insert_ne; [apply Hnodir|].
      intros H. apply app_inv_head in H. congruence.
Qed.

Lemma total_core_find_pdf_file (E : env) (level_number : Z) :
  total (CCCCore.find_pdf_file E level_number).
Proof. unfold CCCCore.find_pdf_file. total_auto. Qed.

#[local] Hint Resolve total_core_find_pdf_file : total.

Lemma total_pdf_step (E : env) (level_number : Z) :
  total (CCCCore.extract_pdf_text E level_number).
Proof. unfold CCCCore.extract_pdf_text. total_auto. Qed.

Lemma observer_run {A : Type} (m : M A) (w : world) :
  total m -> keeps (fun t => t = files w) m -> quiet m ->
  exists v c, m w = (Ok v, World (files w) c (keyboard w)).
Proof.
  intros Ht Hk Hq. destruct (Ht w) as [v Hv]. specialize (Hk w eq_refl).
  specialize (Hq w). unfold eval, exec in *.
  destruct (m w) as [r [t c k]]. simpl in *. subst. eexists _, _. reflexivity.
Qed.

Lemma lookup_cleared_child (folder : path) (n : string) (t : fs) :
  is_dir t folder = true ->
  t !! (folder ++ [n]) <> Some Dir ->
  cleared folder t !! (folder ++ [n]) = None.
Proof.
  intros Hd Hn. unfold cleared.
  assert (He : exists_ t folder = true).
  { destruct folder as [|a p]; [reflexivity|].
    simpl in *. destruct (t !! (a :: p)) as [[c|]|]; congruence. }
  rewrite He.
  pose proof (sweep_glob_no_file t folder n Hd) as Hf.
  destruct (is_file t (folder ++ [n])) eqn:Hfile.
  - apply lookup_sweep_file; [|exact Hfile].
    apply elem_of_glob. split; [exact Hd|]. split; [apply glob_match_any|].
    unfold is_file in Hfile. destruct (t !! (folder ++ [n])); [eexists; reflexivity|discriminate].
  - rewrite lookup_sweep_not_file by exact Hfile.
    unfold is_file in Hfile. destruct (t !! (folder ++ [n])) as [[c|]|]; congruence.
Qed.

Lemma run_core_create_ai_prompt (level_number : Z) (pdf_text : string) (w : world) :
  is_dir (files w) CCCCore.prompts = true ->
  is_dir (files w) (CCCCore.get_prompt_file_path level_number) = false ->
  CCCCore.create_ai_prompt level_number pdf_text w =
  (Ok (CCCCore.prompt_text level_number pdf_text),
   World (<[CCCCore.get_prompt_file_path level_number :=
              File (CCCCore.prompt_text level_number pdf_text)]> (files w))
         (console w ++
          [Log "SUCCESS" ("AI prompt saved to: " +:+
             str_path (CCCCore.get_prompt_file_path level_number))])
         (keyboard w)).
Proof.
  intros Hdir Hfile.
  unfold CCCCore.create_ai_prompt. cbv zeta. unfold bind at 1. unfold fs_op, write_text.
  rewrite Hfile.
  change (parent (CCCCore.get_prompt_file_path level_number)) with CCCCore.prompts.
  rewrite Hdir. reflexivity.
Qed.

Lemma run_prompt_choice (level_number : Z) (pdf_text : option string) (w : world) :
  is_dir (files w) CCCCore.prompts = true ->
  is_dir (files w) (CCCCore.get_prompt_file_path level_number) = false ->
  exists t2 c,
    (match pdf_text with
     | Some text =>
         if String.eqb text "" then
           CCCCore.log "PDF processing failed - manual prompt needed" "WARNING"
         else
           CCCCore.create_ai_prompt level_number text >> ret tt
     | None =>
         CCCCore.log "PDF processing failed - manual prompt needed" "WARNING"
     end) w = (Ok tt, World t2 c (keyboard w)) /\
    forall q, q <> CCCCore.get_prompt_file_path level_number -> t2 !! q = files w !! q.
Proof.
  intros Hdir Hfile.
  destruct pdf_text as [text|]; [destruct (String.eqb text "")|].
  - eexists _, _. split; [reflexivity|]. reflexivity.
  - unfold bind. rewrite (run_core_create_ai_prompt _ _ _ Hdir Hfile).
    eexists _, _. split; [reflexivity|].
    intros q Hq. cbn [files]. apply lookup_insert_ne. congruence.
  - eexists _, _. split; [reflexivity|]. reflexivity.
Qed.

Lemma find_zip_file_after_clearing (E : env) (level_number : Z) (w : world)
    (c : list output) :
  eval (CCCCore.find_zip_file E level_number)
       (World (cleared CCCCore.outputs (cleared CCCCore.inputs (files w))) c (keyboard w)) =
  eval (CCCCore.find_zip_file E level_number) w.
Proof.
  unfold eval. rewrite !run_find_zip_file. cbv zeta. cbn [files].
  rewrite !exists_after_clearing.
  - destruct (exists_ (files w) _); [reflexivity|].
    destruct (exists_ (files w) _); reflexivity.
  - intros n. simpl. discriminate.
  - intros n. simpl. discriminate.
  - intros n. apply (downloads_not_cleared _ _ _ "Inputs"). discriminate.
  - intros n. apply (downloads_not_cleared _ _ _ "Outputs"). discriminate.
Qed.

Lemma found_zip_is_spared (E : env) (level_number : Z) (w : world) (p : path) :
  eval (CCCCore.find_zip_file E level_number) w = Ok (Some p) ->
  (forall n, p <> CCCCore.inputs ++ [n]) /\ (forall n, p <> CCCCore.outputs ++ [n]).
Proof.
  unfold eval. rewrite run_find_zip_file. cbv zeta.
  destruct (exists_ (files w) _).
  - intros [= <-]. split; intros n.
    + apply (downloads_not_cleared _ _ _ "Inputs"). discriminate.
    + apply (downloads_not_cleared _ _ _ "Outputs"). discriminate.
  - destruct (exists_ (files w) _); [|discriminate].
    intros [= <-]. split; intros n; simpl; discriminate.
Qed.

(** Disequalities between paths that start in different folders. *)
Ltac path_ne :=
  let H := fresh in
  intros H;
  unfold CCCCore.inputs, CCCCore.outputs, CCCCore.infos, CCCCore.prompts,
    CCCCore.get_prompt_file_path in H;
  cbn [app] in H;
  first [discriminate H | congruence].

(** X21 (_run_processing_pipeline).  The pipeline end to end.  In the state
    the constructor sets up - the inputs and outputs folders without
    subdirectories, the staging folder empty - and with a readable archive
    of top-level regular files, the pipeline returns [True] without asking
    the operator, and afterwards every member of the archive is in exactly
    one place: a name ending in [.in] in the inputs folder, a name
    matching [*example*.out] in the outputs folder, any other name in the
    staging folder.  A name that is not in the archive is in none of the
    three folders: what earlier runs left in the inputs and outputs folders
    is gone. *)
Theorem pipeline_stages_archive (E : env) (level_number : Z) (w : world) (p : path)
    (bytes : string) (members : list (path * entry)) :
  fresh_level level_number (files w) ->
  eval (CCCCore.find_zip_file E level_number) w = Ok (Some p) ->
  files w !! p = Some (File bytes) ->
  zip_members E bytes = Some members ->
  flat_archive members ->
  let w' := exec (CCCRunner._run_processing_pipeline E level_number) w in
  eval (CCCRunner._run_processing_pipeline E level_number) w = Ok true /\
  keyboard w' = keyboard w /\
  (forall n e, ([n], e) ∈ members ->
     files w' !! (CCCCore.inputs ++ [n]) =
       (if glob_match "*.in" n then Some e else None) /\
     files w' !! (CCCCore.outputs ++ [n]) =
       (if glob_match "*example*.out" n then Some e else None) /\
     files w' !! (CCCCore.infos ++ [n]) =
       (if glob_match "*.in" n || glob_match "*example*.out" n then None else Some e)) /\
  (forall n, [n] ∉ members.*1 ->
     files w' !! (CCCCore.inputs ++ [n]) = None /\
     files w' !! (CCCCore.outputs ++ [n]) = None /\
     files w' !! (CCCCore.infos ++ [n]) = None).
Proof.
  intros (Hin & Hout & Hinfos & Hprompts & Hnd_in & Hnd_out & Hempty & Hpp)
         Hfind Hp Hzip [Hflat Hnodup].
  cbv zeta.
  destruct (found_zip_is_spared _ _ _ _ Hfind) as [Hp_in Hp_out].
  set (t0 := cleared CCCCore.outputs (cleared CCCCore.inputs (files w))).
  assert (T0 : forall q, (forall n, q <> CCCCore.inputs ++ [n]) ->
                         (forall n, q <> CCCCore.outputs ++ [n]) ->
                         t0 !! q = files w !! q).
  { intros q Hqi Hqo. unfold t0.
    rewrite lookup_cleared_other by exact Hqo. apply lookup_cleared_other, Hqi. }
  assert (T0_in : forall n, t0 !! (CCCCore.inputs ++ [n]) = None).
  { intros n. unfold t0. rewrite lookup_cleared_other by (intros n'; path_ne).
    apply lookup_cleared_child; [exact Hin|apply Hnd_in]. }
  assert (T0_out : forall n, t0 !! (CCCCore.outputs ++ [n]) = None).
  { intros n. unfold t0. apply lookup_cleared_child.
    - unfold is_dir, CCCCore.outputs in *.
      rewrite lookup_cleared_other by (intros n'; path_ne). exact Hout.
    - rewrite lookup_cleared_other by (intros n'; path_ne). apply Hnd_out. }
  set (t1 := unpacked members t0).
  assert (Hnames : forall m, m ∈ members -> exists n c, m = ([n], File c)).
  { apply Forall_forall. exact Hflat. }
  assert (T1 : forall q, (forall n, q <> CCCCore.infos ++ [n]) -> t1 !! q = t0 !! q).
  { intros q Hq. apply lookup_unpacked_other.
    intros m Hm. destruct (Hnames m Hm) as (n & c & ->). apply Hq. }
  assert (T1_member : forall n e, ([n], e) ∈ members ->
                                  t1 !! (CCCCore.infos ++ [n]) = Some e).
  { intros n e Hm. apply lookup_unpacked_member; assumption. }
  assert (T1_other : forall n, [n] ∉ members.*1 -> t1 !! (CCCCore.infos ++ [n]) = None).
  { intros n Hn. unfold t1. rewrite lookup_unpacked_other.
    - rewrite T0 by (intros n'; path_ne). apply Hempty.
    - intros m Hm Heq. apply app_inv_head in Heq. apply Hn.
      rewrite Heq. apply list_elem_of_fmap. exists m. split; [reflexivity|exact Hm]. }
  assert (T1_file : forall n, t1 !! (CCCCore.infos ++ [n]) <> Some Dir).
  { intros n. destruct (decide ([n] ∈ members.*1)) as [Hn|Hn].
    - apply list_elem_of_fmap in Hn as ([r e] & Hr & Hm). simpl in Hr. subst r.
      rewrite (T1_member n e Hm).
      destruct (Hnames _ Hm) as (n' & c & [= _ ->]). discriminate.
    - rewrite (T1_other n Hn). discriminate. }
  (* the run, step by step *)
  assert (Hrun : exists t3 c t2,
            CCCRunner._run_processing_pipeline E level_number w =
              (Ok true, World t3 c (keyboard w)) /\
            classified "*example*.out" t2 t3 /\
            (forall q, q <> CCCCore.get_prompt_file_path level_number ->
                       t2 !! q = t1 !! q)).
  { unfold CCCRunner._run_processing_pipeline.
    unfold bind at 1. unfold CCCCore.log at 1.
    unfold bind at 1.
    match goal with
    | |- context [CCCCore.clear_folder CCCCore.inputs "Inputs" ?w0] =>
        destruct (run_clear_folder CCCCore.inputs "Inputs" w0) as [c1 H1]; rewrite H1
    end.
    unfold bind at 1.
    match goal with
    | |- context [CCCCore.clear_folder CCCCore.outputs "Outputs" ?w0] =>
        destruct (run_clear_folder CCCCore.outputs "Outputs" w0) as [c2 H2]; rewrite H2
    end.
    cbn [files keyboard]. fold t0. unfold bind at 1.
    destruct (run_extract_zip E level_number (World t0 c2 (keyboard w)))
      as (r & Hr & c3 & Hex).
    unfold t0 in Hr. rewrite find_zip_file_after_clearing, Hfind in Hr.
    injection Hr as <-. rewrite Hex. cbn [files keyboard].
    assert (Hext : extraction E p t0 = (true, t1)).
    { unfold extraction. rewrite (T0 p Hp_in Hp_out), Hp, Hzip.
      rewrite extractall_flat; [reflexivity|exact Hflat| |].
      - unfold is_dir, CCCCore.infos in *. rewrite T0 by (intros n; path_ne). exact Hinfos.
      - intros n. rewrite T0 by (intros n'; path_ne). rewrite Hempty. discriminate. }
    rewrite Hext. cbn [fst snd negb].
    unfold bind at 1.
    destruct (observer_run (CCCCore.extract_pdf_text E level_number) (World t1 c3 (keyboard w)))
      as (pdf_text & c4 & Hpdf).
    { apply total_pdf_step. }
    { apply keeps_core_extract_pdf_text. }
    { apply quiet_core_extract_pdf_text. }
    rewrite Hpdf. cbn [files keyboard].
    unfold bind at 1.
    destruct (run_prompt_choice level_number pdf_text (World t1 c4 (keyboard w)))
      as (t2 & c5 & Hchoice & Hframe).
    { cbn [files]. unfold is_dir, CCCCore.prompts in *.
      rewrite T1 by (intros n; path_ne). rewrite T0 by (intros n; path_ne). exact Hprompts. }
    { cbn [files]. unfold is_dir, CCCCore.get_prompt_file_path, CCCCore.prompts in *.
      cbn [app] in *.
      rewrite T1 by (intros n; path_ne). rewrite T0 by (intros n; path_ne).
      destruct (files w !! ["prompts"; _]) as [[?|]|]; congruence. }
    rewrite Hchoice. cbn [files keyboard] in *.
    unfold bind at 1.
    destruct (run_core_organize_files (World t2 c5 (keyboard w))) as (t3 & c6 & Horg & Hcl).
    { cbn [files]. repeat split.
      - unfold is_dir, CCCCore.infos in *. rewrite Hframe by path_ne.
        rewrite T1 by (intros n; path_ne). rewrite T0 by (intros n; path_ne). exact Hinfos.
      - unfold is_dir, CCCCore.inputs in *. rewrite Hframe by path_ne.
        rewrite T1 by (intros n; path_ne). rewrite T0 by (intros n; path_ne). exact Hin.
      - intros n. rewrite Hframe by path_ne. rewrite T1 by (intros n'; path_ne).
        rewrite T0_in. discriminate.
      - intros n _. rewrite Hframe by path_ne. apply T1_file.
      - unfold is_dir, CCCCore.outputs in *. rewrite Hframe by path_ne.
        rewrite T1 by (intros n; path_ne). rewrite T0 by (intros n; path_ne). exact Hout.
      - intros n. rewrite Hframe by path_ne. rewrite T1 by (intros n'; path_ne).
        rewrite T0_out. discriminate.
      - intros n _. rewrite Hframe by path_ne. apply T1_file. }
    rewrite Horg. cbn [files keyboard].
    unfold bind, CCCCore.log, ret. cbn [files console keyboard].
    exists t3. eexists. exists t2. split; [reflexivity|]. split; [exact Hcl|exact Hframe]. }
  destruct Hrun as (t3 & c & t2 & Hrun & (Hmoved_in & Hmoved_out & Hrest) & Hframe).
  unfold eval, exec. rewrite Hrun. cbn [fst snd files keyboard].
  split; [reflexivity|]. split; [reflexivity|].
  assert (Hdir2 : is_dir t2 CCCCore.infos = true).
  { unfold is_dir, CCCCore.infos in *. rewrite Hframe by path_ne.
    rewrite T1 by (intros n; path_ne). rewrite T0 by (intros n; path_ne). exact Hinfos. }
  assert (T2_infos : forall n, t2 !! (CCCCore.infos ++ [n]) = t1 !! (CCCCore.infos ++ [n])).
  { intros n. apply Hframe. path_ne. }
  assert (T2_in : forall n, t2 !! (CCCCore.inputs ++ [n]) = None).
  { intros n. rewrite Hframe by path_ne. rewrite T1 by (intros n'; path_ne). apply T0_in. }
  assert (T2_out : forall n, t2 !! (CCCCore.outputs ++ [n]) = None).
  { intros n. rewrite Hframe by path_ne. rewrite T1 by (intros n'; path_ne). apply T0_out. }
  assert (Hmem : forall pattern n,
            n ∈ glob t2 CCCCore.infos pattern <->
            glob_match pattern n = true /\ is_Some (t1 !! (CCCCore.infos ++ [n]))).
  { intros pattern n. rewrite elem_of_glob, T2_infos. tauto. }
  assert (Hkeep : forall q,
            (forall n, glob_match "*.in" n = true -> is_Some (t1 !! (CCCCore.infos ++ [n])) ->
                       q <> CCCCore.inputs ++ [n] /\ q <> CCCCore.infos ++ [n]) ->
            (forall n, glob_match "*example*.out" n = true ->
                       is_Some (t1 !! (CCCCore.infos ++ [n])) ->
                       q <> CCCCore.outputs ++ [n] /\ q <> CCCCore.infos ++ [n]) ->
            t3 !! q = t2 !! q).
  { intros q H1 H2. apply Hrest.
    - intros n Hn. apply Hmem in Hn as [Hm Hs]. apply H1; assumption.
    - intros n Hn. apply Hmem in Hn as [Hm Hs]. apply H2; assumption. }
  split.
  - intros n e Hm. pose proof (T1_member n e Hm) as Hn.
    assert (Hsome : is_Some (t1 !! (CCCCore.infos ++ [n]))) by (rewrite Hn; eexists; reflexivity).
    destruct (glob_match "*.in" n) eqn:Hmi; destruct (glob_match "*example*.out" n) eqn:Hmo;
      cbn [orb].
    + destruct (in_not_example_out n Hmi Hmo).
    + destruct (Hmoved_in n e) as [Ha Hb];
        [apply Hmem; split; assumption|rewrite T2_infos; exact Hn|].
      split; [exact Ha|]. split; [|exact Hb].
      rewrite Hkeep; [apply T2_out| |].
      * intros n' _ _. split; path_ne.
      * intros n' Hn' _. split; [|path_ne].
        intros Heq. apply app_inv_head in Heq. injection Heq as ->. congruence.
    + destruct (Hmoved_out n e) as [Ha Hb];
        [apply Hmem; split; assumption|rewrite T2_infos; exact Hn|].
      split; [|split; [exact Ha|exact Hb]].
      rewrite Hkeep; [apply T2_in| |].
      * intros n' Hn' _. split; [|path_ne].
        intros Heq. apply app_inv_head in Heq. injection Heq as ->. congruence.
      * intros n' _ _. split; path_ne.
    + split; [|split].
      * rewrite Hkeep; [apply T2_in| |].
        -- intros n' Hn' _. split; [|path_ne].
           intros Heq. apply app_inv_head in Heq. injection Heq as ->. congruence.
        -- intros n' _ _. split; path_ne.
      * rewrite Hkeep; [apply T2_out| |].
        -- intros n' _ _. split; path_ne.
        -- intros n' Hn' _. split; [|path_ne].
           intros Heq. apply app_inv_head in Heq. injection Heq as ->. congruence.
      * rewrite Hkeep; [rewrite T2_infos; exact Hn| |].
        -- intros n' Hn' _. split; [path_ne|].
           intros Heq. apply app_inv_head in Heq. injection Heq as ->. congruence.
        -- intros n' Hn' _. split; [path_ne|].
           intros Heq. apply app_inv_head in Heq. injection Heq as ->. congruence.
  - intros n Hn. pose proof (T1_other n Hn) as Hnone.
    assert (Hno : forall n', is_Some (t1 !! (CCCCore.infos ++ [n'])) -> n' <> n).
    { intros n' [e He] ->. congruence. }
    split; [|split].
    + rewrite Hkeep; [apply T2_in| |].
      * intros n' _ Hs. split; [|path_ne].
        intros Heq. apply app_inv_head in Heq. injection Heq as ->. exact (Hno _ Hs eq_refl).
      * intros n' _ _. split; path_ne.
    + rewrite Hkeep; [apply T2_out| |].
      * intros n' _ _. split; path_ne.
      * intros n' _ Hs. split; [|path_ne].
        intros Heq. apply app_inv_head in Heq. injection Heq as ->. exact (Hno _ Hs eq_refl).
    + rewrite Hkeep; [rewrite T2_infos; exact Hnone| |].
      * intros n' _ Hs. split; [path_ne|].
        intros Heq. apply app_inv_head in Heq. injection Heq as ->. exact (Hno _ Hs eq_refl).
      * intros n' _ Hs. split; [path_ne|].
        intros Heq. apply app_inv_head in Heq. injection Heq as ->. exact (Hno _ Hs eq_refl).
Qed.

Lemma fresh_world_is_fresh : fresh_level 3 (files fresh_world).
Proof.
  unfold fresh_level, fresh_world. repeat split.
  - intros n. settle_lookup.
  - intros n. settle_lookup.
  - intros n. settle_lookup.
  - settle_lookup.
Qed.

Lemma pipeline_stages_archive_witness :
  let w' := exec (CCCRunner._run_processing_pipeline (contest_env 0) 3) fresh_world in
  eval (CCCRunner._run_processing_pipeline (contest_env 0) 3) fresh_world = Ok true /\
  files w' !! ["Inputs"; "level3_1.in"] = Some (File "1 2") /\
  files w' !! ["Outputs"; "level3_1_example.out"] = Some (File "3") /\
  files w' !! ["infos"; "Level 3.pdf"] = Some (File "%PDF") /\
  files w' !! ["Inputs"; "level2_1.in"] = None.
Proof.
  destruct (pipeline_stages_archive (contest_env 0) 3 fresh_world ["level3.zip"] "PK"
              [ (["level3_1.in"], File "1 2"); (["level3_1_example.out"], File "3");
                (["level3_2.in"], File "4 5"); (["Level 3.pdf"], File "%PDF") ])
    as (Hv & _ & Hmember & Hother).
  - apply fresh_world_is_fresh.
  - reflexivity.
  - reflexivity.
  - reflexivity.
  - split.
    + repeat constructor; eexists _, _; reflexivity.
    + simpl. repeat (apply NoDup_cons; split;
                     [intros H; repeat (apply elem_of_cons in H as [H|H]; [discriminate|]);
                      inversion H|]).
      apply NoDup_nil. exact I.
  - cbv zeta. split; [exact Hv|].
    destruct (Hmember "level3_1.in" (File "1 2")) as (H1 & _ & _); [left|].
    destruct (Hmember "level3_1_example.out" (File "3")) as (_ & H2 & _); [right; left|].
    destruct (Hmember "Level 3.pdf" (File "%PDF")) as (_ & _ & H3); [do 3 right; left|].
    destruct (Hother "level2_1.in") as (H4 & _ & _).
    { simpl. intros H. repeat (apply elem_of_cons in H as [H|H]; [discriminate|]).
      inversion H. }
    split; [exact H1|]. split; [exact H2|]. split; [exact H3|exact H4].
Defined.

(** ** How much the operator is asked *)

Lemma reads_quiet {A : Type} (k : nat) (m : M A) : quiet m -> reads_at_most k m.
Proof. intros Hq w. exists []. rewrite Hq. split; [reflexivity|simpl; lia]. Qed.

Lemma reads_input : reads_at_most 1 input.
Proof.
  intros w. unfold exec, input. destruct (keyboard w) as [|k ks] eqn:Hk.
  - exists []. simpl. rewrite Hk. split; [reflexivity|lia].
  - exists [k]. simpl. split; [reflexivity|lia].
Qed.

Lemma reads_weaken {A : Type} (a b : nat) (m : M A) :
  (a <= b)%nat -> reads_at_most a m -> reads_at_most b m.
Proof. intros Hab Hm w. destruct (Hm w) as (used & Hu & Hl). exists used. split; [exact Hu|lia]. Qed.

Lemma reads_bind {A B : Type} (a b : nat) (m : M A) (k : A -> M B) :
  reads_at_most a m -> (forall v, reads_at_most b (k v)) -> reads_at_most (a + b) (bind m k).
Proof.
  intros Hm Hk w. destruct (Hm w) as (u1 & Hu1 & Hl1). unfold exec, bind in *.
  destruct (m w) as [[v|e] w1]; simpl in *.
  - destruct (Hk v w1) as (u2 & Hu2 & Hl2). exists (u1 ++ u2).
    split; [|rewrite length_app; lia].
    rewrite Hu1, Hu2. unfold exec. rewrite app_assoc. reflexivity.
  - exists u1. split; [exact Hu1|lia].
Qed.

Lemma reads_try_except {A : Type} (a b : nat) (m : M A) (h : exn -> M A) :
  reads_at_most a m -> (forall e, reads_at_most b (h e)) ->
  reads_at_most (a + b) (try_except m h).
Proof.
  intros Hm Hh w. destruct (Hm w) as (u1 & Hu1 & Hl1). unfold exec, try_except in *.
  destruct (m w) as [[v|e] w1]; simpl in *.
  - exists u1. split; [exact Hu1|lia].
  - destruct (Hh e w1) as (u2 & Hu2 & Hl2). exists (u1 ++ u2).
    split; [|rewrite length_app; lia].
    rewrite Hu1, Hu2. unfold exec. rewrite app_assoc. reflexivity.
Qed.

(** A quiet step before a computation does not add to what it reads. *)
Lemma reads_after_quiet {A B : Type} (b : nat) (m : M A) (k : A -> M B) :
  quiet m -> (forall v, reads_at_most b (k v)) -> reads_at_most b (bind m k).
Proof. intros Hm Hk. apply (reads_bind 0 b); [apply reads_quiet, Hm|exact Hk]. Qed.

Lemma reads_then_quiet {A B : Type} (a : nat) (m : M A) (k : A -> M B) :
  reads_at_most a m -> (forall v, quiet (k v)) -> reads_at_most a (bind m k).
Proof.
  intros Hm Hk. apply (reads_weaken (a + 0)); [lia|].
  apply reads_bind; [exact Hm|]. intros v. apply reads_quiet, Hk.
Qed.

Lemma quiet_find_level_script (level_number : Z) :
  quiet (CCCCore.find_level_script level_number).
Proof. unfold CCCCore.find_level_script. quiet_auto. Qed.

Lemma quiet_count_output_files : quiet CCCCore.count_output_files.
Proof. unfold CCCCore.count_output_files. quiet_auto. Qed.

#[local] Hint Resolve quiet_find_level_script quiet_count_output_files : quiet.

Lemma quiet_runner_run_solution (E : env) (level_number : Z) :
  quiet (CCCRunner._run_solution E level_number).
Proof. unfold CCCRunner._run_solution, CCCCore.print_separator. quiet_auto. Qed.

Lemma quiet_archive_pipeline (E : env) (level_number : Z) :
  quiet (ArchiveRunLevel.run_processing_pipeline E level_number).
Proof. unfold ArchiveRunLevel.run_processing_pipeline. quiet_auto. Qed.

Lemma quiet_archive_run_solution (E : env) (level_number : Z) :
  quiet (ArchiveRunLevel.run_solution E level_number).
Proof. unfold ArchiveRunLevel.run_solution, CCCCore.print_separator. quiet_auto. Qed.

Lemma quiet_try_template_generation (level_number : Z) (prompt : string) :
  quiet (AIAutomation._try_template_generation level_number prompt).
Proof. unfold AIAutomation._try_template_generation. quiet_auto. Qed.

Lemma quiet_simple_header (title : string) : quiet (CCCSimple.header title).
Proof. unfold CCCSimple.header. quiet_auto. Qed.

Lemma quiet_simple_create_ai_workflow (level : Z) : quiet (CCCSimple.create_ai_workflow level).
Proof. unfold CCCSimple.create_ai_workflow. quiet_auto. Qed.

#[local] Hint Resolve quiet_runner_run_solution quiet_archive_pipeline
  quiet_archive_run_solution quiet_try_template_generation quiet_simple_header
  quiet_simple_create_ai_workflow : quiet.

(** One step of a proof that a computation reads at most one line. *)
Ltac reads_step :=
  first
    [ apply reads_input
    | apply reads_quiet; solve [quiet_auto]
    | apply reads_after_quiet; [solve [quiet_auto]|intros ?]
    | apply reads_then_quiet; [apply reads_input|intros ?; solve [quiet_auto]]
    | match goal with
      | |- reads_at_most _ (if ?b then _ else _) => destruct b
      | |- reads_at_most _ (match ?x with _ => _ end) => destruct x
      end ].

(** X22 (run_interactive, run_template_generation, run_auto,
    run_template_only, run_level, run_level_interactive).  Every
    interactive mode of the three runners reads at most one line from the
    operator, however it ends: of the input that is pending, all but
    possibly the first line is still pending afterwards. *)
Theorem modes_read_one_line (E : env) (level_number : Z) :
  reads_at_most 1 (CCCRunner.run_interactive E level_number) /\
  reads_at_most 1 (CCCRunner.run_template_generation E level_number) /\
  reads_at_most 1 (CCCSimple.run_interactive E level_number) /\
  reads_at_most 1 (CCCSimple.run_auto E level_number) /\
  reads_at_most 1 (CCCSimple.run_template_only E level_number) /\
  reads_at_most 1 (RunLevel.run_level E level_number) /\
  reads_at_most 1 (ArchiveRunLevel.run_level_interactive E level_number).
Proof.
  repeat split.
  - unfold CCCRunner.run_interactive. repeat reads_step.
  - unfold CCCRunner.run_template_generation. repeat reads_step.
  - unfold CCCSimple.run_interactive. repeat reads_step.
  - unfold CCCSimple.run_auto. cbv zeta. repeat reads_step.
  - unfold CCCSimple.run_template_only.
    apply reads_after_quiet; [quiet_auto|intros _].
    apply (reads_try_except 1 0); [|intros e; apply reads_quiet; quiet_auto].
    repeat reads_step.
  - unfold RunLevel.run_level. cbv zeta. repeat reads_step.
  - unfold ArchiveRunLevel.run_level_interactive. repeat reads_step.
Qed.

(** * The exit status and the prompt, from the start of a run to its end *)

(** ** The child's exit status, across the variants *)

(** Running a sequence step by step. *)
Lemma bind_ok {A B : Type} (m : M A) (k : A -> M B) (w u : world) (b : B) :
  bind m k w = (Ok b, u) -> exists v w1, m w = (Ok v, w1) /\ k v w1 = (Ok b, u).
Proof.
  unfold bind. destruct (m w) as [[v|e] w1]; [|discriminate].
  intros H. exists v, w1. split; [reflexivity|exact H].
Qed.

Lemma bind_step {A B : Type} (m : M A) (k : A -> M B) (w w1 : world) (v : A) :
  m w = (Ok v, w1) -> bind m k w = k v w1.
Proof. intros H. unfold bind. rewrite H. reflexivity. Qed.

Lemma bind_core_log {B : Type} (message level : string) (k : unit -> M B) (w : world) :
  bind (CCCCore.log message level) k w =
  k tt (World (files w) (console w ++ [Log level message]) (keyboard w)).
Proof. reflexivity. Qed.

Lemma bind_simple_log {B : Type} (msg typ : string) (k : unit -> M B) (w : world) :
  bind (CCCSimple.log msg typ) k w =
  k tt (World (files w) (console w ++ [Log typ msg]) (keyboard w)).
Proof. reflexivity. Qed.

Lemma bind_print {B : Type} (text : string) (k : unit -> M B) (w : world) :
  bind (print text) k w =
  k tt (World (files w) (console w ++ [Printed text]) (keyboard w)).
Proof. reflexivity. Qed.

Lemma bind_print_header {B : Type} (title : string) (k : unit -> M B) (w : world) :
  bind (CCCCore.print_header title) k w =
  k tt (World (files w)
              (((console w ++ [Printed (nl +:+ str_repeat "=" 60)]) ++ [Printed title]) ++
               [Printed (str_repeat "=" 60)])
              (keyboard w)).
Proof. reflexivity. Qed.

Lemma bind_simple_header {B : Type} (title : string) (k : unit -> M B) (w : world) :
  bind (CCCSimple.header title) k w =
  k tt (World (files w)
              (console w ++
               [Printed (nl +:+ str_repeat "=" 60 +:+ nl +:+ title +:+ nl +:+
                         str_repeat "=" 60)])
              (keyboard w)).
Proof. reflexivity. Qed.

Lemma bind_input {B : Type} (k : string -> M B) (w : world) (answer : turn)
    (rest : list turn) :
  keyboard w = answer :: rest ->
  bind input k w =
  k (typed answer)
    (World (foldl (fun t pc => <[pc.1 := File pc.2]> t) (files w) (saved answer))
           (console w) rest).
Proof. intros H. unfold bind, input. rewrite H. reflexivity. Qed.

Lemma bind_ret {A B : Type} (v : A) (k : A -> M B) (w : world) : bind (ret v) k w = k v w.
Proof. reflexivity. Qed.

Lemma bind_assoc {A B C : Type} (m : M A) (f : A -> M B) (g : B -> M C) (w : world) :
  bind (bind m f) g w = bind m (fun x => bind (f x) g) w.
Proof. unfold bind. destruct (m w) as [[v|e] w1]; reflexivity. Qed.

(** What one computation does in a world, a computation that [agree]s with
    it does in every world that is alike. *)
Lemma agree_run {A : Type} (m1 m2 : M A) (w1 w2 u1 : world) (r : result A) :
  agree m1 m2 -> alike w1 w2 -> m1 w1 = (r, u1) ->
  exists u2, m2 w2 = (r, u2) /\ alike u1 u2.
Proof.
  intros Hm Hw H. destruct (Hm w1 w2 Hw) as [He Ha].
  unfold eval, exec in *. rewrite H in *. destruct (m2 w2) as [r2 u2]. simpl in *.
  subst. eauto.
Qed.

Ltac alike_solve :=
  unfold alike in *; cbn [files keyboard] in *; intuition congruence.

Lemma agree_simple_staging (E : env) (level : Z) :
  agree (CCCSimple.extract_zip E level >>
         let* pdf_text := CCCSimple.extract_pdf_text E level in
         CCCSimple.create_ai_prompt level pdf_text >>
         CCCSimple.organize_files)
        (CCCSimple.extract_zip E level >>
         let* pdf_text := CCCSimple.extract_pdf_text E level in
         CCCSimple.create_ai_prompt level pdf_text >>
         CCCSimple.organize_files).
Proof.
  unfold CCCSimple.extract_zip, CCCSimple.find_zip, CCCSimple.extract_pdf_text,
    CCCSimple.find_pdf, CCCSimple.create_ai_prompt, CCCSimple.organize_files.
  cbv zeta. agree_auto.
Qed.

Lemma agree_simple_create_ai_workflow (level : Z) :
  agree (CCCSimple.create_ai_workflow level) (CCCSimple.create_ai_workflow level).
Proof. unfold CCCSimple.create_ai_workflow. cbv zeta. agree_auto. Qed.

(** The processing steps of [CCCSimple.run_interactive], inside its
    handler, when they succeed. *)
Lemma simple_processing_run (E : env) (level : Z) (w wa w' : world) :
  (CCCSimple.extract_zip E level >>
   let* pdf_text := CCCSimple.extract_pdf_text E level in
   CCCSimple.create_ai_prompt level pdf_text >>
   CCCSimple.organize_files) w = (Ok tt, wa) ->
  alike w w' ->
  exists wa',
    try_except
      (CCCSimple.extract_zip E level >>
       let* pdf_text := CCCSimple.extract_pdf_text E level in
       CCCSimple.create_ai_prompt level pdf_text >>
       CCCSimple.organize_files >>
       ret true)
      (fun e =>
         CCCSimple.log ("Verarbeitung fehlgeschlagen: " +:+ exn_msg e) "ERROR" >>
         ret false) w' = (Ok true, wa') /\
    alike wa wa'.
Proof.
  intros Hstage Hw.
  destruct (agree_run _ _ _ _ _ _ (agree_simple_staging E level) Hw Hstage)
    as (wa' & Hstage' & Ha).
  exists wa'. split; [|exact Ha].
  apply bind_ok in Hstage' as ([] & u1 & H1 & Hstage').
  apply bind_ok in Hstage' as (text & u2 & H2 & Hstage').
  apply bind_ok in Hstage' as (prompt & u3 & H3 & H4).
  unfold try_except.
  rewrite (bind_step _ _ _ _ _ H1), (bind_step _ _ _ _ _ H2), (bind_step _ _ _ _ _ H3),
    (bind_step _ _ _ _ _ H4).
  reflexivity.
Qed.

(** [CCCSimple.run_interactive] when the processing steps and the pause
    succeed and the solution does not: the value is 1, the files are those
    the solution step left. *)
Lemma simple_run_interactive_failure (E : env) (level : Z) (w0 wa wb : world)
    (workflow_file : string) (k : turn) (ks : list turn) (t : fs) :
  (CCCSimple.extract_zip E level >>
   let* pdf_text := CCCSimple.extract_pdf_text E level in
   CCCSimple.create_ai_prompt level pdf_text >>
   CCCSimple.organize_files) w0 = (Ok tt, wa) ->
  CCCSimple.create_ai_workflow level wa = (Ok workflow_file, wb) ->
  keyboard wb = k :: ks ->
  solution_outcome E ("level" +:+ str_int level +:+ ".py")
    (foldl (fun t pc => <[pc.1 := File pc.2]> t) (files wb) (saved k)) = (false, t) ->
  eval (CCCSimple.run_interactive E level) w0 = Ok 1%Z /\
  files (exec (CCCSimple.run_interactive E level) w0) = t /\
  keyboard (exec (CCCSimple.run_interactive E level) w0) = ks.
Proof.
  intros Hstage Hflow Hkb Hout.
  unfold eval, exec, CCCSimple.run_interactive.
  rewrite bind_simple_header. cbv beta.
  match goal with
  | |- context [bind (try_except _ _) _ ?w] =>
      pose proof (simple_processing_run E level w0 wa w Hstage (conj eq_refl eq_refl))
        as Hbody
  end.
  destruct Hbody as (wa' & Hbody & Ha).
  rewrite (bind_step _ _ _ _ _ Hbody). cbv beta. cbn [negb].
  destruct (agree_run _ _ _ _ _ _ (agree_simple_create_ai_workflow level) Ha Hflow)
    as (wb' & Hflow' & Hb).
  rewrite (bind_step _ _ _ _ _ Hflow'). cbv beta.
  rewrite bind_simple_header. cbv beta. repeat (rewrite bind_print; cbv beta).
  destruct Hb as [Hbf Hbk].
  rewrite (bind_input _ _ k ks) by (cbn [keyboard]; congruence).
  cbv beta. cbn [files console keyboard]. rewrite <- Hbf.
  match goal with
  | |- context [bind (CCCSimple.run_solution E level) _ ?w] =>
      pose proof (run_simple_run_solution E level w) as Hrun
  end.
  destruct Hrun as [c Hrun].
  cbn [files keyboard] in Hrun. rewrite Hout in Hrun. cbn [fst snd] in Hrun.
  rewrite (bind_step _ _ _ _ _ Hrun). repeat split.
Qed.

(** The prompt stage of [process_level.py] and that of the runner's
    pipeline differ in what they print only. *)
Lemma agree_prompt_stage (level_number : Z) (pdf_text : option string) :
  agree
    (match pdf_text with
     | Some text =>
         if String.eqb text "" then
           CCCCore.log "PDF processing failed - manual prompt needed" "WARNING"
         else
           CCCCore.create_ai_prompt level_number text >> ret tt
     | None =>
         CCCCore.log "PDF processing failed - manual prompt needed" "WARNING"
     end)
    (match pdf_text with
     | Some text =>
         if String.eqb text "" then
           CCCCore.log "Could not extract PDF text - manual prompt creation needed" "WARNING"
         else
           let* prompt := CCCCore.create_ai_prompt level_number text in
           CCCCore.print_header ("AI PROMPT FOR LEVEL " +:+ str_int level_number) >>
           print prompt >>
           CCCCore.print_separator
     | None =>
         CCCCore.log "Could not extract PDF text - manual prompt creation needed" "WARNING"
     end).
Proof.
  destruct pdf_text as [text|]; [destruct (String.eqb text "")|]; try solve [agree_auto].
  apply agree_bind; [auto with agree|intros prompt].
  intros w1 w2 Hw. split; [reflexivity|]. exact Hw.
Qed.

Ltac follow H Hag name :=
  match type of Hag with
  | agree ?m1 ?m2 =>
      match goal with
      | HP : context [bind m2 _ ?wg] |- _ =>
          match type of H with
          | m1 ?wh = _ =>
              let Ha := fresh "Ha" in
              assert (Ha : alike wh wg) by alike_solve;
              pose proof (agree_run _ _ _ _ _ _ Hag Ha H) as name; clear Ha
          end
      end
  end.

(** [process_level.py --run-solution] when staging succeeds and the
    solution exits with a nonzero status: the failure is logged, the
    staging folder is cleaned all the same, and the step returns 0. *)
Lemma process_level_after_failure (E : env) (level_number : Z) (w0 w : world)
    (p : path) (code : Z) (t : fs) :
  code <> 0%Z ->
  (CCCCore.init >> CCCRunner._run_processing_pipeline E level_number) w0 = (Ok true, w) ->
  eval (CCCCore.find_level_script level_number) w = Ok (Some p) ->
  subprocess_run E [str_path p] (files w) = Ok (code, t) ->
  eval (ProcessLevel.process_level E level_number true) w0 = Ok 0%Z /\
  files (exec (ProcessLevel.process_level E level_number true) w0) =
    sweep CCCCore.infos (glob t CCCCore.infos "*") t /\
  keyboard (exec (ProcessLevel.process_level E level_number true) w0) = keyboard w /\
  Log "ERROR" ("Solution failed with exit code " +:+ str_int code)
    ∈ console (exec (ProcessLevel.process_level E level_number true) w0).
Proof.
  intros Hcode Hstage Hfind Hchild.
  assert (Hnz : (code =? 0)%Z = false) by (apply Z.eqb_neq, Hcode).
  apply bind_ok in Hstage as ([] & wa & Hinit & Hstage).
  unfold CCCRunner._run_processing_pipeline in Hstage.
  rewrite bind_core_log in Hstage. cbv beta in Hstage.
  apply bind_ok in Hstage as ([] & u1 & Hc1 & Hstage).
  apply bind_ok in Hstage as ([] & u2 & Hc2 & Hstage).
  apply bind_ok in Hstage as (extracted & u3 & Hx & Hstage).
  destruct extracted; cbn [negb] in Hstage; [|discriminate].
  apply bind_ok in Hstage as (pdf_text & u4 & Hpdf & Hstage).
  apply bind_ok in Hstage as ([] & u5 & Hchoice & Hstage).
  apply bind_ok in Hstage as (counts & u6 & Horg & Hstage).
  rewrite bind_core_log in Hstage. cbv beta in Hstage. unfold ret in Hstage.
  injection Hstage as <-. cbn [files] in Hfind, Hchild. cbn [keyboard].
  unfold eval, exec.
  destruct (ProcessLevel.process_level E level_number true w0) as [r wf] eqn:HP.
  unfold ProcessLevel.process_level in HP. cbv zeta in HP.
  rewrite (bind_step _ _ _ _ _ Hinit) in HP. cbv beta in HP.
  rewrite bind_print_header in HP. cbv beta in HP.
  unfold try_except in HP.
  rewrite bind_core_log in HP. cbv beta in HP.
  follow Hc1 (agree_clear_folder CCCCore.inputs "Inputs") Hc1'.
  destruct Hc1' as (v1 & Hc1' & Ha1).
  rewrite (bind_step _ _ _ _ _ Hc1') in HP. cbv beta in HP.
  follow Hc2 (agree_clear_folder CCCCore.outputs "Outputs") Hc2'.
  destruct Hc2' as (v2 & Hc2' & Ha2).
  rewrite (bind_step _ _ _ _ _ Hc2') in HP. cbv beta in HP.
  rewrite bind_core_log in HP. cbv beta in HP.
  follow Hx (agree_core_extract_zip E level_number) Hx'.
  destruct Hx' as (v3 & Hx' & Ha3).
  rewrite (bind_step _ _ _ _ _ Hx') in HP. cbv beta in HP. cbn [negb] in HP.
  rewrite bind_core_log in HP. cbv beta in HP.
  follow Hpdf (agree_core_extract_pdf_text E level_number) Hpdf'.
  destruct Hpdf' as (v4 & Hpdf' & Ha4).
  rewrite (bind_step _ _ _ _ _ Hpdf') in HP. cbv beta in HP.
  follow Hchoice (agree_prompt_stage level_number pdf_text) Hchoice'.
  destruct Hchoice' as (v5 & Hchoice' & Ha5).
  rewrite (bind_step _ _ _ _ _ Hchoice') in HP. cbv beta in HP.
  rewrite bind_core_log in HP. cbv beta in HP.
  follow Horg agree_core_organize_files Horg'.
  destruct Horg' as (v6 & Horg' & Ha6).
  rewrite (bind_step _ _ _ _ _ Horg') in HP. cbv beta in HP.
  destruct Ha6 as [Hf6 Hk6].
  rewrite bind_assoc in HP. rewrite bind_core_log in HP. cbv beta in HP.
  rewrite bind_assoc in HP.
  match type of HP with
  | context [bind (CCCCore.find_level_script level_number) _ ?wg] =>
      rewrite (bind_step _ _ _ _ _
                 (find_level_script_found level_number _ wg p Hfind (eq_sym Hf6))) in HP
  end.
  cbv beta iota in HP. rewrite bind_assoc in HP.
  match type of HP with
  | context [bind (CCCCore.run_python_script E p) _ ?wg] =>
      assert (Hrun : CCCCore.run_python_script E p wg = (Ok code, set_files t wg))
        by (apply run_python_script_exited; cbn [files]; rewrite <- Hf6; exact Hchild)
  end.
  rewrite (bind_step _ _ _ _ _ Hrun) in HP. cbv beta in HP. rewrite Hnz in HP.
  unfold set_files in HP. cbn [files console keyboard] in HP.
  do 2 (rewrite bind_core_log in HP; cbv beta in HP).
  unfold bind at 1 in HP. rewrite run_cleanup_infos in HP.
  cbn [files console keyboard] in HP.
  rewrite bind_print_header in HP. cbv beta in HP.
  do 2 (rewrite bind_core_log in HP; cbv beta in HP).
  cbn [files console keyboard] in HP.
  assert (Hlast : forall (b : bool) (wg : world),
            ((if b
              then CCCCore.log ("AI prompt saved to: " +:+
                     str_path (CCCCore.get_prompt_file_path level_number)) "INFO"
              else ret tt) >>
             CCCCore.log "Ready for solution development!" "INFO" >> ret 0%Z) wg =
            (Ok 0%Z,
             World (files wg)
                   ((console wg ++
                     (if b
                      then [Log "INFO" ("AI prompt saved to: " +:+
                              str_path (CCCCore.get_prompt_file_path level_number))]
                      else [])) ++
                    [Log "INFO" "Ready for solution development!"])
                   (keyboard wg))).
  { intros [] [tg cg kg]; [reflexivity|].
    unfold bind, ret, CCCCore.log. cbn [files console keyboard].
    rewrite app_nil_r. reflexivity. }
  rewrite Hlast in HP. cbn [files console keyboard] in HP.
  injection HP as <- <-. cbn [fst snd files console keyboard].
  split; [reflexivity|]. split; [reflexivity|]. split; [symmetry; exact Hk6|].
  rewrite !elem_of_app, !elem_of_cons. tauto.
Qed.

Lemma agree_runner_pipeline (E : env) (level_number : Z) :
  agree (CCCRunner._run_processing_pipeline E level_number)
        (CCCRunner._run_processing_pipeline E level_number).
Proof.
  unfold CCCRunner._run_processing_pipeline.
  do 4 (apply agree_bind; [auto with agree|intros ?]).
  destruct v2; cbn [negb]; [|apply agree_ret].
  apply agree_bind; [auto with agree|intros pdf_text].
  apply agree_bind.
  - destruct pdf_text as [text|]; [destruct (String.eqb text "")|]; agree_auto.
  - intros _. agree_auto.
Qed.

Lemma agree_create_ai_workflow_file (level_number : Z) :
  agree (AIAutomation.create_ai_workflow_file level_number)
        (AIAutomation.create_ai_workflow_file level_number).
Proof. unfold AIAutomation.create_ai_workflow_file. cbv zeta. agree_auto. Qed.

(** [_run_solution] when the script is found and exits with a nonzero
    status: that status is returned, the files are those the child left. *)
Lemma runner_solution_failure (E : env) (level_number : Z) (w : world) (p : path)
    (code : Z) (t : fs) :
  code <> 0%Z ->
  eval (CCCCore.find_level_script level_number) w = Ok (Some p) ->
  subprocess_run E [str_path p] (files w) = Ok (code, t) ->
  exists c, CCCRunner._run_solution E level_number w = (Ok code, World t c (keyboard w)).
Proof.
  intros Hcode Hp Hchild.
  assert (Hnz : (code =? 0)%Z = false) by (apply Z.eqb_neq, Hcode).
  unfold CCCRunner._run_solution, CCCCore.print_separator.
  rewrite bind_print. cbv beta. rewrite bind_core_log. cbv beta.
  match goal with
  | |- context [bind (CCCCore.find_level_script level_number) _ ?wg] =>
      rewrite (bind_step _ _ _ _ _
                 (find_level_script_found level_number w wg p Hp eq_refl))
  end.
  cbv beta iota.
  match goal with
  | |- context [bind (CCCCore.run_python_script E p) _ ?wg] =>
      rewrite (bind_step _ _ _ _ _ (run_python_script_exited E p wg code t Hchild))
  end.
  cbv beta. rewrite Hnz. cbn [negb]. eexists. reflexivity.
Qed.

(** [CCCRunner.run_interactive] when the pipeline and the pause succeed
    and the solution exits with a nonzero status. *)
Lemma runner_run_interactive_failure (E : env) (level_number : Z) (w0 wa wb w : world)
    (workflow_file : path) (k : turn) (ks : list turn) (p : path) (code : Z) (t : fs) :
  code <> 0%Z ->
  CCCRunner._run_processing_pipeline E level_number w0 = (Ok true, wa) ->
  AIAutomation.create_ai_workflow_file level_number wa = (Ok workflow_file, wb) ->
  keyboard wb = k :: ks ->
  foldl (fun t pc => <[pc.1 := File pc.2]> t) (files wb) (saved k) = files w ->
  eval (CCCCore.find_level_script level_number) w = Ok (Some p) ->
  subprocess_run E [str_path p] (files w) = Ok (code, t) ->
  eval (CCCRunner.run_interactive E level_number) w0 = Ok code /\
  files (exec (CCCRunner.run_interactive E level_number) w0) = t /\
  keyboard (exec (CCCRunner.run_interactive E level_number) w0) = ks.
Proof.
  intros Hcode Hstage Hflow Hkb Hfiles Hp Hchild.
  unfold eval at 1, exec. 
  destruct (CCCRunner.run_interactive E level_number w0) as [r wf] eqn:HP.
  unfold CCCRunner.run_interactive in HP. cbv zeta in HP.
  rewrite bind_print_header in HP. cbv beta in HP.
  follow Hstage (agree_runner_pipeline E level_number) Hstage'.
  destruct Hstage' as (wa' & Hstage' & Ha).
  rewrite (bind_step _ _ _ _ _ Hstage') in HP. cbv beta in HP. cbn [negb] in HP.
  follow Hflow (agree_create_ai_workflow_file level_number) Hflow'.
  destruct Hflow' as (wb' & Hflow' & [Hbf Hbk]).
  rewrite (bind_step _ _ _ _ _ Hflow') in HP. cbv beta in HP.
  rewrite bind_print_header in HP. cbv beta in HP.
  do 4 (rewrite bind_core_log in HP; cbv beta in HP).
  rewrite bind_print in HP. cbv beta in HP.
  rewrite (bind_input _ _ k ks) in HP by (cbn [keyboard]; congruence).
  cbv beta in HP. cbn [files console keyboard] in HP.
  rewrite <- Hbf, Hfiles in HP.
  match type of HP with
  | CCCRunner._run_solution E level_number ?wg = _ =>
      destruct (runner_solution_failure E level_number wg p code t Hcode) as [c Hrun];
        [unfold eval;
         rewrite (find_level_script_found level_number w wg p Hp eq_refl); reflexivity
        | exact Hchild |]
  end.
  rewrite Hrun in HP. injection HP as <- <-. repeat split.
Qed.

(** C1, as the code has it.  The solution script is run in the world [w],
    and the child exits with the nonzero status [code], leaving the files
    [t].  The variants then part ways.
    - [CCCRunner._run_solution], its copy in [archive/run_level.py], the
      interactive mode of [ccc_runner.py] that ends with it, and
      [run_level.py] return [code] unchanged and leave the files [t]: no
      cleanup takes place.
    - [ccc_simple.py] loses the status: [CCCSimple.run_solution] answers
      [False], and [run_interactive], which can only return 0 or 1,
      returns 1; the files are again [t], without cleanup.
    - [process_level.py --run-solution] neither returns the status nor
      skips the cleanup: it logs the failure, removes the regular files of
      the staging folder from [t], and returns 0.
    For a mode run from its start in a world [w0], the hypotheses say how
    [w0] leads to [w]: the processing steps return, the workflow guide is
    written, the operator saves files and presses ENTER.  The staging
    steps of [process_level.py] are those of the constructor followed by
    the runner's pipeline, up to what is printed; its hypothesis names the
    world in which it runs the solution that way. *)
Theorem nonzero_exit_status (E : env) (level_number : Z) (w : world)
    (code : Z) (t : fs) :
  code <> 0%Z ->
  let script := "level" +:+ str_int level_number +:+ ".py" in
  (forall p,
     eval (CCCCore.find_level_script level_number) w = Ok (Some p) ->
     subprocess_run E [str_path p] (files w) = Ok (code, t) ->
     eval (CCCRunner._run_solution E level_number) w = Ok code /\
     files (exec (CCCRunner._run_solution E level_number) w) = t /\
     eval (ArchiveRunLevel.run_solution E level_number) w = Ok code /\
     files (exec (ArchiveRunLevel.run_solution E level_number) w) = t) /\
  (exists_ (files w) [script] = true ->
   subprocess_run E [script] (files w) = Ok (code, t) ->
   eval (CCCSimple.run_solution E level_number) w = Ok false /\
   files (exec (CCCSimple.run_solution E level_number) w) = t) /\
  (forall w0 r,
     eval (CCCSimple.run_interactive E level_number) w0 = Ok r -> r = 0%Z \/ r = 1%Z) /\
  (forall w0 k ks t1,
     subprocess_run E ["general/process_level.py"; str_int level_number] (files w0)
       = Ok (0%Z, t1) ->
     keyboard w0 = k :: ks ->
     foldl (fun t pc => <[pc.1 := File pc.2]> t) t1 (saved k) = files w ->
     exists_ (files w) [script] = true ->
     subprocess_run E [script] (files w) = Ok (code, t) ->
     eval (RunLevel.run_level E level_number) w0 = Ok code /\
     files (exec (RunLevel.run_level E level_number) w0) = t) /\
  (forall w0 wa wb workflow_file k ks p,
     CCCRunner._run_processing_pipeline E level_number w0 = (Ok true, wa) ->
     AIAutomation.create_ai_workflow_file level_number wa = (Ok workflow_file, wb) ->
     keyboard wb = k :: ks ->
     foldl (fun t pc => <[pc.1 := File pc.2]> t) (files wb) (saved k) = files w ->
     eval (CCCCore.find_level_script level_number) w = Ok (Some p) ->
     subprocess_run E [str_path p] (files w) = Ok (code, t) ->
     eval (CCCRunner.run_interactive E level_number) w0 = Ok code /\
     files (exec (CCCRunner.run_interactive E level_number) w0) = t) /\
  (forall w0 wa wb workflow_file k ks,
     (CCCSimple.extract_zip E level_number >>
      let* pdf_text := CCCSimple.extract_pdf_text E level_number in
      CCCSimple.create_ai_prompt level_number pdf_text >>
      CCCSimple.organize_files) w0 = (Ok tt, wa) ->
     CCCSimple.create_ai_workflow level_number wa = (Ok workflow_file, wb) ->
     keyboard wb = k :: ks ->
     foldl (fun t pc => <[pc.1 := File pc.2]> t) (files wb) (saved k) = files w ->
     exists_ (files w) [script] = true ->
     subprocess_run E [script] (files w) = Ok (code, t) ->
     eval (CCCSimple.run_interactive E level_number) w0 = Ok 1%Z /\
     files (exec (CCCSimple.run_interactive E level_number) w0) = t) /\
  (forall w0 p,
     (CCCCore.init >> CCCRunner._run_processing_pipeline E level_number) w0
       = (Ok true, w) ->
     eval (CCCCore.find_level_script level_number) w = Ok (Some p) ->
     subprocess_run E [str_path p] (files w) = Ok (code, t) ->
     let step := ProcessLevel.process_level E level_number true in
     eval step w0 = Ok 0%Z /\
     Log "ERROR" ("Solution failed with exit code " +:+ str_int code)
       ∈ console (exec step w0) /\
     files (exec step w0) = sweep CCCCore.infos (glob t CCCCore.infos "*") t /\
     (is_dir t CCCCore.infos = true ->
      forall n, is_file (files (exec step w0)) (CCCCore.infos ++ [n]) = false)).
Proof.
  intros Hcode script. subst script.
  assert (Hnz : (code =? 0)%Z = false) by (apply Z.eqb_neq, Hcode).
  split; [|split; [|split; [|split; [|split; [|split]]]]].
  - intros p Hp Hchild.
    destruct (runner_solution_failure E level_number w p code t Hcode Hp Hchild)
      as [c Hrun].
    destruct (archive_solution_agrees E level_number w w (alike_refl w))
      as [Heval [Hfiles _]].
    rewrite Heval, Hfiles. unfold eval, exec. rewrite Hrun. repeat split.
  - intros Hex Hchild.
    destruct (run_simple_run_solution E level_number w) as [c Hrun].
    unfold solution_outcome in Hrun. rewrite Hex, Hchild, Hnz in Hrun.
    unfold eval, exec. rewrite Hrun. split; reflexivity.
  - intros w0 r. apply simple_run_interactive_codes.
  - intros w0 k ks t1 Hproc Hkb Hfiles Hex Hchild.
    unfold eval, exec, RunLevel.run_level.
    unfold bind, print, subprocess, input, get_files, ret.
    cbn [files console keyboard]. rewrite Hproc.
    cbn [files console keyboard set_files Z.eqb negb]. rewrite Hkb.
    cbn [files console keyboard set_files].
    rewrite Hfiles, Hex. cbn [negb files]. rewrite Hchild, Hnz. split; reflexivity.
  - intros w0 wa wb workflow_file k ks p Hstage Hflow Hkb Hfiles Hp Hchild.
    destruct (runner_run_interactive_failure E level_number w0 wa wb w workflow_file
                k ks p code t Hcode Hstage Hflow Hkb Hfiles Hp Hchild) as (H1 & H2 & _).
    split; assumption.
  - intros w0 wa wb workflow_file k ks Hstage Hflow Hkb Hfiles Hex Hchild.
    destruct (simple_run_interactive_failure E level_number w0 wa wb workflow_file
                k ks t Hstage Hflow Hkb) as (H1 & H2 & _).
    + unfold solution_outcome. rewrite Hfiles, Hex, Hchild, Hnz. reflexivity.
    + split; assumption.
  - intros w0 p Hstage Hp Hchild. cbv zeta.
    destruct (process_level_after_failure E level_number w0 w p code t Hcode Hstage
                Hp Hchild) as (H1 & H2 & _ & H4).
    split; [exact H1|]. split; [exact H4|]. split; [exact H2|].
    intros Hdir n. rewrite H2. apply sweep_glob_no_file, Hdir.
Qed.

(** The contest scenario with a solution that exits with 7: run through
    [_run_solution] as it is, and through [process_level.py] from the
    start. *)
Lemma nonzero_exit_status_witness :
  7%Z <> 0%Z /\
  eval (CCCRunner._run_solution (contest_env 7) 3) contest_world = Ok 7%Z /\
  files (exec (CCCRunner._run_solution (contest_env 7) 3) contest_world)
    = files contest_world /\
  eval (ProcessLevel.process_level (contest_env 7) 3 true) contest_world = Ok 0%Z.
Proof.
  split; [discriminate|].
  destruct (nonzero_exit_status (contest_env 7) 3 contest_world 7 (files contest_world))
    as [H _]; [discriminate|].
  split; [apply (H ["level3.py"]); reflexivity|].
  split; [apply (H ["level3.py"]); reflexivity|].
  set (staged := exec (CCCCore.init >> CCCRunner._run_processing_pipeline (contest_env 7) 3)
                      contest_world).
  destruct (nonzero_exit_status (contest_env 7) 3 staged 7 (files staged))
    as (_ & _ & _ & _ & _ & _ & H7); [discriminate|].
  apply (H7 contest_world ["level3.py"]).
  - vm_compute. reflexivity.
  - vm_compute. reflexivity.
  - reflexivity.
Defined.

(** C1 as stated fails on [ccc_simple.py] and on [process_level.py].  The
    child exits with 7.  The single-file pipeline returns 1, not 7, and the
    staged statement is still in the staging folder afterwards.  The
    processing step with [--run-solution] returns 0, not 7, and has emptied
    the staging folder. *)
Lemma pipelines_lose_exit_status :
  subprocess_run (contest_env 7) ["level3.py"] (files contest_world)
    = Ok (7%Z, files contest_world) /\
  eval (CCCSimple.main_interactive (contest_env 7) 3) contest_world = Ok 1%Z /\
  eval (CCCSimple.main_interactive (contest_env 7) 3) contest_world <> Ok 7%Z /\
  files (exec (CCCSimple.main_interactive (contest_env 7) 3) contest_world)
    !! ["infos"; "Level 3.pdf"] = Some (File "%PDF") /\
  eval (ProcessLevel.main (contest_env 7) 3 true) contest_world = Ok 0%Z /\
  eval (ProcessLevel.main (contest_env 7) 3 true) contest_world <> Ok 7%Z /\
  Log "ERROR" "Solution failed with exit code 7"
    ∈ console (exec (ProcessLevel.main (contest_env 7) 3 true) contest_world) /\
  files (exec (ProcessLevel.main (contest_env 7) 3 true) contest_world)
    !! ["infos"; "Level 3.pdf"] = None /\
  listdir (files (exec (ProcessLevel.main (contest_env 7) 3 true) contest_world))
    CCCCore.infos = [].
Proof.
  split; [reflexivity|]. split; [vm_compute; reflexivity|].
  split; [vm_compute; discriminate|]. split; [vm_compute; reflexivity|].
  split; [vm_compute; reflexivity|]. split; [vm_compute; discriminate|].
  split; [|split; vm_compute; reflexivity].
  apply list_elem_of_In. vm_compute. tauto.
Qed.

(** ** The prompt when no document text is at hand, across the pipelines *)

(** The extraction of [ccc_core.py] when the PDF library is missing or no
    document is found: [None], with the files and the keyboard as they
    were. *)
Lemma run_core_extract_pdf_text_none (E : env) (level_number : Z) (w : world) :
  PDF_AVAILABLE E = false \/ eval (CCCCore.find_pdf_file E level_number) w = Ok None ->
  exists c,
    CCCCore.extract_pdf_text E level_number w = (Ok None, World (files w) c (keyboard w)).
Proof.
  intros H. unfold CCCCore.extract_pdf_text.
  destruct (PDF_AVAILABLE E) eqn:Hpdf; cbn [negb]; [|eexists; reflexivity].
  destruct H as [H|H]; [discriminate|].
  destruct (observer_run (CCCCore.find_pdf_file E level_number) w) as (v & c & Hrun).
  - apply total_core_find_pdf_file.
  - apply keeps_core_find_pdf_file.
  - unfold CCCCore.find_pdf_file. quiet_auto.
  - unfold eval in H. rewrite Hrun in H. injection H as ->.
    unfold bind at 1. rewrite Hrun. eexists. reflexivity.
Qed.

(** The runner's pipeline from the point where the archive has been
    extracted and the text extraction has answered [None]. *)
Lemma pipeline_after_missing_text (E : env) (level_number : Z) (w w1 : world) :
  (CCCCore.log "Starting processing pipeline..." "STEP" >>
   CCCCore.clear_folder CCCCore.inputs "Inputs" >>
   CCCCore.clear_folder CCCCore.outputs "Outputs" >>
   CCCCore.extract_zip E level_number) w = (Ok true, w1) ->
  PDF_AVAILABLE E = false \/ eval (CCCCore.find_pdf_file E level_number) w1 = Ok None ->
  exists c,
    CCCRunner._run_processing_pipeline E level_number w =
    match CCCCore.organize_files
            (World (files w1)
                   (c ++ [Log "WARNING" "PDF processing failed - manual prompt needed"])
                   (keyboard w1)) with
    | (Ok counts, w3) =>
        (Ok true,
         World (files w3) (console w3 ++ [Log "SUCCESS" "Processing pipeline completed"])
               (keyboard w3))
    | (Raise e, w3) => (Raise e, w3)
    end.
Proof.
  intros Hprefix Hnone.
  destruct (run_core_extract_pdf_text_none E level_number w1 Hnone) as [c Hpdf].
  exists c.
  unfold CCCRunner._run_processing_pipeline. unfold bind in Hprefix |- *.
  destruct (CCCCore.log "Starting processing pipeline..." "STEP" w) as [[[]|e0] u0];
    [|discriminate].
  destruct (CCCCore.clear_folder CCCCore.inputs "Inputs" u0) as [[[]|e1] u1];
    [|discriminate].
  destruct (CCCCore.clear_folder CCCCore.outputs "Outputs" u1) as [[[]|e2] u2];
    [|discriminate].
  destruct (CCCCore.extract_zip E level_number u2) as [[extracted|e3] u3];
    [|discriminate].
  injection Hprefix as -> ->. cbn [negb]. rewrite Hpdf.
  unfold CCCCore.log at 1. cbn [files console keyboard].
  destruct (CCCCore.organize_files _) as [[counts|e] w3]; reflexivity.
Qed.

(** The steps of the runner's pipeline up to the extraction of the archive
    leave the prompt path alone. *)
Lemma pipeline_prefix_keeps_prompt (E : env) (level : Z) (o : option entry) :
  keeps (fun t => t !! CCCCore.get_prompt_file_path level = o)
        (CCCCore.log "Starting processing pipeline..." "STEP" >>
         CCCCore.clear_folder CCCCore.inputs "Inputs" >>
         CCCCore.clear_folder CCCCore.outputs "Outputs" >>
         CCCCore.extract_zip E level).
Proof.
  apply keeps_bind; [auto with keeps|]. intros _.
  apply keeps_bind; [apply keeps_clear_folder; intros n; discriminate|]. intros _.
  apply keeps_bind; [apply keeps_clear_folder; intros n; discriminate|]. intros _.
  apply keeps_extract_zip. simpl. discriminate.
Qed.

Lemma organize_keeps_prompt (level : Z) (o : option entry) :
  keeps (fun t => t !! CCCCore.get_prompt_file_path level = o) CCCCore.organize_files.
Proof.
  apply core_organize_keeps_at.
  - intros m _. apply roots_differ_relative. simpl. discriminate.
  - simpl. discriminate.
  - simpl. discriminate.
Qed.

(** C2, as the code has it.  In [ccc_simple.py] the text extraction never
    raises and yields the empty text when the PDF library is missing or no
    document is found; [create_ai_prompt] then writes the full prompt with
    the placeholder as its description.  In [ccc_core.py] the extraction
    yields [None] in those cases.  The processing pipeline of [CCCRunner]
    then logs its warning and runs the classifier on the files exactly as
    the extraction of the archive left them: the pipeline ends as the
    classifier ends, with [True] when the classifier returns, and the
    prompt path is as it was before the pipeline started - no prompt file
    is written. *)
Theorem prompt_without_document (E : env) (level : Z) (w : world) :
  (exists text, eval (CCCSimple.extract_pdf_text E level) w = Ok text) /\
  (PDF_AVAILABLE E = false \/ (exists e, eval (CCCSimple.find_pdf E level) w = Raise e) ->
   eval (CCCSimple.extract_pdf_text E level) w = Ok "" /\
   files (exec (CCCSimple.extract_pdf_text E level) w) = files w) /\
  (is_dir (files w) (CCCSimple.prompt_file level) = false ->
   eval (CCCSimple.create_ai_prompt level "") w = Ok (CCCSimple.prompt_text level "") /\
   files (exec (CCCSimple.create_ai_prompt level "") w) !! CCCSimple.prompt_file level
     = Some (File (CCCSimple.prompt_text level ""))) /\
  (exists rest : string,
     CCCSimple.prompt_text level "" =
     "# Coding Challenge - Level " +:+ str_int level +:+ nl +:+
     nl +:+
     "## Problembeschreibung:" +:+ nl +:+
     CCCSimple.placeholder +:+ nl +:+
     nl +:+
     "## Aufgabe:" +:+ nl +:+ rest) /\
  (PDF_AVAILABLE E = false \/ eval (CCCCore.find_pdf_file E level) w = Ok None ->
   eval (CCCCore.extract_pdf_text E level) w = Ok None /\
   files (exec (CCCCore.extract_pdf_text E level) w) = files w) /\
  (PDF_AVAILABLE E = false ->
   files (exec (CCCRunner._run_processing_pipeline E level) w)
     !! CCCCore.get_prompt_file_path level
   = files w !! CCCCore.get_prompt_file_path level) /\
  (forall w1,
     (CCCCore.log "Starting processing pipeline..." "STEP" >>
      CCCCore.clear_folder CCCCore.inputs "Inputs" >>
      CCCCore.clear_folder CCCCore.outputs "Outputs" >>
      CCCCore.extract_zip E level) w = (Ok true, w1) ->
     PDF_AVAILABLE E = false \/ eval (CCCCore.find_pdf_file E level) w1 = Ok None ->
     (exists c,
        CCCRunner._run_processing_pipeline E level w =
        match CCCCore.organize_files
                (World (files w1)
                       (c ++ [Log "WARNING" "PDF processing failed - manual prompt needed"])
                       (keyboard w1)) with
        | (Ok counts, w3) =>
            (Ok true,
             World (files w3)
                   (console w3 ++ [Log "SUCCESS" "Processing pipeline completed"])
                   (keyboard w3))
        | (Raise e, w3) => (Raise e, w3)
        end) /\
     files (exec (CCCRunner._run_processing_pipeline E level) w)
       !! CCCCore.get_prompt_file_path level
     = files w !! CCCCore.get_prompt_file_path level).
Proof.
  split; [apply simple_extract_pdf_text_total|].
  split; [|split; [|split; [apply simple_prompt_placeholder|split; [|split]]]].
  - intros H. split; [|apply (keeps_simple_extract_pdf_text E level (fun t => t = files w) w eq_refl)].
    unfold eval, CCCSimple.extract_pdf_text.
    destruct (PDF_AVAILABLE E) eqn:Hpdf; cbn [negb]; [|reflexivity].
    destruct H as [H | [e He]]; [discriminate|].
    unfold try_except. unfold bind at 1. unfold eval in He.
    destruct (CCCSimple.find_pdf E level w) as [[v|e'] w1]; simpl in He; [discriminate|].
    reflexivity.
  - intros Hdir. unfold eval, exec, CCCSimple.create_ai_prompt. cbv zeta.
    unfold bind, fs_op, write_text, CCCSimple.log.
    rewrite Hdir. unfold CCCSimple.prompt_file at 1 2. cbn [parent removelast is_dir].
    cbn [files set_files fst snd]. split; [reflexivity|]. apply lookup_insert_eq.
  - intros H. destruct (run_core_extract_pdf_text_none E level w H) as [c Hrun].
    unfold eval, exec. rewrite Hrun. split; reflexivity.
  - intros Hpdf.
    apply (pipeline_keeps_without_pdf E level _ _ Hpdf); simpl; try discriminate.
    reflexivity.
  - intros w1 Hprefix Hnone.
    destruct (pipeline_after_missing_text E level w w1 Hprefix Hnone) as [c Hrun].
    split; [exists c; exact Hrun|].
    unfold exec. rewrite Hrun.
    pose proof (pipeline_prefix_keeps_prompt E level
                  (files w !! CCCCore.get_prompt_file_path level) w eq_refl) as H1.
    unfold exec in H1. rewrite Hprefix in H1. cbn [snd] in H1.
    pose proof (organize_keeps_prompt level
                  (files w !! CCCCore.get_prompt_file_path level)
                  (World (files w1)
                     (c ++ [Log "WARNING" "PDF processing failed - manual prompt needed"])
                     (keyboard w1)) H1) as H2.
    unfold exec in H2.
    destruct (CCCCore.organize_files _) as [[counts|e] w3]; exact H2.
Qed.

(** The contest scenario, in which the PDF library is missing. *)
Lemma prompt_without_document_witness :
  eval (CCCSimple.extract_pdf_text (contest_env 0) 3) contest_world = Ok "" /\
  files (exec (CCCSimple.create_ai_prompt 3 "") contest_world) !! ["level3_prompt.txt"]
    = Some (File (CCCSimple.prompt_text 3 "")) /\
  files (exec (CCCRunner._run_processing_pipeline (contest_env 0) 3) contest_world)
    !! ["prompts"; "level3_prompt.txt"] = None.
Proof.
  destruct (prompt_without_document (contest_env 0) 3 contest_world)
    as (_ & H2 & H3 & _ & _ & _ & H7).
  split; [apply H2; left; reflexivity|].
  split; [apply H3; reflexivity|].
  set (w1 := exec (CCCCore.log "Starting processing pipeline..." "STEP" >>
                   CCCCore.clear_folder CCCCore.inputs "Inputs" >>
                   CCCCore.clear_folder CCCCore.outputs "Outputs" >>
                   CCCCore.extract_zip (contest_env 0) 3) contest_world).
  destruct (H7 w1) as [_ H].
  - vm_compute. reflexivity.
  - left. reflexivity.
  - etransitivity; [exact H | reflexivity].
Defined.

(** C2 as stated fails on [ccc_runner.py]: without the PDF library the
    processing pipeline succeeds, and afterwards there is no prompt file,
    neither at the prompt's path nor anywhere in the prompts folder. *)
Lemma runner_pipeline_writes_no_prompt :
  PDF_AVAILABLE (contest_env 0) = false /\
  eval (CCCRunner._run_processing_pipeline (contest_env 0) 3) contest_world = Ok true /\
  files (exec (CCCRunner._run_processing_pipeline (contest_env 0) 3) contest_world)
    !! CCCCore.get_prompt_file_path 3 = None /\
  listdir (files (exec (CCCRunner._run_processing_pipeline (contest_env 0) 3) contest_world))
    CCCCore.prompts = [].
Proof. repeat split; vm_compute; reflexivity. Qed.
